(** * ETF monitor dashboard client (static/js/main.js)

    A shallow embedding of the browser script: its module-level variables,
    the part of the document it reads and writes, the renderers, the fetch
    wrappers and the event listeners, followed by the properties of the
    script that the specification states and by further properties of the
    renderers, the calls to the server and the listeners.

    Conventions.
    - A JavaScript Number is an IEEE 754 binary64 value, taken from the
      Standard Library's [SpecFloat] with precision 53 and maximal exponent
      1024.
    - A string is a [string] of bytes (UTF-8 for the Korean labels).
    - An [async] function is run to completion at its call: every call
      without [await] in the script is in tail position of its listener, and
      the loading overlay keeps pointer events away while a request is in
      flight.  Interleaving of several pending requests is outside the model.
    - The network is an oracle: the n-th request issued gets the reply the
      oracle has for it. *)

From Stdlib Require Import ZArith NArith Nnat List String Ascii Bool Lia Arith.
From Stdlib Require Decimal DecimalFacts DecimalPos DecimalN.
From Stdlib Require Import DecimalString.
From Stdlib Require Import Floats.SpecFloat.
Import ListNotations.

Local Open Scope list_scope.
Local Open Scope string_scope.

(** ** JavaScript numbers *)

Module JSNumber.

Definition prec : Z := 53.
Definition emax : Z := 1024.

Definition number : Type := spec_float.

(** The Number denoted by an integer literal or by an integer read from
    JSON: the nearest binary64 value (the integer itself below 2^53). *)
Definition of_Z (z : Z) : number := binary_normalize prec emax z 0 false.

Definition div (x y : number) : number := SFdiv prec emax x y.

(** [x >= y], [x > y] and [x < y]; all false when an operand is NaN. *)
Definition ge (x y : number) : bool := SFleb y x.
Definition gt (x y : number) : bool := SFltb y x.
Definition lt (x y : number) : bool := SFltb x y.

(** Decimal digits of a non-negative integer, ["0"] for zero. *)
Definition decimal (n : Z) : string :=
  NilZero.string_of_uint (N.to_uint (Z.to_N n)).

Fixpoint zeros (k : nat) : string :=
  match k with
  | O => EmptyString
  | S k' => String "0" (zeros k')
  end.

(** Number.prototype.toFixed, step "let n be an integer for which
    n / 10^f - x is as close to zero as possible; if there are two such n,
    pick the larger n", for x = m * 2^e. *)
Definition nearest_scaled (m : positive) (e : Z) (f : nat) : Z :=
  let s := (Zpos m * 10 ^ Z.of_nat f)%Z in
  match e with
  | Zneg p => ((2 * s + 2 ^ Zpos p) / 2 ^ (Zpos p + 1))%Z
  | _ => (s * 2 ^ e)%Z
  end.

(** The digits of n with the decimal point f places from the right, padded
    with leading zeros up to f + 1 digits. *)
Definition fixed_digits (n : Z) (f : nat) : string :=
  let m := decimal n in
  match f with
  | O => m
  | S _ =>
      let m' := zeros (S f - String.length m) ++ m in
      let k := String.length m' in
      substring 0 (k - f) m' ++ "." ++ substring (k - f) f m'
  end.

(** [m * 2^e >= 10^21] *)
Definition ge_1e21 (m : positive) (e : Z) : bool :=
  match e with
  | Zneg p => (10 ^ 21 * 2 ^ Zpos p <=? Zpos m)%Z
  | _ => (10 ^ 21 <=? Zpos m * 2 ^ e)%Z
  end.

Definition sign (s : bool) : string := if s then "-" else EmptyString.

Section ToFixed.

(** Number::toString is a parameter: toFixed falls back on it from 10^21
    on, and template literals use it for numbers. *)
Variable Number_toString : number -> string.

(** Number.prototype.toFixed(f) for 0 <= f <= 100. *)
Definition toFixed (x : number) (f : nat) : string :=
  match x with
  | S754_nan => "NaN"
  | S754_infinity s => sign s ++ "Infinity"
  | S754_zero _ => fixed_digits 0 f
  | S754_finite s m e =>
      sign s ++
      (if ge_1e21 m e then Number_toString (S754_finite false m e)
       else fixed_digits (nearest_scaled m e f) f)
  end.

End ToFixed.

End JSNumber.

Import JSNumber.

(** ** Data received from the server

    The shapes are those of the endpoints the script reads.  A field is
    optional where the script itself guards it ([x || y], [x?.y]) or where
    only one variant of a row carries it. *)

Module Etf.
Record t := { ticker : string; name : string }.
End Etf.

Module Holding.
Record t := {
  stock_ticker : string;
  stock_name : string;
  prev_weight : number;
  current_weight : number;
  change : number;
  current_amount : number;
  status : string
}.
End Holding.

Module Comparison.
Record t := {
  etf_ticker : string;
  etf_name : option string;
  prev_date : string;
  current_date : string;
  comparison : list Holding.t
}.
End Comparison.

Module History.
Record point := { date : string; weight : number; amount : number }.
Record t := { history : list point }.
End History.

Module Stats.
Record row := {
  name : string;
  ticker : string;
  etf_count : number;
  total_amount : number;
  avg_weight : option number;
  max_weight : option number
}.
Record t := {
  date : string;
  stocks : option (list row);
  duplicate_stocks : option (list row)
}.
End Stats.

Module Themes.
Record t := { themes : option (list string) }.
End Themes.

Module Message.
Record t := { message : string }.
End Message.

(** What one request comes to: the promise of [fetch] rejects, or it
    resolves to a response with its [ok] flag and a body that [json()]
    decodes ([None] when decoding fails). *)
Inductive reply (B : Type) : Type :=
| Rejected
| Responded (ok : bool) (body : option B).
Arguments Rejected {B}.
Arguments Responded {B} ok body.

(** The network: the reply to the n-th request of the page, by the kind of
    body the calling wrapper decodes, for the URL requested. *)
Record network := {
  message_reply : nat -> string -> reply Message.t;
  etfs_reply : nat -> string -> reply (list Etf.t);
  themes_reply : nat -> string -> reply Themes.t;
  comparison_reply : nat -> string -> reply Comparison.t;
  history_reply : nat -> string -> reply History.t;
  stats_reply : nat -> string -> reply Stats.t
}.

(** ** The document and the script's variables *)

Inductive view := etf | stats.

Definition view_eqb (a b : view) : bool :=
  match a, b with
  | etf, etf | stats, stats => true
  | _, _ => false
  end.

(** An item of #etf-list. *)
Record li := { li_text : string; li_ticker : option string; li_active : bool }.

(** A table cell and a table row with its data attributes. *)
Record td := { td_colspan : option nat; td_class : option string; td_text : string }.
Record tr := { stockTicker : option string; stockName : option string; cells : list td }.

(** A Chart.js instance: the data the script hands to the constructor. *)
Record chart := {
  chart_id : nat;
  labels : list string;
  weightData : list number;
  amountData : list number
}.

(** Module-level variables of the script. *)
Record script := {
  allEtfs : list Etf.t;
  currentEtfData : option Comparison.t;
  holdingsData : list Holding.t;
  weightChart : option nat;
  currentView : view;
  allThemes : list string
}.

(** Presence of the class [hidden] on the four panels. *)
Record panels := {
  welcomeMessage_hidden : bool;
  etfDetails_hidden : bool;
  statsView_hidden : bool;
  chartContainer_hidden : bool
}.

(** Text content of the elements the script writes. *)
Record texts := {
  loadingText : string;
  viewToggle_text : string;
  etf_name_text : string;
  etf_ticker_text : string;
  etf_dates_text : string;
  stats_date_text : string;
  stock_name_chart_text : string
}.

Record tables := {
  etfList : list li;
  holdingsTableBody : list tr;
  statsTableBody : list tr;
  statsTableHead : list string
}.

Record controls := {
  holdingsCountSelect_value : string;
  statsTypeSelect_value : string;
  themeSelect_value : string;
  themeSelect_disabled : bool;
  themeSelect_options : list (string * string)
}.

Record styles := {
  loadingOverlay_display : string;
  body_pointerEvents : string;
  loadingOverlay_pointerEvents : string
}.

(** The rest of the browser: the Chart instances not yet destroyed, the
    number of instances built, and the number of requests issued. *)
Record browser := {
  live_charts : list chart;
  charts_built : nat;
  requests : nat
}.

Record page := {
  js : script;
  classes : panels;
  text : texts;
  dom : tables;
  inputs : controls;
  style : styles;
  env : browser
}.

(** Assignment to one field of a record. *)

Definition set_allEtfs v (r : script) : script :=
  {| allEtfs := v;
     currentEtfData := currentEtfData r;
     holdingsData := holdingsData r;
     weightChart := weightChart r;
     currentView := currentView r;
     allThemes := allThemes r |}.

Definition set_currentEtfData v (r : script) : script :=
  {| allEtfs := allEtfs r;
     currentEtfData := v;
     holdingsData := holdingsData r;
     weightChart := weightChart r;
     currentView := currentView r;
     allThemes := allThemes r |}.

Definition set_holdingsData v (r : script) : script :=
  {| allEtfs := allEtfs r;
     currentEtfData := currentEtfData r;
     holdingsData := v;
     weightChart := weightChart r;
     currentView := currentView r;
     allThemes := allThemes r |}.

Definition set_weightChart v (r : script) : script :=
  {| allEtfs := allEtfs r;
     currentEtfData := currentEtfData r;
     holdingsData := holdingsData r;
     weightChart := v;
     currentView := currentView r;
     allThemes := allThemes r |}.

Definition set_currentView v (r : script) : script :=
  {| allEtfs := allEtfs r;
     currentEtfData := currentEtfData r;
     holdingsData := holdingsData r;
     weightChart := weightChart r;
     currentView := v;
     allThemes := allThemes r |}.

Definition set_allThemes v (r : script) : script :=
  {| allEtfs := allEtfs r;
     currentEtfData := currentEtfData r;
     holdingsData := holdingsData r;
     weightChart := weightChart r;
     currentView := currentView r;
     allThemes := v |}.

Definition set_welcomeMessage_hidden v (r : panels) : panels :=
  {| welcomeMessage_hidden := v;
     etfDetails_hidden := etfDetails_hidden r;
     statsView_hidden := statsView_hidden r;
     chartContainer_hidden := chartContainer_hidden r |}.

Definition set_etfDetails_hidden v (r : panels) : panels :=
  {| welcomeMessage_hidden := welcomeMessage_hidden r;
     etfDetails_hidden := v;
     statsView_hidden := statsView_hidden r;
     chartContainer_hidden := chartContainer_hidden r |}.

Definition set_statsView_hidden v (r : panels) : panels :=
  {| welcomeMessage_hidden := welcomeMessage_hidden r;
     etfDetails_hidden := etfDetails_hidden r;
     statsView_hidden := v;
     chartContainer_hidden := chartContainer_hidden r |}.

Definition set_chartContainer_hidden v (r : panels) : panels :=
  {| welcomeMessage_hidden := welcomeMessage_hidden r;
     etfDetails_hidden := etfDetails_hidden r;
     statsView_hidden := statsView_hidden r;
     chartContainer_hidden := v |}.

Definition set_loadingText v (r : texts) : texts :=
  {| loadingText := v;
     viewToggle_text := viewToggle_text r;
     etf_name_text := etf_name_text r;
     etf_ticker_text := etf_ticker_text r;
     etf_dates_text := etf_dates_text r;
     stats_date_text := stats_date_text r;
     stock_name_chart_text := stock_name_chart_text r |}.

Definition set_viewToggle_text v (r : texts) : texts :=
  {| loadingText := loadingText r;
     viewToggle_text := v;
     etf_name_text := etf_name_text r;
     etf_ticker_text := etf_ticker_text r;
     etf_dates_text := etf_dates_text r;
     stats_date_text := stats_date_text r;
     stock_name_chart_text := stock_name_chart_text r |}.

Definition set_etf_name_text v (r : texts) : texts :=
  {| loadingText := loadingText r;
     viewToggle_text := viewToggle_text r;
     etf_name_text := v;
     etf_ticker_text := etf_ticker_text r;
     etf_dates_text := etf_dates_text r;
     stats_date_text := stats_date_text r;
     stock_name_chart_text := stock_name_chart_text r |}.

Definition set_etf_ticker_text v (r : texts) : texts :=
  {| loadingText := loadingText r;
     viewToggle_text := viewToggle_text r;
     etf_name_text := etf_name_text r;
     etf_ticker_text := v;
     etf_dates_text := etf_dates_text r;
     stats_date_text := stats_date_text r;
     stock_name_chart_text := stock_name_chart_text r |}.

Definition set_etf_dates_text v (r : texts) : texts :=
  {| loadingText := loadingText r;
     viewToggle_text := viewToggle_text r;
     etf_name_text := etf_name_text r;
     etf_ticker_text := etf_ticker_text r;
     etf_dates_text := v;
     stats_date_text := stats_date_text r;
     stock_name_chart_text := stock_name_chart_text r |}.

Definition set_stats_date_text v (r : texts) : texts :=
  {| loadingText := loadingText r;
     viewToggle_text := viewToggle_text r;
     etf_name_text := etf_name_text r;
     etf_ticker_text := etf_ticker_text r;
     etf_dates_text := etf_dates_text r;
     stats_date_text := v;
     stock_name_chart_text := stock_name_chart_text r |}.

Definition set_stock_name_chart_text v (r : texts) : texts :=
  {| loadingText := loadingText r;
     viewToggle_text := viewToggle_text r;
     etf_name_text := etf_name_text r;
     etf_ticker_text := etf_ticker_text r;
     etf_dates_text := etf_dates_text r;
     stats_date_text := stats_date_text r;
     stock_name_chart_text := v |}.

Definition set_etfList v (r : tables) : tables :=
  {| etfList := v;
     holdingsTableBody := holdingsTableBody r;
     statsTableBody := statsTableBody r;
     statsTableHead := statsTableHead r |}.

Definition set_holdingsTableBody v (r : tables) : tables :=
  {| etfList := etfList r;
     holdingsTableBody := v;
     statsTableBody := statsTableBody r;
     statsTableHead := statsTableHead r |}.

Definition set_statsTableBody v (r : tables) : tables :=
  {| etfList := etfList r;
     holdingsTableBody := holdingsTableBody r;
     statsTableBody := v;
     statsTableHead := statsTableHead r |}.

Definition set_statsTableHead v (r : tables) : tables :=
  {| etfList := etfList r;
     holdingsTableBody := holdingsTableBody r;
     statsTableBody := statsTableBody r;
     statsTableHead := v |}.

Definition set_holdingsCountSelect_value v (r : controls) : controls :=
  {| holdingsCountSelect_value := v;
     statsTypeSelect_value := statsTypeSelect_value r;
     themeSelect_value := themeSelect_value r;
     themeSelect_disabled := themeSelect_disabled r;
     themeSelect_options := themeSelect_options r |}.

Definition set_statsTypeSelect_value v (r : controls) : controls :=
  {| holdingsCountSelect_value := holdingsCountSelect_value r;
     statsTypeSelect_value := v;
     themeSelect_value := themeSelect_value r;
     themeSelect_disabled := themeSelect_disabled r;
     themeSelect_options := themeSelect_options r |}.

Definition set_themeSelect_value v (r : controls) : controls :=
  {| holdingsCountSelect_value := holdingsCountSelect_value r;
     statsTypeSelect_value := statsTypeSelect_value r;
     themeSelect_value := v;
     themeSelect_disabled := themeSelect_disabled r;
     themeSelect_options := themeSelect_options r |}.

Definition set_themeSelect_disabled v (r : controls) : controls :=
  {| holdingsCountSelect_value := holdingsCountSelect_value r;
     statsTypeSelect_value := statsTypeSelect_value r;
     themeSelect_value := themeSelect_value r;
     themeSelect_disabled := v;
     themeSelect_options := themeSelect_options r |}.

Definition set_themeSelect_options v (r : controls) : controls :=
  {| holdingsCountSelect_value := holdingsCountSelect_value r;
     statsTypeSelect_value := statsTypeSelect_value r;
     themeSelect_value := themeSelect_value r;
     themeSelect_disabled := themeSelect_disabled r;
     themeSelect_options := v |}.

Definition set_loadingOverlay_display v (r : styles) : styles :=
  {| loadingOverlay_display := v;
     body_pointerEvents := body_pointerEvents r;
     loadingOverlay_pointerEvents := loadingOverlay_pointerEvents r |}.

Definition set_body_pointerEvents v (r : styles) : styles :=
  {| loadingOverlay_display := loadingOverlay_display r;
     body_pointerEvents := v;
     loadingOverlay_pointerEvents := loadingOverlay_pointerEvents r |}.

Definition set_loadingOverlay_pointerEvents v (r : styles) : styles :=
  {| loadingOverlay_display := loadingOverlay_display r;
     body_pointerEvents := body_pointerEvents r;
     loadingOverlay_pointerEvents := v |}.

Definition set_live_charts v (r : browser) : browser :=
  {| live_charts := v;
     charts_built := charts_built r;
     requests := requests r |}.

Definition set_charts_built v (r : browser) : browser :=
  {| live_charts := live_charts r;
     charts_built := v;
     requests := requests r |}.

Definition set_requests v (r : browser) : browser :=
  {| live_charts := live_charts r;
     charts_built := charts_built r;
     requests := v |}.


(** Update of one component of the page. *)

Definition with_js (f : script -> script) (s : page) : page :=
  {| js := f (js s);
     classes := classes s;
     text := text s;
     dom := dom s;
     inputs := inputs s;
     style := style s;
     env := env s |}.

Definition with_classes (f : panels -> panels) (s : page) : page :=
  {| js := js s;
     classes := f (classes s);
     text := text s;
     dom := dom s;
     inputs := inputs s;
     style := style s;
     env := env s |}.

Definition with_text (f : texts -> texts) (s : page) : page :=
  {| js := js s;
     classes := classes s;
     text := f (text s);
     dom := dom s;
     inputs := inputs s;
     style := style s;
     env := env s |}.

Definition with_dom (f : tables -> tables) (s : page) : page :=
  {| js := js s;
     classes := classes s;
     text := text s;
     dom := f (dom s);
     inputs := inputs s;
     style := style s;
     env := env s |}.

Definition with_inputs (f : controls -> controls) (s : page) : page :=
  {| js := js s;
     classes := classes s;
     text := text s;
     dom := dom s;
     inputs := f (inputs s);
     style := style s;
     env := env s |}.

Definition with_style (f : styles -> styles) (s : page) : page :=
  {| js := js s;
     classes := classes s;
     text := text s;
     dom := dom s;
     inputs := inputs s;
     style := f (style s);
     env := env s |}.

Definition with_env (f : browser -> browser) (s : page) : page :=
  {| js := js s;
     classes := classes s;
     text := text s;
     dom := dom s;
     inputs := inputs s;
     style := style s;
     env := f (env s) |}.

(** ** Effects, exceptions and the monad of the script *)

Inductive exn :=
| NetworkError          (* the promise of fetch rejected *)
| ResponseNotOk         (* new Error('Network response was not ok') *)
| SyntaxError           (* response.json() rejected *)
| TypeError.            (* a method called on undefined *)

Inductive table := etf_list | holdings_table | stats_table.

Inductive panel := welcomeMessage | etfDetails | statsView | chartContainer.

(** What a run of the script does, in order: requests, console output,
    alerts, navigation, calls into Chart.js, and the updates of the document
    that the properties below speak about. *)
Inductive effect :=
| Fetch (method url : string)
| ConsoleError (label : string) (e : exn)
| Alert (message : string)
| Navigate (url : string)
| ChartNew (c : nat)
| ChartDestroy (c : nat)
| Overlay (shown : bool)
| PanelHidden (p : panel) (hidden : bool)
| Cleared (t : table).

Inductive completion (A : Type) : Type :=
| Return (a : A)
| Throw (e : exn).
Arguments Return {A} a.
Arguments Throw {A} e.

(** A computation of the script: from a page to a completion, the page
    afterwards and the effects performed. *)
Definition M (A : Type) : Type := page -> completion A * page * list effect.

Definition ret {A} (a : A) : M A := fun s => (Return a, s, []).

Definition bind {A B} (m : M A) (k : A -> M B) : M B :=
  fun s =>
    match m s with
    | (Return a, s1, t1) =>
        let '(r, s2, t2) := k a s1 in (r, s2, (t1 ++ t2)%list)
    | (Throw e, s1, t1) => (Throw e, s1, t1)
    end.

Definition throw {A} (e : exn) : M A := fun s => (Throw e, s, []).

Definition get : M page := fun s => (Return s, s, []).

Definition modify (f : page -> page) : M unit := fun s => (Return tt, f s, []).

Definition emit (e : effect) : M unit := fun s => (Return tt, s, [e]).

Declare Scope js_scope.
Delimit Scope js_scope with js.
Notation "x <- m ;; k" := (bind m (fun x => k))
  (at level 61, m at next level, right associativity) : js_scope.
Notation "m ;; k" := (bind m (fun _ => k))
  (at level 61, right associativity) : js_scope.
Local Open Scope js_scope.

(** try { body } catch (error) { handler error } *)
Definition try_catch {A} (body : M A) (handler : exn -> M A) : M A :=
  fun s =>
    match body s with
    | (Return a, s1, t1) => (Return a, s1, t1)
    | (Throw e, s1, t1) =>
        let '(r, s2, t2) := handler e s1 in (r, s2, (t1 ++ t2)%list)
    end.

(** try { body } finally { cleanup }: the cleanup runs on both completions
    and, when it returns, the completion of the body stands. *)
Definition try_finally {A} (body : M A) (cleanup : M unit) : M A :=
  fun s =>
    let '(r, s1, t1) := body s in
    match cleanup s1 with
    | (Return _, s2, t2) => (r, s2, (t1 ++ t2)%list)
    | (Throw e, s2, t2) => (Throw e, s2, (t1 ++ t2)%list)
    end.

Definition try_catch_finally {A} (body : M A) (handler : exn -> M A)
    (cleanup : M unit) : M A :=
  try_finally (try_catch body handler) cleanup.

(** Array.prototype.forEach with a callback that may throw. *)
Fixpoint forEach_from {A} (i : nat) (f : A -> nat -> M unit) (l : list A) : M unit :=
  match l with
  | [] => ret tt
  | x :: l' => f x i ;; forEach_from (S i) f l'
  end.

Definition forEach {A} (f : A -> nat -> M unit) (l : list A) : M unit :=
  forEach_from 0 f l.

(** ** Strings *)

(** String.prototype.includes *)
Fixpoint includes (s sub : string) : bool :=
  if prefix sub s then true
  else match s with
       | EmptyString => false
       | String _ s' => includes s' sub
       end.

(** A string is truthy unless it is empty. *)
Definition truthy (s : string) : bool :=
  match s with
  | EmptyString => false
  | _ => true
  end.

Definition nat_to_string (n : nat) : string := decimal (Z.of_nat n).

(** *** parseInt without a radix *)

Inductive parsed := NaN | Int (z : Z).

(** parseInt first skips the white space and the line terminators of the
    language.  Those of one byte: TAB, LF, VT, FF, CR and the space. *)
Definition is_space (c : ascii) : bool :=
  let n := nat_of_ascii c in
  ((9 <=? n) && (n <=? 13) || (n =? 32))%nat.

(** U+00A0 (no-break space) in UTF-8. *)
Definition is_space2 (a b : ascii) : bool :=
  let a := N_of_ascii a in
  let b := N_of_ascii b in
  ((a =? 194) && (b =? 160))%N.

(** Those of three bytes in UTF-8: U+1680; U+2000 to U+200A, U+2028, U+2029
    and U+202F; U+205F; U+3000; U+FEFF (byte order mark). *)
Definition is_space3 (a b c : ascii) : bool :=
  let a := N_of_ascii a in
  let b := N_of_ascii b in
  let c := N_of_ascii c in
  ((a =? 225) && (b =? 154) && (c =? 128)
   || (a =? 226) && (b =? 128)
      && ((128 <=? c) && (c <=? 138) || (c =? 168) || (c =? 169) || (c =? 175))
   || (a =? 226) && (b =? 129) && (c =? 159)
   || (a =? 227) && (b =? 128) && (c =? 128)
   || (a =? 239) && (b =? 187) && (c =? 191))%N.

Fixpoint trim_start (s : string) : string :=
  match s with
  | String a s1 =>
      if is_space a then trim_start s1
      else
        match s1 with
        | String b s2 =>
            if is_space2 a b then trim_start s2
            else
              match s2 with
              | String c s3 => if is_space3 a b c then trim_start s3 else s
              | EmptyString => s
              end
        | EmptyString => s
        end
  | EmptyString => s
  end.

(** The value of a digit in the given radix, if it is one. *)
Definition digit_value (radix : Z) (c : ascii) : option Z :=
  let n := Z.of_nat (nat_of_ascii c) in
  let v :=
    if ((48 <=? n) && (n <=? 57))%Z then Some (n - 48)%Z
    else if ((97 <=? n) && (n <=? 122))%Z then Some (n - 87)%Z
    else if ((65 <=? n) && (n <=? 90))%Z then Some (n - 55)%Z
    else None in
  match v with
  | Some d => if (d <? radix)%Z then Some d else None
  | None => None
  end.

(** The longest prefix of digits, read from the left; [seen] tells whether a
    digit was read. *)
Fixpoint read_digits (radix : Z) (acc : Z) (seen : bool) (s : string) : parsed :=
  match s with
  | String c s' =>
      match digit_value radix c with
      | Some d => read_digits radix (acc * radix + d)%Z true s'
      | None => if seen then Int acc else NaN
      end
  | EmptyString => if seen then Int acc else NaN
  end.

Definition negate (p : parsed) : parsed :=
  match p with
  | NaN => NaN
  | Int z => Int (- z)
  end.

Definition parseInt (input : string) : parsed :=
  let s := trim_start input in
  let '(neg, s1) :=
    match s with
    | String "-" r => (true, r)
    | String "+" r => (false, r)
    | _ => (false, s)
    end in
  let '(radix, s2) :=
    match s1 with
    | String "0" (String "x" r) => (16%Z, r)
    | String "0" (String "X" r) => (16%Z, r)
    | _ => (10%Z, s1)
    end in
  let p := read_digits radix 0 false s2 in
  if neg then negate p else p.

(** Array.prototype.slice(0, end) with the end as parseInt gives it: NaN
    counts as 0, a negative end counts from the length. *)
Definition slice0 {A} (l : list A) (e : parsed) : list A :=
  match e with
  | NaN => []
  | Int z =>
      if (z <? 0)%Z then firstn (Z.to_nat (Z.max (Z.of_nat (List.length l) + z) 0)) l
      else firstn (Z.to_nat z) l
  end.

(** ** The script *)

Section Script.

(** Built-ins taken as parameters. *)
Variable Number_toString : number -> string.
Variable toLowerCase : string -> string.
Variable encodeURIComponent : string -> string.

Variable net : network.

(** *** Primitives on the page *)

Definition assign (f : script -> script) : M unit := modify (with_js f).

(** element.classList.add('hidden') and .remove('hidden') *)
Definition set_panel (p : panel) (h : bool) : panels -> panels :=
  match p with
  | welcomeMessage => set_welcomeMessage_hidden h
  | etfDetails => set_etfDetails_hidden h
  | statsView => set_statsView_hidden h
  | chartContainer => set_chartContainer_hidden h
  end.

Definition classList_add_hidden (p : panel) : M unit :=
  modify (with_classes (set_panel p true)) ;; emit (PanelHidden p true).

Definition classList_remove_hidden (p : panel) : M unit :=
  modify (with_classes (set_panel p false)) ;; emit (PanelHidden p false).

Definition console_error (label : string) (e : exn) : M unit :=
  emit (ConsoleError label e).

Definition alert (message : string) : M unit := emit (Alert message).

(** fetch: the request is counted and answered by the oracle; a rejected
    promise is a thrown error at the [await]. *)
Definition fetch {B} (answer : network -> nat -> string -> reply B)
    (method url : string) : M (bool * option B) :=
  s <- get ;;
  modify (with_env (set_requests (S (requests (env s))))) ;;
  emit (Fetch method url) ;;
  match answer net (requests (env s)) url with
  | Rejected => throw NetworkError
  | Responded ok body => ret (ok, body)
  end.

(** await response.json() *)
Definition json {B} (response : bool * option B) : M B :=
  match snd response with
  | Some b => ret b
  | None => throw SyntaxError
  end.

(** if (!response.ok) throw new Error('Network response was not ok') *)
Definition check_ok {B} (response : bool * option B) : M unit :=
  if fst response then ret tt else throw ResponseNotOk.

(** chart.destroy(): the instance is no longer live; destroying an
    instance again changes nothing. *)
Definition destroy (c : nat) : M unit :=
  modify (with_env (fun b =>
    set_live_charts (filter (fun k => negb (chart_id k =? c)%nat) (live_charts b)) b)) ;;
  emit (ChartDestroy c).

(** new Chart(canvas, config) *)
Definition new_Chart (ls : list string) (ws ams : list number) : M nat :=
  s <- get ;;
  let c := charts_built (env s) in
  modify (with_env (fun b =>
    set_charts_built (S c)
      (set_live_charts
         ({| chart_id := c; labels := ls; weightData := ws; amountData := ams |}
          :: live_charts b) b))) ;;
  emit (ChartNew c) ;;
  ret c.

(** *** Utilities *)

(** formatAmount *)
Definition formatAmount (amount : number) : string :=
  let billion := div amount (of_Z 100000000) in
  if ge billion (of_Z 1) then
    toFixed Number_toString billion 1 ++ "억원"
  else
    let million := div amount (of_Z 10000000) in
    toFixed Number_toString million 0 ++ "백만원".

(** showLoading *)
Definition showLoading (t : string) : M unit :=
  modify (with_text (set_loadingText t)) ;;
  modify (with_style (set_loadingOverlay_display "flex")) ;;
  modify (with_style (set_body_pointerEvents "none")) ;;
  modify (with_style (set_loadingOverlay_pointerEvents "auto")) ;;
  emit (Overlay true).

(** hideLoading *)
Definition hideLoading : M unit :=
  modify (with_style (set_loadingOverlay_display "none")) ;;
  modify (with_style (set_body_pointerEvents "auto")) ;;
  emit (Overlay false).

(** *** Renderers *)

(** renderEtfList *)
Definition renderEtfList (etfs : list Etf.t) : M unit :=
  modify (with_dom (set_etfList [])) ;;
  emit (Cleared etf_list) ;;
  match etfs with
  | [] =>
      modify (with_dom (set_etfList
        [ {| li_text := "표시할 ETF가 없습니다."; li_ticker := None; li_active := false |} ]))
  | _ =>
      forEach (fun e _ =>
        modify (with_dom (fun d =>
          set_etfList (etfList d ++
            [ {| li_text := Etf.name e; li_ticker := Some (Etf.ticker e);
                 li_active := false |} ])%list d))) etfs
  end.

Definition cell (class : option string) (content : string) : td :=
  {| td_colspan := None; td_class := class; td_text := content |}.

Definition placeholder_row (span : nat) (content : string) : tr :=
  {| stockTicker := None; stockName := None;
     cells := [ {| td_colspan := Some span; td_class := None; td_text := content |} ] |}.

Definition changeClass (item : Holding.t) : string :=
  if gt (Holding.change item) (of_Z 0) then "change-positive"
  else if lt (Holding.change item) (of_Z 0) then "change-negative"
  else EmptyString.

Definition statusClass (item : Holding.t) : string :=
  "status-" ++
  (if String.eqb (Holding.status item) "신규" then "new"
   else if String.eqb (Holding.status item) "제외" then "removed"
   else if String.eqb (Holding.status item) "비중 증가" then "increase"
   else if String.eqb (Holding.status item) "비중 감소" then "decrease"
   else "hold").

(** The row built in the callback of renderHoldingsTable: the data
    attributes, and the cells of the template with the strings the script
    puts into them.  The script assigns the template to innerHTML without
    escaping, so these are the cells of the element when the name and the
    status carry no markup; the first cell, before both, is always as
    here. *)
Definition holding_row (item : Holding.t) (index : nat) : tr :=
  {| stockTicker := Some (Holding.stock_ticker item);
     stockName := Some (Holding.stock_name item);
     cells :=
       [ cell None (nat_to_string (index + 1));
         cell None (Holding.stock_name item);
         cell (Some "text-right") (toFixed Number_toString (Holding.prev_weight item) 2);
         cell (Some "text-right") (toFixed Number_toString (Holding.current_weight item) 2);
         cell (Some ("text-right " ++ changeClass item))
           ((if gt (Holding.change item) (of_Z 0) then "+" else EmptyString)
            ++ toFixed Number_toString (Holding.change item) 2);
         cell (Some "text-right amount-cell") (formatAmount (Holding.current_amount item));
         cell (Some (statusClass item)) (Holding.status item) ] |}.

(** const dataToShow = count === 'all' ? holdingsData
                                       : holdingsData.slice(0, parseInt(count)) *)
Definition dataToShow (count : string) (data : list Holding.t) : list Holding.t :=
  if String.eqb count "all" then data else slice0 data (parseInt count).

(** renderHoldingsTable *)
Definition renderHoldingsTable : M unit :=
  modify (with_dom (set_holdingsTableBody [])) ;;
  emit (Cleared holdings_table) ;;
  s <- get ;;
  let count := holdingsCountSelect_value (inputs s) in
  match dataToShow count (holdingsData (js s)) with
  | [] =>
      modify (with_dom (set_holdingsTableBody
        [ placeholder_row 7 "구성 종목 정보가 없습니다." ]))
  | shown =>
      forEach (fun item index =>
        modify (with_dom (fun d =>
          set_holdingsTableBody (holdingsTableBody d ++ [ holding_row item index ])%list d)))
        shown
  end.

(** The row built in the callback of renderStatsTable; reading
    [item.avg_weight.toFixed] (or [max_weight]) of a row without the field
    is a TypeError.  The cells are those of the template with the strings
    the script puts into them: the template is assigned to innerHTML without
    escaping, so they are the cells of the element when the strings carry no
    markup; the first cell, before all of them, is always as here. *)
Definition stats_row (item : Stats.row) (index : nat) (type : string) : M tr :=
  if String.eqb type "duplicate" then
    match Stats.avg_weight item with
    | None => throw TypeError
    | Some w =>
        ret {| stockTicker := None; stockName := None;
               cells :=
                 [ cell None (nat_to_string (index + 1));
                   cell None (Stats.name item);
                   cell None (Stats.ticker item);
                   cell (Some "text-right") (Number_toString (Stats.etf_count item) ++ "개");
                   cell (Some "text-right") (formatAmount (Stats.total_amount item));
                   cell (Some "text-right") (toFixed Number_toString w 2 ++ "%") ] |}
    end
  else if String.eqb type "amount" then
    match Stats.max_weight item with
    | None => throw TypeError
    | Some w =>
        ret {| stockTicker := None; stockName := None;
               cells :=
                 [ cell None (nat_to_string (index + 1));
                   cell None (Stats.name item);
                   cell None (Stats.ticker item);
                   cell (Some "text-right") (formatAmount (Stats.total_amount item));
                   cell (Some "text-right") (Number_toString (Stats.etf_count item) ++ "개");
                   cell (Some "text-right") (toFixed Number_toString w 2 ++ "%") ] |}
    end
  else ret {| stockTicker := None; stockName := None; cells := [] |}.

(** renderStatsTable *)
Definition renderStatsTable (data : list Stats.row) (type : string) : M unit :=
  modify (with_dom (set_statsTableBody [])) ;;
  emit (Cleared stats_table) ;;
  match data with
  | [] =>
      modify (with_dom (set_statsTableBody
        [ placeholder_row 6 "통계 데이터가 없습니다." ]))
  | _ =>
      forEach (fun item index =>
        row <- stats_row item index type ;;
        modify (with_dom (fun d =>
          set_statsTableBody (statsTableBody d ++ [ row ])%list d)))
        data
  end.

(** updateStatsTableHeaders *)
Definition updateStatsTableHeaders (type : string) : M unit :=
  if String.eqb type "duplicate" then
    modify (with_dom (set_statsTableHead
      [ "순위"; "종목명"; "종목코드"; "중복 ETF 수"; "총 평가금액"; "평균 비중(%)" ]))
  else if String.eqb type "amount" then
    modify (with_dom (set_statsTableHead
      [ "순위"; "종목명"; "종목코드"; "총 평가금액"; "포함 ETF 수"; "최대 비중(%)" ]))
  else ret tt.

(** renderWeightChart *)
Definition renderWeightChart (stockName : string) (history : list History.point) : M unit :=
  classList_remove_hidden chartContainer ;;
  modify (with_text (set_stock_name_chart_text stockName)) ;;
  let ls := map History.date history in
  let ws := map History.weight history in
  let ams := map (fun item => div (History.amount item) (of_Z 100000000)) history in
  s <- get ;;
  match weightChart (js s) with
  | Some c => destroy c
  | None => ret tt
  end ;;
  c <- new_Chart ls ws ams ;;
  assign (set_weightChart (Some c)).

(** *** Calls to the server *)

(** fetchEtfList *)
Definition fetchEtfList : M unit :=
  try_catch
    (response <- fetch etfs_reply "GET" "/api/etfs" ;;
     check_ok response ;;
     etfs <- json response ;;
     assign (set_allEtfs etfs) ;;
     renderEtfList etfs)
    (fun error => console_error "Error fetching ETF list:" error).

(** loadThemes *)
Definition loadThemes : M unit :=
  try_catch
    (response <- fetch themes_reply "GET" "/api/config/themes" ;;
     check_ok response ;;
     result <- json response ;;
     let ts := match Themes.themes result with Some l => l | None => [] end in
     assign (set_allThemes ts) ;;
     modify (with_inputs (fun c =>
       set_themeSelect_value EmptyString (set_themeSelect_options [ (EmptyString, "전체") ] c))) ;;
     forEach (fun theme _ =>
       modify (with_inputs (fun c =>
         set_themeSelect_options (themeSelect_options c ++ [ (theme, theme) ])%list c))) ts)
    (fun error => console_error "Error loading themes:" error).

(** initializeApp *)
Definition initializeApp : M unit :=
  showLoading "애플리케이션을 초기화하고 있습니다. 잠시만 기다려주세요..." ;;
  try_catch_finally
    (response <- fetch message_reply "POST" "/api/system/initialize" ;;
     result <- json response ;;
     alert (Message.message result) ;;
     fetchEtfList ;;
     loadThemes)
    (fun error =>
       console_error "Initialization error:" error ;;
       alert "초기화 중 오류가 발생했습니다.")
    hideLoading.

(** allEtfs.find(e => e.ticker === ticker) *)
Definition find_etf (t : string) (l : list Etf.t) : option Etf.t :=
  find (fun e => String.eqb (Etf.ticker e) t) l.

(** currentEtfData.etf_name || selectedEtf?.name || 'Unknown ETF' *)
Definition display_name (d : Comparison.t) (selectedEtf : option Etf.t) : string :=
  match Comparison.etf_name d with
  | Some n => if truthy n then n else
      match selectedEtf with
      | Some e => if truthy (Etf.name e) then Etf.name e else "Unknown ETF"
      | None => "Unknown ETF"
      end
  | None =>
      match selectedEtf with
      | Some e => if truthy (Etf.name e) then Etf.name e else "Unknown ETF"
      | None => "Unknown ETF"
      end
  end.

(** fetchEtfDetails *)
Definition fetchEtfDetails (t : string) : M unit :=
  showLoading "ETF 상세 정보를 불러오는 중입니다..." ;;
  try_catch_finally
    (response <- fetch comparison_reply "GET" ("/api/etf/" ++ t ++ "/comparison") ;;
     check_ok response ;;
     d <- json response ;;
     assign (set_currentEtfData (Some d)) ;;
     assign (set_holdingsData (Comparison.comparison d)) ;;
     classList_add_hidden welcomeMessage ;;
     classList_remove_hidden etfDetails ;;
     classList_add_hidden chartContainer ;;
     s <- get ;;
     match weightChart (js s) with
     | Some c => destroy c
     | None => ret tt
     end ;;
     let selectedEtf := find_etf t (allEtfs (js s)) in
     modify (with_text (set_etf_name_text (display_name d selectedEtf))) ;;
     modify (with_text (set_etf_ticker_text ("TICKER: " ++ Comparison.etf_ticker d))) ;;
     modify (with_text (set_etf_dates_text
       ("비교 기간: " ++ Comparison.prev_date d ++ " vs " ++ Comparison.current_date d))) ;;
     renderHoldingsTable)
    (fun error =>
       console_error "Error fetching ETF details:" error ;;
       alert "ETF 상세 정보를 가져오는 데 실패했습니다.")
    hideLoading.

(** fetchStockHistory *)
Definition fetchStockHistory (etfTicker stockTicker stockName : string) : M unit :=
  showLoading "종목 비중 추이를 불러오는 중입니다..." ;;
  try_catch_finally
    (response <- fetch history_reply "GET"
                   ("/api/etf/" ++ etfTicker ++ "/stock/" ++ stockTicker ++ "/history") ;;
     check_ok response ;;
     data <- json response ;;
     renderWeightChart stockName (History.history data))
    (fun error =>
       console_error "Error fetching stock history:" error ;;
       alert "종목 비중 추이를 가져오는 데 실패했습니다.")
    hideLoading.

(** The URL loadStatsData requests; [undefined], which fetch turns into
    the string "undefined", when the type is neither of the two. *)
Definition stats_url (statsType theme : string) : string :=
  if String.eqb statsType "duplicate" then
    if truthy theme then "/api/stats/theme/" ++ encodeURIComponent theme
    else "/api/stats/duplicate-stocks"
  else if String.eqb statsType "amount" then "/api/stats/amount-ranking"
  else "undefined".

(** loadStatsData *)
Definition loadStatsData : M unit :=
  showLoading "통계 데이터를 불러오는 중입니다..." ;;
  try_catch_finally
    (s <- get ;;
     let statsType := statsTypeSelect_value (inputs s) in
     let theme := themeSelect_value (inputs s) in
     response <- fetch stats_reply "GET" (stats_url statsType theme) ;;
     check_ok response ;;
     data <- json response ;;
     modify (with_text (set_stats_date_text ("기준일: " ++ Stats.date data))) ;;
     updateStatsTableHeaders statsType ;;
     let rows :=
       if String.eqb statsType "duplicate" && truthy theme then
         match Stats.duplicate_stocks data with Some l => l | None => [] end
       else
         match Stats.stocks data with Some l => l | None => [] end in
     renderStatsTable rows statsType)
    (fun error =>
       console_error "Error loading stats data:" error ;;
       alert "통계 데이터를 가져오는 데 실패했습니다.")
    hideLoading.

(** *** View switching *)

(** switchView *)
Definition switchView (v : view) : M unit :=
  assign (set_currentView v) ;;
  match v with
  | etf =>
      classList_remove_hidden etfDetails ;;
      classList_add_hidden statsView ;;
      classList_remove_hidden welcomeMessage ;;
      modify (with_text (set_viewToggle_text "통계 보기"))
  | stats =>
      classList_add_hidden etfDetails ;;
      classList_remove_hidden statsView ;;
      classList_add_hidden welcomeMessage ;;
      modify (with_text (set_viewToggle_text "ETF 상세 보기")) ;;
      loadStatsData
  end.

(** *** Event listeners *)

(** The filter of the etfSearch listener. *)
Definition search_filter (value : string) (etfs : list Etf.t) : list Etf.t :=
  let searchTerm := toLowerCase value in
  filter (fun e =>
    includes (toLowerCase (Etf.name e)) searchTerm || includes (Etf.ticker e) searchTerm)
    etfs.

(** etfSearch, 'input' *)
Definition on_search_input (value : string) : M unit :=
  s <- get ;;
  renderEtfList (search_filter value (allEtfs (js s))).

(** etfList.querySelector('.active'), then classList.remove('active'):
    the first active item loses the class. *)
Fixpoint remove_first_active (l : list li) : list li :=
  match l with
  | [] => []
  | x :: l' =>
      if li_active x then
        {| li_text := li_text x; li_ticker := li_ticker x; li_active := false |} :: l'
      else x :: remove_first_active l'
  end.

Fixpoint add_active (i : nat) (l : list li) : list li :=
  match l, i with
  | [], _ => []
  | x :: l', O =>
      {| li_text := li_text x; li_ticker := li_ticker x; li_active := true |} :: l'
  | x :: l', S i' => x :: add_active i' l'
  end.

Definition querySelector_active (l : list li) : option li :=
  find li_active l.

(** etfList, 'click', on the i-th item (a click elsewhere in the list has
    no item as its target and does nothing). *)
Definition on_etf_click (i : nat) : M unit :=
  s <- get ;;
  match nth_error (etfList (dom s)) i with
  | Some target =>
      match li_ticker target with
      | Some t =>
          if truthy t then
            modify (with_dom (fun d => set_etfList (remove_first_active (etfList d)) d)) ;;
            modify (with_dom (fun d => set_etfList (add_active i (etfList d)) d)) ;;
            (if view_eqb (currentView (js s)) stats then switchView etf else ret tt) ;;
            fetchEtfDetails t
          else ret tt
      | None => ret tt
      end
  | None => ret tt
  end.

(** holdingsCountSelect, 'change': the user has picked [value]. *)
Definition on_holdings_count_change (value : string) : M unit :=
  modify (with_inputs (set_holdingsCountSelect_value value)) ;;
  renderHoldingsTable.

(** holdingsTableBody, 'click', on the i-th row. *)
Definition on_holdings_click (i : nat) : M unit :=
  s <- get ;;
  match nth_error (holdingsTableBody (dom s)) i with
  | Some row =>
      match stockTicker row, currentEtfData (js s) with
      | Some stockTicker, Some d =>
          if truthy stockTicker then
            fetchStockHistory (Comparison.etf_ticker d) stockTicker
              (match stockName row with Some n => n | None => "undefined" end)
          else ret tt
      | _, _ => ret tt
      end
  | None => ret tt
  end.

(** refreshBtn, 'click' *)
Definition on_refresh_click : M unit :=
  showLoading "최신 데이터로 업데이트 중입니다..." ;;
  try_catch_finally
    (response <- fetch message_reply "POST" "/api/system/update" ;;
     result <- json response ;;
     alert (Message.message result) ;;
     s <- get ;;
     match querySelector_active (etfList (dom s)), currentView (js s) with
     | Some activeEtf, etf =>
         fetchEtfDetails
           (match li_ticker activeEtf with Some t => t | None => "undefined" end)
     | _, stats => loadStatsData
     | None, etf => ret tt
     end)
    (fun error =>
       console_error "Refresh error:" error ;;
       alert "데이터 업데이트 중 오류가 발생했습니다.")
    hideLoading.

(** exportCsvBtn, 'click' *)
Definition on_export_click : M unit :=
  s <- get ;;
  match currentEtfData (js s) with
  | Some d => emit (Navigate ("/api/etf/" ++ Comparison.etf_ticker d ++ "/export"))
  | None => alert "먼저 ETF를 선택해주세요."
  end.

(** viewToggle, 'click' *)
Definition on_view_toggle : M unit :=
  s <- get ;;
  let newView := match currentView (js s) with etf => stats | stats => etf end in
  switchView newView.

(** statsTypeSelect, 'change': the user has picked [value]. *)
Definition on_stats_type_change (value : string) : M unit :=
  modify (with_inputs (set_statsTypeSelect_value value)) ;;
  s <- get ;;
  let statsType := statsTypeSelect_value (inputs s) in
  (if String.eqb statsType "duplicate" then
     modify (with_inputs (set_themeSelect_disabled false))
   else
     modify (with_inputs (set_themeSelect_disabled true)) ;;
     modify (with_inputs (set_themeSelect_value EmptyString))) ;;
  if view_eqb (currentView (js s)) stats then loadStatsData else ret tt.

(** themeSelect, 'change': the user has picked [value]. *)
Definition on_theme_change (value : string) : M unit :=
  modify (with_inputs (set_themeSelect_value value)) ;;
  s <- get ;;
  if view_eqb (currentView (js s)) stats then loadStatsData else ret tt.

(** *** The page as a transition system *)

Inductive event :=
| SearchInput (value : string)
| EtfClick (i : nat)
| HoldingsCountChange (value : string)
| HoldingsClick (i : nat)
| RefreshClick
| ExportClick
| ViewToggleClick
| StatsTypeChange (value : string)
| ThemeChange (value : string).

Definition listener (e : event) : M unit :=
  match e with
  | SearchInput v => on_search_input v
  | EtfClick i => on_etf_click i
  | HoldingsCountChange v => on_holdings_count_change v
  | HoldingsClick i => on_holdings_click i
  | RefreshClick => on_refresh_click
  | ExportClick => on_export_click
  | ViewToggleClick => on_view_toggle
  | StatsTypeChange v => on_stats_type_change v
  | ThemeChange v => on_theme_change v
  end.

(** The page after a computation, and the effects of the computation. *)
Definition after {A} (m : M A) (s : page) : page := snd (fst (m s)).
Definition effects {A} (m : M A) (s : page) : list effect := snd (m s).
Definition result {A} (m : M A) (s : page) : completion A := fst (fst (m s)).

(** The page as the DOMContentLoaded listener finds it: the variables as
    declared, no Chart instance, no request issued; the document is
    whatever the HTML file provides. *)
Definition loaded (s : page) : Prop :=
  js s = {| allEtfs := []; currentEtfData := None; holdingsData := [];
            weightChart := None; currentView := etf; allThemes := [] |}
  /\ live_charts (env s) = []
  /\ charts_built (env s) = 0%nat
  /\ requests (env s) = 0%nat.

(** The pages the script can be in between two events. *)
Inductive reachable : page -> Prop :=
| reach_start s : loaded s -> reachable (after initializeApp s)
| reach_event s e : reachable s -> reachable (after (listener e) s).

End Script.

(** * Definitions for the properties *)

(** ** Decimal digits *)

(** The digit of a number below ten. *)
Definition digit (k : N) : string := NilEmpty.string_of_uint (N.to_uint k).

(** The value of big-endian digits read after the value acc. *)
Fixpoint uint_value (d : Decimal.uint) (acc : Z) : Z :=
  match d with
  | Decimal.Nil => acc
  | Decimal.D0 d' => uint_value d' (acc * 10 + 0)
  | Decimal.D1 d' => uint_value d' (acc * 10 + 1)
  | Decimal.D2 d' => uint_value d' (acc * 10 + 2)
  | Decimal.D3 d' => uint_value d' (acc * 10 + 3)
  | Decimal.D4 d' => uint_value d' (acc * 10 + 4)
  | Decimal.D5 d' => uint_value d' (acc * 10 + 5)
  | Decimal.D6 d' => uint_value d' (acc * 10 + 6)
  | Decimal.D7 d' => uint_value d' (acc * 10 + 7)
  | Decimal.D8 d' => uint_value d' (acc * 10 + 8)
  | Decimal.D9 d' => uint_value d' (acc * 10 + 9)
  end.

(** ** The holdings renderer *)

(** The rows for a list of holdings, numbered from index i. *)
Fixpoint rows_from (nts : number -> string) (i : nat) (l : list Holding.t) : list tr :=
  match l with
  | [] => []
  | item :: l' => holding_row nts item i :: rows_from nts (S i) l'
  end.

(** The callback of the loop of renderHoldingsTable. *)
Definition append_row (nts : number -> string) (item : Holding.t) (index : nat) : M unit :=
  modify (with_dom (fun d =>
    set_holdingsTableBody (holdingsTableBody d ++ [ holding_row nts item index ])%list d)).

(** The table body that renderHoldingsTable leaves. *)
Definition rendered_body (nts : number -> string) (s : page) : list tr :=
  holdingsTableBody (dom (after (renderHoldingsTable nts) s)).

(** The label in the first cell of a row. *)
Definition index_label (row : tr) : string :=
  match cells row with
  | c :: _ => td_text c
  | [] => EmptyString
  end.

(** What the table shows for the holdings [shown]: one row each, in order,
    or the placeholder when there is none. *)
Definition table_of (nts : number -> string) (shown : list Holding.t) : list tr :=
  match shown with
  | [] => [ placeholder_row 7 "구성 종목 정보가 없습니다." ]
  | _ => rows_from nts 0 shown
  end.

(** The page with the holdings array and the count selector as given. *)
Definition with_holdings (data : list Holding.t) (count : string) (s : page) : page :=
  with_js (set_holdingsData data) (with_inputs (set_holdingsCountSelect_value count) s).

(** ** The search filter *)

(** [sub] occurs in [s]. *)
Definition contains (s sub : string) : Prop :=
  exists pre post, s = pre ++ sub ++ post.

(** [l'] is [l] with exactly the elements satisfying [P] kept, in order. *)
Inductive kept {A} (P : A -> Prop) : list A -> list A -> Prop :=
| kept_nil : kept P [] []
| kept_keep x l l' : P x -> kept P l l' -> kept P (x :: l) (x :: l')
| kept_drop x l l' : ~ P x -> kept P l l' -> kept P (x :: l) l'.

(** An ETF matches a query: its lowercased name contains the lowercased
    query, or its ticker as it is contains the lowercased query. *)
Definition matches (toLowerCase : string -> string) (query : string) (e : Etf.t) : Prop :=
  contains (toLowerCase (Etf.name e)) (toLowerCase query)
  \/ contains (Etf.ticker e) (toLowerCase query).

(** toLowerCase on the ASCII letters, other bytes unchanged: the built-in
    restricted to strings whose cased characters are ASCII. *)
Definition ascii_lower (c : ascii) : ascii :=
  let n := nat_of_ascii c in
  if ((65 <=? n) && (n <=? 90))%nat then ascii_of_nat (n + 32) else c.

Fixpoint ascii_toLowerCase (s : string) : string :=
  match s with
  | EmptyString => EmptyString
  | String c s' => String (ascii_lower c) (ascii_toLowerCase s')
  end.

(** ** Reasoning about computations *)

(** [m] never throws. *)
Definition total {A} (m : M A) : Prop := forall s, exists a, result m s = Return a.

(** [m] keeps the property [P] of the page. *)
Definition preserves {A} (P : page -> Prop) (m : M A) : Prop :=
  forall s, P s -> P (after m s).

(** ** The loading guard *)

(** The page with the overlay up, and with the overlay down. *)
Definition loading_on (t : string) (s : page) : page :=
  with_style (set_loadingOverlay_pointerEvents "auto")
    (with_style (set_body_pointerEvents "none")
       (with_style (set_loadingOverlay_display "flex")
          (with_text (set_loadingText t) s))).

Definition loading_off (s : page) : page :=
  with_style (set_body_pointerEvents "auto")
    (with_style (set_loadingOverlay_display "none") s).

(** The guard is engaged: the overlay shows and the page takes no pointer
    events.  It is released: the overlay is gone and the page takes them. *)
Definition engaged (s : page) : Prop :=
  loadingOverlay_display (style s) = "flex" /\ body_pointerEvents (style s) = "none".

Definition released (s : page) : Prop :=
  loadingOverlay_display (style s) = "none" /\ body_pointerEvents (style s) = "auto".

(** The shape shared by the functions that engage the guard:
    showLoading(text); try { body } catch (error) { console.error(label,
    error); alert(msg) } finally { hideLoading() } *)
Definition guarded (t : string) (body : M unit) (label msg : string) : M unit :=
  (showLoading t ;;
   try_catch_finally body
     (fun error => console_error label error ;; alert msg)
     hideLoading)%js.

(** What C6 asks of a function that engages the guard: it returns, never
    throws, leaves the guard released, and its effects start with the overlay
    going up and end with the overlay coming down. *)
Definition guard_released (h : M unit) : Prop :=
  forall s,
    result h s = Return tt
    /\ released (after h s)
    /\ exists mid, effects h s = (Overlay true :: mid ++ [ Overlay false ])%list.

(** ** What the calls to the server do *)

(** The error a wrapper that checks [response.ok] meets with a reply, if
    any: a rejected fetch, a status that is not a success, or a body that
    does not decode. *)
Definition failure {B} (r : reply B) : option exn :=
  match r with
  | Rejected => Some NetworkError
  | Responded false _ => Some ResponseNotOk
  | Responded true None => Some SyntaxError
  | Responded true (Some _) => None
  end.

(** The page after one more request. *)
Definition bump (s : page) : page := with_env (set_requests (S (requests (env s)))) s.

Definition comparison_url (t : string) : string := "/api/etf/" ++ t ++ "/comparison".

(** The page after chart.destroy() on the chart the variable refers to. *)
Definition destroyed (c : option nat) (s : page) : page :=
  match c with
  | Some c =>
      with_env (fun b =>
        set_live_charts (filter (fun k => negb (chart_id k =? c)%nat) (live_charts b)) b) s
  | None => s
  end.

(** The call into Chart.js made for the chart the variable refers to. *)
Definition destroy_effects (c : option nat) : list effect :=
  match c with Some c => [ ChartDestroy c ] | None => [] end.

(** The page after the try block of fetchEtfDetails has run to its end with
    the record [d], before hideLoading. *)
Definition details_loaded nts (d : Comparison.t) (t : string) (s : page) : page :=
  after (renderHoldingsTable nts)
    (with_text (set_etf_dates_text
         ("비교 기간: " ++ Comparison.prev_date d ++ " vs " ++ Comparison.current_date d))
      (with_text (set_etf_ticker_text ("TICKER: " ++ Comparison.etf_ticker d))
        (with_text (set_etf_name_text (display_name d (find_etf t (allEtfs (js s)))))
          (destroyed (weightChart (js s))
            (with_classes (set_chartContainer_hidden true)
              (with_classes (set_etfDetails_hidden false)
                (with_classes (set_welcomeMessage_hidden true)
                  (with_js (set_holdingsData (Comparison.comparison d))
                    (with_js (set_currentEtfData (Some d)) s))))))))).

(** The page after renderWeightChart: the panel shows, the chart the
    variable referred to is destroyed, and the variable refers to a new live
    chart. *)
Definition chart_drawn (stockName : string) (history : list History.point) (s : page) : page :=
  let c := charts_built (env s) in
  with_js (set_weightChart (Some c))
    (with_env (fun b =>
       set_charts_built (S c)
         (set_live_charts
            ({| chart_id := c;
                labels := map History.date history;
                weightData := map History.weight history;
                amountData := map (fun item => div (History.amount item) (of_Z 100000000))
                                history |}
             :: live_charts b) b))
       (destroyed (weightChart (js s))
          (with_text (set_stock_name_chart_text stockName)
             (with_classes (set_chartContainer_hidden false) s)))).

Definition history_url (etfTicker stockTicker : string) : string :=
  "/api/etf/" ++ etfTicker ++ "/stock/" ++ stockTicker ++ "/history".

(** The error a wrapper that does not check [response.ok] meets. *)
Definition failure_unchecked {B} (r : reply B) : option exn :=
  match r with
  | Rejected => Some NetworkError
  | Responded _ None => Some SyntaxError
  | Responded _ (Some _) => None
  end.

Definition stats_request enc (s : page) : string :=
  stats_url enc (statsTypeSelect_value (inputs s)) (themeSelect_value (inputs s)).

(** What the refresh listener reloads once the update call has answered:
    the detail of the active item in the ETF view, the statistics in the
    statistics view, nothing in the ETF view without an active item. *)
Definition reload nts enc net (s : page) : M unit :=
  match querySelector_active (etfList (dom s)), currentView (js s) with
  | Some activeEtf, etf =>
      fetchEtfDetails nts net
        (match li_ticker activeEtf with Some t => t | None => "undefined" end)
  | _, stats => loadStatsData nts enc net
  | None, etf => ret tt
  end.

(** ** Example pages and networks *)

(** A page as an HTML file could provide it: the welcome panel shows, the
    other panels are hidden, the selectors are at "10" and "duplicate". *)
Definition blank_page : page :=
  {| js := {| allEtfs := []; currentEtfData := None; holdingsData := [];
              weightChart := None; currentView := etf; allThemes := [] |};
     classes := {| welcomeMessage_hidden := false; etfDetails_hidden := true;
                   statsView_hidden := true; chartContainer_hidden := true |};
     text := {| loadingText := EmptyString; viewToggle_text := "통계 보기";
                etf_name_text := EmptyString; etf_ticker_text := EmptyString;
                etf_dates_text := EmptyString; stats_date_text := EmptyString;
                stock_name_chart_text := EmptyString |};
     dom := {| etfList := []; holdingsTableBody := []; statsTableBody := [];
               statsTableHead := [] |};
     inputs := {| holdingsCountSelect_value := "10"; statsTypeSelect_value := "duplicate";
                  themeSelect_value := EmptyString; themeSelect_disabled := false;
                  themeSelect_options := [] |};
     style := {| loadingOverlay_display := "none"; body_pointerEvents := "auto";
                 loadingOverlay_pointerEvents := "auto" |};
     env := {| live_charts := []; charts_built := 0; requests := 0 |} |}.

(** A network on which every request is rejected. *)
Definition offline : network :=
  {| message_reply := fun _ _ => Rejected;
     etfs_reply := fun _ _ => Rejected;
     themes_reply := fun _ _ => Rejected;
     comparison_reply := fun _ _ => Rejected;
     history_reply := fun _ _ => Rejected;
     stats_reply := fun _ _ => Rejected |}.

Definition samsung : Holding.t :=
  {| Holding.stock_ticker := "005930"; Holding.stock_name := "삼성전자";
     Holding.prev_weight := div (of_Z 251) (of_Z 10);
     Holding.current_weight := div (of_Z 263) (of_Z 10);
     Holding.change := div (of_Z 12) (of_Z 10);
     Holding.current_amount := of_Z 150000000;
     Holding.status := "비중 증가" |}.

Definition kodex200 : Comparison.t :=
  {| Comparison.etf_ticker := "069500"; Comparison.etf_name := Some "KODEX 200";
     Comparison.prev_date := "2024-01-02"; Comparison.current_date := "2024-01-03";
     Comparison.comparison := [ samsung ] |}.

(** A network on which every request succeeds. *)
Definition online : network :=
  {| message_reply := fun _ _ => Responded true (Some {| Message.message := "완료" |});
     etfs_reply := fun _ _ =>
       Responded true (Some [ {| Etf.ticker := "069500"; Etf.name := "KODEX 200" |} ]);
     themes_reply := fun _ _ =>
       Responded true (Some {| Themes.themes := Some [ "반도체" ] |});
     comparison_reply := fun _ _ => Responded true (Some kodex200);
     history_reply := fun _ _ =>
       Responded true
         (Some {| History.history :=
                    [ {| History.date := "2024-01-03";
                         History.weight := div (of_Z 263) (of_Z 10);
                         History.amount := of_Z 150000000 |} ] |});
     stats_reply := fun _ _ =>
       Responded true
         (Some {| Stats.date := "2024-01-03"; Stats.stocks := Some [];
                  Stats.duplicate_stocks := None |}) |}.

(** Built-ins for the examples: digits are never asked of [Number_toString]
    there, and the other two are the identity on the strings used. *)
Definition example_toString (_ : number) : string := "?".
Definition example_encode (s : string) : string := s.

(** ** Error paths of the calls to the server *)

Definition is_log (e : effect) : bool :=
  match e with ConsoleError _ _ => true | _ => false end.

Definition is_alert (e : effect) : bool :=
  match e with Alert _ => true | _ => false end.

Definition is_fetch (e : effect) : bool :=
  match e with Fetch _ _ => true | _ => false end.

(** Numbers of console logs, alerts and requests among some effects. *)
Definition logs (tr : list effect) : nat := List.length (filter is_log tr).
Definition alerts (tr : list effect) : nat := List.length (filter is_alert tr).
Definition fetches (tr : list effect) : nat := List.length (filter is_fetch tr).

(** The effects of the error path of a function that engages the guard:
    one request, one console log, one alert, and the overlay around them. *)
Definition guarded_error_path (method url label : string) (e : exn) (msg : string)
  : list effect :=
  [ Overlay true; Fetch method url; ConsoleError label e; Alert msg; Overlay false ].

(** ** The refresh listener *)

(** The pages after a list of events. *)
Fixpoint after_events nts lower enc net (es : list event) (s : page) : page :=
  match es with
  | [] => s
  | e :: es' => after_events nts lower enc net es' (after (listener nts lower enc net e) s)
  end.

(** The example page once the application has started on the example
    network, the first ETF has been selected and the view has been toggled to
    the statistics. *)
Definition visited_page : page :=
  after_events example_toString ascii_toLowerCase example_encode online
    [ EtfClick 0; ViewToggleClick ]
    (after (initializeApp online) blank_page).

(** ** The statistics type selector *)

(** The page after the handler has set the theme selector for the type
    picked. *)
Definition type_picked (value : string) (s : page) : page :=
  let s1 := with_inputs (set_statsTypeSelect_value value) s in
  if value =? "duplicate" then with_inputs (set_themeSelect_disabled false) s1
  else with_inputs (set_themeSelect_value EmptyString)
         (with_inputs (set_themeSelect_disabled true) s1).

(** ** The view toggle *)

(** The example page after the toggle back to the ETF view. *)
Definition toggled_back : page :=
  after (listener example_toString ascii_toLowerCase example_encode online ViewToggleClick)
    visited_page.

(** ** The chart instance *)

(** Every live Chart instance is the one the variable [weightChart] refers
    to, and there is at most one. *)
Definition chart_invariant (s : page) : Prop :=
  match live_charts (env s) with
  | [] => True
  | [ k ] => weightChart (js s) = Some (chart_id k)
  | _ => False
  end.

(** The example page once the application has started on the example
    network, the first ETF has been selected and its first holding clicked:
    a chart is drawn. *)
Definition charted_page : page :=
  after_events example_toString ascii_toLowerCase example_encode online
    [ EtfClick 0; HoldingsClick 0 ]
    (after (initializeApp online) blank_page).

(** A network that lists two ETFs and answers the first five requests of a
    page as the example network does, then rejects every request: the
    connection is lost. *)
Definition connection_lost : network :=
  let until {B} (r : nat -> string -> reply B) : nat -> string -> reply B :=
    fun n url => if (n <? 5)%nat then r n url else Rejected in
  {| message_reply := until (message_reply online);
     etfs_reply :=
       until (fun _ _ =>
         Responded true (Some [ {| Etf.ticker := "069500"; Etf.name := "KODEX 200" |};
                                {| Etf.ticker := "102110"; Etf.name := "TIGER 200" |} ]));
     themes_reply := until (themes_reply online);
     comparison_reply := until (comparison_reply online);
     history_reply := until (history_reply online);
     stats_reply := until (stats_reply online) |}.

(** The example page once the application has started on that network, the
    first ETF has been selected and its first holding clicked: a chart is
    drawn, and the five requests that are answered have been issued. *)
Definition last_chart_page : page :=
  after_events example_toString ascii_toLowerCase example_encode connection_lost
    [ EtfClick 0; HoldingsClick 0 ]
    (after (initializeApp connection_lost) blank_page).

(** ** Rounding to a number of decimals *)

(** a / d rounded to the nearest integer, halves upwards (a >= 0, d > 0). *)
Definition half_up (a d : Z) : Z := ((2 * a + d) / (2 * d))%Z.

(** n is an integer nearest to a / d: |n - a / d| <= 1/2. *)
Definition nearest (a d n : Z) : Prop := (2 * Z.abs (n * d - a) <= d)%Z.

(** * Definitions for the further properties *)

(** ** The list of ETFs *)

(** The item renderEtfList builds for an ETF. *)
Definition etf_item (e : Etf.t) : li :=
  {| li_text := Etf.name e; li_ticker := Some (Etf.ticker e); li_active := false |}.

(** The item renderEtfList writes when there is no ETF to show. *)
Definition no_etf_item : li :=
  {| li_text := "표시할 ETF가 없습니다."; li_ticker := None; li_active := false |}.

(** What #etf-list holds after renderEtfList. *)
Definition list_items (etfs : list Etf.t) : list li :=
  match etfs with
  | [] => [ no_etf_item ]
  | _ => map etf_item etfs
  end.

(** The number of items of the list that carry the class [active]. *)
Definition active_items (l : list li) : nat := List.length (filter li_active l).

(** At most one item of the list is highlighted. *)
Definition one_highlight (s : page) : Prop := (active_items (etfList (dom s)) <= 1)%nat.

(** An item with the class [active] added. *)
Definition highlighted (x : li) : li :=
  {| li_text := li_text x; li_ticker := li_ticker x; li_active := true |}.

(** ** The detail of an ETF *)

(** The page [s'] differs from [s] at most in the loading overlay, its text
    and the number of requests issued. *)
Definition same_content (s s' : page) : Prop :=
  js s' = js s
  /\ classes s' = classes s
  /\ dom s' = dom s
  /\ inputs s' = inputs s
  /\ set_loadingText (loadingText (text s)) (text s') = text s
  /\ live_charts (env s') = live_charts (env s)
  /\ charts_built (env s') = charts_built (env s).

Definition export_url (d : Comparison.t) : string :=
  "/api/etf/" ++ Comparison.etf_ticker d ++ "/export".

(** The detail panel shows the record loaded: the holdings array is the one
    of the record, the table shows it through the count selector, and the
    ticker and the dates are those of the record.  Before a record is loaded
    there is no holding. *)
Definition detail_in_sync (nts : number -> string) (s : page) : Prop :=
  match currentEtfData (js s) with
  | None => holdingsData (js s) = []
  | Some d =>
      holdingsData (js s) = Comparison.comparison d
      /\ holdingsTableBody (dom s)
         = table_of nts (dataToShow (holdingsCountSelect_value (inputs s))
                           (Comparison.comparison d))
      /\ etf_ticker_text (text s) = "TICKER: " ++ Comparison.etf_ticker d
      /\ etf_dates_text (text s)
         = "비교 기간: " ++ Comparison.prev_date d ++ " vs " ++ Comparison.current_date d
  end.

(** ** Rows of the holdings table *)

(** A string that opens no tag when the parser of innerHTML reads it in a
    cell: it has no "<". *)
Definition opens_no_tag (s : string) : Prop := includes s "<" = false.

(** The strings the template of a holdings row puts before the cell for the
    change of weight open no tag, so that the cells up to that one are the
    cells of the template. *)
Definition plain_before_change (nts : number -> string) (item : Holding.t) : Prop :=
  opens_no_tag (Holding.stock_name item)
  /\ opens_no_tag (toFixed nts (Holding.prev_weight item) 2)
  /\ opens_no_tag (toFixed nts (Holding.current_weight item) 2).

(** The cell of a holdings row that shows the change of weight, the fifth
    of the template. *)
Definition change_cell (row : tr) : td :=
  nth 4 (cells row) {| td_colspan := None; td_class := None; td_text := EmptyString |}.

(** ** The statistics *)

(** The callback of the loop of renderStatsTable. *)
Definition append_stats_row (nts : number -> string) (type : string)
    (item : Stats.row) (index : nat) : M unit :=
  (row <- stats_row nts item index type ;;
   modify (with_dom (fun d => set_statsTableBody (statsTableBody d ++ [ row ])%list d)))%js.

(** The array loadStatsData renders from a reply: with a theme picked for
    the type "duplicate" the field [duplicate_stocks], otherwise the field
    [stocks]; no row when the field is missing. *)
Definition stats_rows (statsType theme : string) (data : Stats.t) : list Stats.row :=
  if String.eqb statsType "duplicate" && truthy theme then
    match Stats.duplicate_stocks data with Some l => l | None => [] end
  else
    match Stats.stocks data with Some l => l | None => [] end.

(** ** The lists fetched at the start *)

(** The options of the theme selector for the themes fetched: the option
    for every theme, then one option per theme. *)
Definition theme_options (ts : list string) : list (string * string) :=
  (EmptyString, "전체") :: map (fun t => (t, t)) ts.

(** The page once fetchEtfList has got the ETFs. *)
Definition listed (etfs : list Etf.t) (s : page) : page :=
  with_dom (set_etfList (list_items etfs)) (with_js (set_allEtfs etfs) s).

(** The page once loadThemes has got the themes. *)
Definition themed (ts : list string) (s : page) : page :=
  with_inputs (set_themeSelect_options (theme_options ts))
    (with_inputs (set_themeSelect_value EmptyString) (with_js (set_allThemes ts) s)).

(** [result.themes || []] *)
Definition themes_of (r : Themes.t) : list string :=
  match Themes.themes r with Some l => l | None => [] end.

(** ** The two views *)

(** The page as switchView('stats') leaves it before it loads the
    statistics. *)
Definition stats_entered (s : page) : page :=
  with_text (set_viewToggle_text "ETF 상세 보기")
    (with_classes (set_welcomeMessage_hidden true)
       (with_classes (set_statsView_hidden false)
          (with_classes (set_etfDetails_hidden true)
             (with_js (set_currentView stats) s)))).


(** ** Requests *)

(** Every effect of [m] satisfies [Q]. *)
Definition emits_only {A} (Q : effect -> Prop) (m : M A) : Prop :=
  forall s, Forall Q (effects m s).

(** The effect is not a request for the ETFs, for the themes or for the
    initialisation. *)
Definition not_a_start_request (e : effect) : Prop :=
  match e with
  | Fetch _ url =>
      url <> "/api/etfs" /\ url <> "/api/config/themes" /\ url <> "/api/system/initialize"
  | _ => True
  end.

(** ** Requests and the overlay *)

(** Whether the overlay is up after the effects [tr], when it was [up]
    before them. *)
Fixpoint overlay_after (up : bool) (tr : list effect) : bool :=
  match tr with
  | [] => up
  | Overlay shown :: tr' => overlay_after shown tr'
  | _ :: tr' => overlay_after up tr'
  end.

(** Every request among the effects [tr] is issued while the overlay is
    up, when the overlay was [up] before them. *)
Fixpoint fetches_covered (up : bool) (tr : list effect) : bool :=
  match tr with
  | [] => true
  | Overlay shown :: tr' => fetches_covered shown tr'
  | Fetch _ _ :: tr' => up && fetches_covered up tr'
  | _ :: tr' => fetches_covered up tr'
  end.

(** The effects [tr] keep their requests under the overlay and leave the
    overlay down, whether it was up or down before. *)
Definition under_overlay (tr : list effect) : Prop :=
  forall up, fetches_covered up tr = true /\ overlay_after up tr = false.

(** ** The chart panel and the chart *)

(** A Chart instance is live exactly while the chart panel is shown, and
    then it is the one the variable [weightChart] refers to. *)
Definition chart_panel_sync (s : page) : Prop :=
  match live_charts (env s) with
  | [] => chartContainer_hidden (classes s) = true
  | [ k ] =>
      weightChart (js s) = Some (chart_id k) /\ chartContainer_hidden (classes s) = false
  | _ => False
  end.

(** * Properties *)

(** ** Running computations *)

Lemma run_bind {A B} (m : M A) (k : A -> M B) s :
  bind m k s =
  match m s with
  | (Return a, s1, t1) => let '(r, s2, t2) := k a s1 in (r, s2, (t1 ++ t2)%list)
  | (Throw e, s1, t1) => (Throw e, s1, t1)
  end.
Proof. reflexivity. Qed.

(** ** Decimal digits *)

Lemma append_assoc (a b c : string) : (a ++ b) ++ c = a ++ b ++ c.
Proof. induction a; simpl; congruence. Qed.

Lemma length_append (a b : string) :
  String.length (a ++ b) = (String.length a + String.length b)%nat.
Proof. induction a; simpl; congruence. Qed.

Lemma substring_all (a : string) : substring 0 (String.length a) a = a.
Proof. induction a; simpl; congruence. Qed.

Lemma substring_append_left (a b : string) :
  substring 0 (String.length a) (a ++ b) = a.
Proof. induction a; simpl; [destruct b; reflexivity | congruence]. Qed.

Lemma substring_append_right (a b : string) :
  substring (String.length a) (String.length b) (a ++ b) = b.
Proof. induction a; simpl; [apply substring_all | exact IHa]. Qed.

Lemma string_of_revapp l : forall acc,
  NilEmpty.string_of_uint (Decimal.revapp l acc)
  = NilEmpty.string_of_uint (Decimal.revapp l Decimal.Nil) ++ NilEmpty.string_of_uint acc.
Proof.
  induction l; intros acc; simpl;
    try (rewrite IHl; symmetry; rewrite IHl; simpl;
         rewrite append_assoc; reflexivity).
  reflexivity.
Qed.

Lemma to_uint_tenfold p k :
  (k < 10)%N ->
  NilEmpty.string_of_uint (N.to_uint (10 * Npos p + k))
  = NilEmpty.string_of_uint (N.to_uint (Npos p)) ++ digit k.
Proof.
  intros Hk.
  assert (T : forall j,
             DecimalPos.Unsigned.to_lu (10 * Npos p + N.of_nat j)
             = Nat.iter j Decimal.Little.succ
                 (Decimal.D0 (DecimalPos.Unsigned.to_lu (Npos p)))).
  { induction j.
    - rewrite N.add_0_r. apply DecimalPos.Unsigned.to_ldec_tenfold.
    - rewrite Nat2N.inj_succ, N.add_succ_r, DecimalPos.Unsigned.to_lu_succ, IHj. reflexivity. }
  specialize (T (N.to_nat k)). rewrite N2Nat.id in T.
  assert (Hpos : exists q, (10 * Npos p + k = Npos q)%N).
  { remember (10 * Npos p + k)%N as n eqn:E. destruct n; [lia | eexists; reflexivity]. }
  destruct Hpos as [q Hq]. rewrite Hq in *.
  change (N.to_uint (Npos q)) with (Decimal.rev (DecimalPos.Unsigned.to_lu (Npos q))).
  change (N.to_uint (Npos p)) with (Decimal.rev (DecimalPos.Unsigned.to_lu (Npos p))).
  rewrite T. unfold Decimal.rev.
  assert (K : (k = 0 \/ k = 1 \/ k = 2 \/ k = 3 \/ k = 4 \/ k = 5 \/ k = 6 \/ k = 7
               \/ k = 8 \/ k = 9)%N) by lia.
  destruct K as [->|[->|[->|[->|[->|[->|[->|[->|[->| ->]]]]]]]]];
    simpl Nat.iter; simpl Decimal.revapp; rewrite string_of_revapp; reflexivity.
Qed.

Lemma to_uint_nonnil n : N.to_uint n <> Decimal.Nil.
Proof. destruct n; [discriminate | apply DecimalPos.Unsigned.to_uint_nonnil]. Qed.

Lemma decimal_eq n :
  decimal n = NilEmpty.string_of_uint (N.to_uint (Z.to_N n)).
Proof.
  unfold decimal, NilZero.string_of_uint.
  pose proof (to_uint_nonnil (Z.to_N n)) as H.
  destruct (N.to_uint (Z.to_N n)); [contradiction|..]; reflexivity.
Qed.

(** The digits of n are those of n / 10 followed by the digit n mod 10. *)
Lemma decimal_tenfold n :
  (10 <= n)%Z -> decimal n = decimal (n / 10) ++ decimal (n mod 10).
Proof.
  intros Hn. rewrite !decimal_eq.
  pose proof (Z.div_mod n 10 ltac:(lia)) as DM.
  pose proof (Z.mod_pos_bound n 10 ltac:(lia)) as Hm.
  assert (Hq : (1 <= n / 10)%Z) by (apply Z.div_le_lower_bound; lia).
  destruct (n / 10)%Z as [|p|p] eqn:Eq; try lia.
  replace (Z.to_N n) with (10 * Npos p + Z.to_N (n mod 10))%N by lia.
  rewrite to_uint_tenfold by lia. reflexivity.
Qed.

Lemma decimal_digit n : (0 <= n < 10)%Z -> String.length (decimal n) = 1%nat.
Proof.
  intros H.
  rewrite <- (Z2Nat.id n) by lia.
  assert (K : (Z.to_nat n < 10)%nat) by lia.
  revert K. generalize (Z.to_nat n). clear H. intros k K.
  do 10 (destruct k as [|k]; [reflexivity|]). lia.
Qed.

Lemma decimal_nonempty n : (1 <= String.length (decimal n))%nat.
Proof.
  rewrite decimal_eq. pose proof (to_uint_nonnil (Z.to_N n)) as H.
  destruct (N.to_uint (Z.to_N n)); [contradiction|..]; simpl; lia.
Qed.

(** toFixed with one decimal: the digits of n / 10, the point, and the
    digit n mod 10. *)
Lemma fixed_digits_one n :
  (0 <= n)%Z -> fixed_digits n 1 = decimal (n / 10) ++ "." ++ decimal (n mod 10).
Proof.
  intros Hn. unfold fixed_digits.
  pose proof (Z.mod_pos_bound n 10 ltac:(lia)) as Hm.
  pose proof (decimal_digit (n mod 10) Hm) as Hk.
  destruct (Z_lt_le_dec n 10) as [L|G].
  - rewrite (Z.div_small n 10), (Z.mod_small n 10) by lia.
    pose proof (decimal_digit n ltac:(lia)) as H1. rewrite H1.
    destruct (decimal n) as [|c [|c' r]]; try discriminate. reflexivity.
  - rewrite (decimal_tenfold n G).
    set (a := decimal (n / 10)). set (b := decimal (n mod 10)).
    pose proof (decimal_nonempty (n / 10)) as Ha. fold a in Ha. fold b in Hk.
    replace (2 - String.length (a ++ b))%nat with 0%nat
      by (rewrite length_append; lia).
    cbn [zeros append]. rewrite length_append, Hk.
    replace (String.length a + 1 - 1)%nat with (String.length a) by lia.
    rewrite substring_append_left. rewrite <- Hk at 1.
    rewrite substring_append_right. reflexivity.
Qed.

(** ** parseInt on decimal numerals *)

Lemma read_digits_uint d : forall acc seen,
  read_digits 10 acc seen (NilEmpty.string_of_uint d)
  = match d with
    | Decimal.Nil => if seen then Int acc else NaN
    | _ => Int (uint_value d acc)
    end.
Proof.
  induction d; intros acc seen; [reflexivity|..];
    cbn [NilEmpty.string_of_uint read_digits uint_value];
    match goal with
    | |- context [digit_value 10 ?c] =>
        change (digit_value 10 c) with (Some 0%Z) || change (digit_value 10 c) with (Some 1%Z)
        || change (digit_value 10 c) with (Some 2%Z) || change (digit_value 10 c) with (Some 3%Z)
        || change (digit_value 10 c) with (Some 4%Z) || change (digit_value 10 c) with (Some 5%Z)
        || change (digit_value 10 c) with (Some 6%Z) || change (digit_value 10 c) with (Some 7%Z)
        || change (digit_value 10 c) with (Some 8%Z) || change (digit_value 10 c) with (Some 9%Z)
    end;
    cbv iota beta; rewrite IHd; destruct d; reflexivity.
Qed.

Lemma uint_value_acc d : forall acc,
  uint_value d (Zpos acc) = Zpos (Pos.of_uint_acc d acc).
Proof.
  induction d; intros acc; cbn [uint_value Pos.of_uint_acc]; [reflexivity|..];
    match goal with
    | |- uint_value _ ?z = _ =>
        match goal with
        | |- _ = Zpos (Pos.of_uint_acc _ ?q) =>
            replace z with (Zpos q) by lia
        end
    end; apply IHd.
Qed.

Lemma uint_value_of_uint d : uint_value d 0 = Z.of_N (Pos.of_uint d).
Proof.
  induction d; cbn [uint_value Pos.of_uint]; [reflexivity | exact IHd |..];
    change (0 * 10 + 1)%Z with (Zpos 1); change (0 * 10 + 2)%Z with (Zpos 2);
    change (0 * 10 + 3)%Z with (Zpos 3); change (0 * 10 + 4)%Z with (Zpos 4);
    change (0 * 10 + 5)%Z with (Zpos 5); change (0 * 10 + 6)%Z with (Zpos 6);
    change (0 * 10 + 7)%Z with (Zpos 7); change (0 * 10 + 8)%Z with (Zpos 8);
    change (0 * 10 + 9)%Z with (Zpos 9); rewrite uint_value_acc; reflexivity.
Qed.

Lemma parseInt_uint d :
  parseInt (NilEmpty.string_of_uint d) = read_digits 10 0 false (NilEmpty.string_of_uint d).
Proof.
  destruct d as [|d|d|d|d|d|d|d|d|d|d]; [reflexivity|..];
    destruct d as [|d|d|d|d|d|d|d|d|d|d]; try reflexivity;
    destruct d; reflexivity.
Qed.

(** parseInt reads a decimal numeral as the number it denotes. *)
Lemma parseInt_decimal n : (0 <= n)%Z -> parseInt (decimal n) = Int n.
Proof.
  intros Hn. rewrite decimal_eq, parseInt_uint, read_digits_uint.
  pose proof (to_uint_nonnil (Z.to_N n)) as H.
  pose proof (DecimalN.Unsigned.of_to (Z.to_N n)) as E.
  destruct (N.to_uint (Z.to_N n)) eqn:D; [contradiction|..];
    rewrite uint_value_of_uint; f_equal;
    change (Pos.of_uint ?d) with (N.of_uint d); rewrite E; lia.
Qed.

Lemma parseInt_nat_to_string N :
  parseInt (nat_to_string N) = Int (Z.of_nat N) /\ nat_to_string N <> "all".
Proof.
  assert (H : parseInt (nat_to_string N) = Int (Z.of_nat N))
    by (apply parseInt_decimal; lia).
  split; [exact H|]. intros E. rewrite E in H. discriminate.
Qed.

(** White space beyond ASCII is skipped as well: a no-break space
    (U+00A0), an ideographic space (U+3000) or a byte order mark (U+FEFF)
    before the digits, alone or after a tabulation; a byte that starts no
    white space is not. *)
Lemma parseInt_skips_white_space :
  let byte n := ascii_of_nat n in
  let nbsp := String (byte 194) (String (byte 160) EmptyString) in
  let ideographic := String (byte 227) (String (byte 128) (String (byte 128) EmptyString)) in
  let bom := String (byte 239) (String (byte 187) (String (byte 191) EmptyString)) in
  parseInt (nbsp ++ "3") = Int 3
  /\ parseInt (ideographic ++ "20") = Int 20
  /\ parseInt (bom ++ "-5") = Int (-5)
  /\ parseInt (String (byte 9) (nbsp ++ " 10")) = Int 10
  /\ parseInt (String (byte 194) "3") = NaN.
Proof. cbv zeta. do 4 (split; [vm_compute; reflexivity|]). vm_compute. reflexivity. Qed.

(** ** The holdings renderer *)

Lemma forEach_append_rows nts l : forall i s,
  forEach_from i (append_row nts) l s =
  (Return tt,
   with_dom (fun d =>
     set_holdingsTableBody (holdingsTableBody d ++ rows_from nts i l)%list d) s,
   []).
Proof.
  induction l as [|item l IH]; intros i s; simpl.
  - unfold ret. destruct s as [j c t d i0 st e]. destruct d. simpl.
    unfold with_dom, set_holdingsTableBody. simpl. rewrite app_nil_r. reflexivity.
  - rewrite run_bind. unfold append_row at 1. unfold modify. rewrite IH.
    destruct s as [j c t d i0 st e]. destruct d. unfold with_dom, set_holdingsTableBody.
    simpl. rewrite <- app_assoc. reflexivity.
Qed.

Lemma renderHoldingsTable_run nts s :
  renderHoldingsTable nts s =
  (Return tt,
   with_dom (set_holdingsTableBody
     (match dataToShow (holdingsCountSelect_value (inputs s)) (holdingsData (js s)) with
      | [] => [ placeholder_row 7 "구성 종목 정보가 없습니다." ]
      | shown => rows_from nts 0 shown
      end)) s,
   [ Cleared holdings_table ]).
Proof.
  unfold renderHoldingsTable.
  destruct s as [j c t d i st e]. cbn -[dataToShow placeholder_row forEach].
  unfold bind, modify, emit, get. cbn -[dataToShow placeholder_row forEach].
  destruct (dataToShow (holdingsCountSelect_value i) (holdingsData j)) as [|item shown] eqn:E.
  - destruct d; reflexivity.
  - unfold forEach.
    change (fun (item0 : Holding.t) (index : nat) => _) with (append_row nts).
    rewrite forEach_append_rows. destruct d; reflexivity.
Qed.

Lemma rendered_body_eq nts s :
  rendered_body nts s =
  table_of nts (dataToShow (holdingsCountSelect_value (inputs s)) (holdingsData (js s))).
Proof.
  unfold rendered_body, after. rewrite renderHoldingsTable_run.
  destruct s as [j c t d i st e]. destruct d. unfold table_of. simpl.
  destruct (dataToShow _ _); reflexivity.
Qed.

Lemma rows_from_nth nts l : forall i k row,
  nth_error (rows_from nts i l) k = Some row ->
  exists item, nth_error l k = Some item /\ row = holding_row nts item (i + k).
Proof.
  induction l as [|x l IH]; intros i k row H.
  - destruct k; discriminate.
  - destruct k as [|k]; simpl in H.
    + injection H as <-. exists x. rewrite Nat.add_0_r. split; reflexivity.
    + apply IH in H. destruct H as [item [H1 H2]]. exists item.
      split; [exact H1|]. rewrite H2. f_equal. lia.
Qed.

Lemma rows_from_length nts l : forall i,
  List.length (rows_from nts i l) = List.length l.
Proof. induction l; intros; simpl; [reflexivity | now rewrite IHl]. Qed.

Lemma map_index_label_rows nts l : forall i,
  map index_label (rows_from nts i l) =
  map (fun k => nat_to_string (k + 1)) (seq i (List.length l)).
Proof.
  induction l as [|x l IH]; intros i; simpl; [reflexivity|].
  rewrite IH. reflexivity.
Qed.

Lemma dataToShow_nil count : dataToShow count [] = [].
Proof.
  unfold dataToShow. destruct (String.eqb count "all"); [reflexivity|].
  unfold slice0. destruct (parseInt count) as [|z]; [reflexivity|].
  destruct (z <? 0)%Z; apply firstn_nil.
Qed.

Lemma dataToShow_all data : dataToShow "all" data = data.
Proof. reflexivity. Qed.

Lemma dataToShow_first count N data :
  count <> "all" -> parseInt count = Int (Z.of_nat N) ->
  dataToShow count data = firstn N data.
Proof.
  intros Hne Hp. unfold dataToShow.
  destruct (String.eqb_spec count "all") as [E|_]; [contradiction|].
  rewrite Hp. unfold slice0.
  destruct (Z.ltb_spec (Z.of_nat N) 0) as [Hlt|_]; [lia|].
  now rewrite Nat2Z.id.
Qed.

(** The values the count selector offers. *)
Example parseInt_options :
  parseInt "5" = Int 5 /\ parseInt "10" = Int 10 /\ parseInt "20" = Int 20
  /\ parseInt "all" = NaN.
Proof. repeat split. Qed.

(** C4: the renderer shows the whole array for "all" and otherwise, the
    selector value being the numeral of N, the first N entries, in the order
    of the array and without sorting (for no entry at all, the placeholder
    of C8); the row at position i (from 0) is the row of the i-th entry shown
    and carries the label i + 1.  With "5" and eight entries the labels are
    1..5, with "all" they are 1..8. *)
Theorem C4_holdings_count_slice :
  forall (Number_toString : number -> string) (s : page)
         (data : list Holding.t) (N : nat),
    let body c := rendered_body Number_toString (with_holdings data c s) in
    body "all" = table_of Number_toString data
    /\ body (nat_to_string N) = table_of Number_toString (firstn N data)
    /\ (forall item shown,
          table_of Number_toString (item :: shown)
          = rows_from Number_toString 0 (item :: shown)
          /\ List.length (rows_from Number_toString 0 (item :: shown))
             = List.length (item :: shown))
    /\ (forall shown i,
          nth_error (rows_from Number_toString 0 shown) i
          = option_map (fun item => holding_row Number_toString item i) (nth_error shown i))
    /\ (forall item i,
          index_label (holding_row Number_toString item i) = nat_to_string (i + 1))
    /\ (forall h1 h2 h3 h4 h5 h6 h7 h8,
          let eight := [ h1; h2; h3; h4; h5; h6; h7; h8 ] in
          rendered_body Number_toString (with_holdings eight "5" s)
          = rows_from Number_toString 0 [ h1; h2; h3; h4; h5 ]
          /\ map index_label (rendered_body Number_toString (with_holdings eight "5" s))
             = [ "1"; "2"; "3"; "4"; "5" ]
          /\ map index_label (rendered_body Number_toString (with_holdings eight "all" s))
             = [ "1"; "2"; "3"; "4"; "5"; "6"; "7"; "8" ]).
Proof.
  intros nts s data N body.
  assert (Hall : forall d, rendered_body nts (with_holdings d "all" s) = table_of nts d).
  { intros d. rewrite rendered_body_eq.
    destruct s as [j c t dm i st e]; simpl. now rewrite dataToShow_all. }
  assert (Hfirst : forall d c n, c <> "all" -> parseInt c = Int (Z.of_nat n) ->
                     rendered_body nts (with_holdings d c s) = table_of nts (firstn n d)).
  { intros d c n Hc Hpc. rewrite rendered_body_eq.
    destruct s as [j c0 t dm i st e]; simpl.
    now rewrite (dataToShow_first c n d Hc Hpc). }
  split; [apply Hall|].
  split; [destruct (parseInt_nat_to_string N) as [Hp Hne]; apply Hfirst; assumption|].
  split; [intros item shown; split; [reflexivity | apply rows_from_length]|].
  split.
  { intros shown i. destruct (nth_error (rows_from nts 0 shown) i) as [row|] eqn:E.
    - apply rows_from_nth in E. destruct E as [item [E1 E2]]. rewrite E1, E2. reflexivity.
    - apply nth_error_None in E. rewrite rows_from_length in E.
      apply nth_error_None in E. rewrite E. reflexivity. }
  split; [reflexivity|].
  intros h1 h2 h3 h4 h5 h6 h7 h8 eight.
  rewrite (Hfirst eight "5" 5%nat) by (discriminate || reflexivity).
  rewrite Hall. repeat split.
Qed.

(** The renderer for a selector value that parseInt reads as a natural
    number, whatever follows the digits. *)
Lemma holdings_count_parsed nts s data count N :
  count <> "all" -> parseInt count = Int (Z.of_nat N) ->
  rendered_body nts (with_holdings data count s) = table_of nts (firstn N data).
Proof.
  intros Hc Hp. rewrite rendered_body_eq.
  destruct s as [j c0 t dm i st e]; simpl.
  now rewrite (dataToShow_first count N data Hc Hp).
Qed.

(** C8: whatever the selector value, an empty array renders one row and
    nothing else: the placeholder, whose single cell has the "no data" text
    and a colspan of 7, the number of cells the script writes in the template
    of a holdings row. *)
Theorem C8_empty_holdings_placeholder :
  forall (Number_toString : number -> string) (s : page) (count : string),
    rendered_body Number_toString (with_holdings [] count s)
    = [ {| stockTicker := None; stockName := None;
           cells := [ {| td_colspan := Some 7%nat; td_class := None;
                         td_text := "구성 종목 정보가 없습니다." |} ] |} ].
Proof.
  intros nts s count.
  rewrite rendered_body_eq. destruct s as [j c t d i st e]; simpl.
  rewrite dataToShow_nil. reflexivity.
Qed.

(** ** The search filter *)

Lemma prefix_spec sub : forall s,
  prefix sub s = true <-> exists post, s = sub ++ post.
Proof.
  induction sub as [|c sub IH]; intros s.
  - split; [intros _; exists s; reflexivity | intros _; destruct s; reflexivity].
  - destruct s as [|d s]; cbn [prefix append].
    + split; [discriminate | intros [post H]; discriminate].
    + destruct (ascii_dec c d) as [->|Hcd].
      * rewrite IH. split; intros [post H]; exists post.
        -- now rewrite H.
        -- now injection H.
      * split; [discriminate|]. intros [post H]. injection H as H1 _. congruence.
Qed.

Lemma includes_spec sub : forall s, includes s sub = true <-> contains s sub.
Proof.
  induction s as [|c s IH]; cbn [includes].
  - destruct (prefix sub EmptyString) eqn:E.
    + split; [intros _ | reflexivity].
      apply prefix_spec in E. destruct E as [post E].
      exists EmptyString, post. exact E.
    + split; [discriminate|]. intros [pre [post H]].
      destruct pre; [|discriminate]. simpl in H.
      assert (prefix sub EmptyString = true) by (apply prefix_spec; exists post; exact H).
      congruence.
  - destruct (prefix sub (String c s)) eqn:E.
    + split; [intros _ | reflexivity].
      apply prefix_spec in E. destruct E as [post E].
      exists EmptyString, post. exact E.
    + rewrite IH. split.
      * intros [pre [post H]]. exists (String c pre), post. simpl. now rewrite H.
      * intros [pre [post H]]. destruct pre as [|d pre].
        -- simpl in H.
           assert (prefix sub (String c s) = true) by (apply prefix_spec; exists post; exact H).
           congruence.
        -- simpl in H. injection H as _ H. exists pre, post. exact H.
Qed.

Lemma filter_kept {A} (f : A -> bool) (P : A -> Prop) :
  (forall x, f x = true <-> P x) -> forall l, kept P l (filter f l).
Proof.
  intros H l. induction l as [|x l IH]; simpl.
  - constructor.
  - destruct (f x) eqn:E.
    + apply kept_keep; [apply H, E | exact IH].
    + apply kept_drop; [|exact IH]. intros HP. apply H in HP. congruence.
Qed.

(** C10: the filter of the search listener keeps, in order, exactly the
    ETFs whose lowercased name contains the lowercased query or whose ticker,
    not lowercased, contains the lowercased query; the listener renders that
    list.  Queries that lowercase to the same string give the same result,
    and the name is only looked at lowercased. *)
Theorem C10_search_filter :
  forall (toLowerCase : string -> string) (etfs : list Etf.t) (query : string),
    kept (matches toLowerCase query) etfs (search_filter toLowerCase query etfs)
    /\ (forall e, In e (search_filter toLowerCase query etfs)
                  <-> In e etfs /\ matches toLowerCase query e)
    /\ (forall s, on_search_input toLowerCase query s
                  = (s' <- get ;;
                     renderEtfList (search_filter toLowerCase query (allEtfs (js s'))))%js s)
    /\ (forall query', toLowerCase query = toLowerCase query' ->
          search_filter toLowerCase query etfs = search_filter toLowerCase query' etfs)
    /\ (forall e e', toLowerCase (Etf.name e) = toLowerCase (Etf.name e') ->
          Etf.ticker e = Etf.ticker e' ->
          (matches toLowerCase query e <-> matches toLowerCase query e')).
Proof.
  intros toLowerCase etfs query.
  assert (Hf : forall e,
    includes (toLowerCase (Etf.name e)) (toLowerCase query)
    || includes (Etf.ticker e) (toLowerCase query) = true <-> matches toLowerCase query e).
  { intros e. rewrite orb_true_iff, !includes_spec. reflexivity. }
  split; [apply filter_kept, Hf|].
  split.
  { intros e. unfold search_filter. rewrite filter_In, Hf. reflexivity. }
  split; [reflexivity|].
  split.
  { intros query' H. unfold search_filter. now rewrite H. }
  intros e e' Hn Ht. unfold matches. now rewrite Hn, Ht.
Qed.

(** An upper-case ticker is not found by typing it in upper case, nor in
    lower case, unless the name matches; a name is found in either case. *)
Example search_ticker_case :
  let kodex := {| Etf.ticker := "KDX200"; Etf.name := "Kodex 200" |} in
  search_filter ascii_toLowerCase "KDX" [ kodex ] = []
  /\ search_filter ascii_toLowerCase "kdx" [ kodex ] = []
  /\ search_filter ascii_toLowerCase "KODEX" [ kodex ] = [ kodex ]
  /\ search_filter ascii_toLowerCase "kodex" [ kodex ] = [ kodex ]
  /\ search_filter ascii_toLowerCase "200" [ kodex ] = [ kodex ].
Proof. repeat split. Qed.

(** ** Reasoning about computations *)

Lemma after_bind_cases {A B} (m : M A) (k : A -> M B) s :
  (exists a, result m s = Return a /\ after (bind m k) s = after (k a) (after m s))
  \/ (exists e, result m s = Throw e /\ after (bind m k) s = after m s).
Proof.
  unfold after, result, bind. destruct (m s) as [[[a|e] s1] t1]; simpl.
  - left. exists a. split; [reflexivity|]. destruct (k a s1) as [[r s2] t2]. reflexivity.
  - right. exists e. split; reflexivity.
Qed.

Lemma total_ret {A} (a : A) : total (ret a).
Proof. intros s. exists a. reflexivity. Qed.

Lemma total_get : total get.
Proof. intros s. exists s. reflexivity. Qed.

Lemma total_modify f : total (modify f).
Proof. intros s. exists tt. reflexivity. Qed.

Lemma total_emit e : total (emit e).
Proof. intros s. exists tt. reflexivity. Qed.

Lemma total_bind {A B} (m : M A) (k : A -> M B) :
  total m -> (forall a, total (k a)) -> total (bind m k).
Proof.
  intros Hm Hk s. destruct (Hm s) as [a Ha]. unfold result, bind in *.
  destruct (m s) as [[r s1] t1]. simpl in Ha. subst r.
  destruct (Hk a s1) as [b Hb]. unfold result in Hb.
  destruct (k a s1) as [[r2 s2] t2]. simpl in *. exists b. exact Hb.
Qed.

Lemma total_try_catch {A} (body : M A) handler :
  (forall e, total (handler e)) -> total (try_catch body handler).
Proof.
  intros H s. unfold result, try_catch. destruct (body s) as [[[a|e] s1] t1].
  - exists a. reflexivity.
  - destruct (H e s1) as [a Ha]. unfold result in Ha.
    destruct (handler e s1) as [[r s2] t2]. simpl in *. exists a. exact Ha.
Qed.

Lemma total_forEach_from {A} (f : A -> nat -> M unit) l :
  (forall x i, total (f x i)) -> forall i, total (forEach_from i f l).
Proof.
  intros Hf. induction l as [|x l IH]; intros i; simpl.
  - apply total_ret.
  - apply total_bind; [apply Hf | intros _; apply IH].
Qed.

Lemma preserves_ret {A} P (a : A) : preserves P (ret a).
Proof. intros s H. exact H. Qed.

Lemma preserves_get P : preserves P get.
Proof. intros s H. exact H. Qed.

Lemma preserves_throw {A} P e : preserves P (@throw A e).
Proof. intros s H. exact H. Qed.

Lemma preserves_emit P e : preserves P (emit e).
Proof. intros s H. exact H. Qed.

Lemma preserves_modify (P : page -> Prop) f :
  (forall s, P s -> P (f s)) -> preserves P (modify f).
Proof. intros H s Hs. apply H, Hs. Qed.

Lemma preserves_bind {A B} P (m : M A) (k : A -> M B) :
  preserves P m -> (forall a, preserves P (k a)) -> preserves P (bind m k).
Proof.
  intros Hm Hk s Hs.
  destruct (after_bind_cases m k s) as [[a [_ E]]|[e [_ E]]]; rewrite E.
  - apply Hk, Hm, Hs.
  - apply Hm, Hs.
Qed.

Lemma preserves_try_catch {A} P (body : M A) handler :
  preserves P body -> (forall e, preserves P (handler e)) ->
  preserves P (try_catch body handler).
Proof.
  intros Hb Hh s Hs. specialize (Hb s Hs). unfold after, try_catch in *.
  destruct (body s) as [[[a|e] s1] t1]; simpl in *; [exact Hb|].
  specialize (Hh e s1 Hb). unfold after in Hh.
  destruct (handler e s1) as [[r s2] t2]. exact Hh.
Qed.

Lemma preserves_try_finally {A} P (body : M A) cleanup :
  preserves P body -> preserves P cleanup -> preserves P (try_finally body cleanup).
Proof.
  intros Hb Hc s Hs. specialize (Hb s Hs). unfold after, try_finally in *.
  destruct (body s) as [[r s1] t1]. simpl in Hb.
  specialize (Hc s1 Hb). unfold after in Hc.
  destruct (cleanup s1) as [[[u|e] s2] t2]; exact Hc.
Qed.

Lemma preserves_forEach_from {A} P (f : A -> nat -> M unit) l :
  (forall x i, preserves P (f x i)) -> forall i, preserves P (forEach_from i f l).
Proof.
  intros Hf. induction l as [|x l IH]; intros i; simpl.
  - apply preserves_ret.
  - apply preserves_bind; [apply Hf | intros _; apply IH].
Qed.

(** ** The loading guard *)

Lemma guarded_run t body label msg s :
  guarded t body label msg s =
  match body (loading_on t s) with
  | (Return a, s1, t1) =>
      (Return a, loading_off s1, Overlay true :: t1 ++ [ Overlay false ])%list
  | (Throw e, s1, t1) =>
      (Return tt, loading_off s1,
       Overlay true :: t1 ++ [ ConsoleError label e; Alert msg; Overlay false ])%list
  end.
Proof.
  unfold guarded, try_catch_finally, try_finally, try_catch.
  unfold bind at 1. unfold showLoading.
  change ((modify (with_text (set_loadingText t));;
           modify (with_style (set_loadingOverlay_display "flex"));;
           modify (with_style (set_body_pointerEvents "none"));;
           modify (with_style (set_loadingOverlay_pointerEvents "auto"));;
           emit (Overlay true))%js s)
    with (Return tt, loading_on t s, [ Overlay true ]).
  cbv iota beta.
  destruct (body (loading_on t s)) as [[[a|e] s1] t1].
  - reflexivity.
  - unfold bind, console_error, alert, emit, hideLoading, modify. simpl.
    rewrite <- app_assoc. reflexivity.
Qed.

Lemma guarded_total t body label msg : total (guarded t body label msg).
Proof.
  intros s. unfold result. rewrite guarded_run.
  destruct (body (loading_on t s)) as [[[[]|e] s1] t1]; exists tt; reflexivity.
Qed.

Lemma guarded_released t body label msg s : released (after (guarded t body label msg) s).
Proof.
  unfold after. rewrite guarded_run.
  destruct (body (loading_on t s)) as [[[a|e] s1] t1]; split; reflexivity.
Qed.

Lemma guarded_engaged t s : engaged (loading_on t s).
Proof. split; reflexivity. Qed.

(** The effects of a guarded function: the overlay goes up first and comes
    down last. *)
Lemma guarded_effects t body label msg s :
  exists mid, effects (guarded t body label msg) s
              = (Overlay true :: mid ++ [ Overlay false ])%list.
Proof.
  unfold effects. rewrite guarded_run.
  destruct (body (loading_on t s)) as [[[a|e] s1] t1]; simpl.
  - exists t1. reflexivity.
  - exists (t1 ++ [ ConsoleError label e; Alert msg ])%list.
    rewrite <- app_assoc. reflexivity.
Qed.

(** The five functions that call showLoading have the guarded shape. *)
Lemma initializeApp_guarded net :
  exists t body label msg, initializeApp net = guarded t body label msg.
Proof. repeat eexists. Qed.

Lemma fetchEtfDetails_guarded nts net ticker :
  exists t body label msg, fetchEtfDetails nts net ticker = guarded t body label msg.
Proof. repeat eexists. Qed.

Lemma fetchStockHistory_guarded net a b c :
  exists t body label msg, fetchStockHistory net a b c = guarded t body label msg.
Proof. repeat eexists. Qed.

Lemma loadStatsData_guarded nts enc net :
  exists t body label msg, loadStatsData nts enc net = guarded t body label msg.
Proof. repeat eexists. Qed.

Lemma on_refresh_click_guarded nts enc net :
  exists t body label msg, on_refresh_click nts enc net = guarded t body label msg.
Proof. repeat eexists. Qed.

Lemma guarded_guard_released t body label msg :
  guard_released (guarded t body label msg).
Proof.
  intros s. split; [|split].
  - destruct (guarded_total t body label msg s) as [[] H]. exact H.
  - apply guarded_released.
  - apply guarded_effects.
Qed.

Ltac by_guard H :=
  let t := fresh "t" in let body := fresh "body" in
  let label := fresh "label" in let msg := fresh "msg" in let E := fresh "E" in
  destruct H as [t [body [label [msg E]]]]; rewrite E.

Lemma total_renderEtfList etfs : total (renderEtfList etfs).
Proof.
  unfold renderEtfList. apply total_bind; [apply total_modify | intros _].
  apply total_bind; [apply total_emit | intros _].
  destruct etfs; [apply total_modify|].
  apply total_forEach_from. intros x i. apply total_modify.
Qed.

Lemma total_renderHoldingsTable nts : total (renderHoldingsTable nts).
Proof. intros s. unfold result. rewrite renderHoldingsTable_run. exists tt. reflexivity. Qed.

Lemma total_fetchEtfDetails nts net t : total (fetchEtfDetails nts net t).
Proof. by_guard (fetchEtfDetails_guarded nts net t). apply guarded_total. Qed.

Lemma total_fetchStockHistory net a b c : total (fetchStockHistory net a b c).
Proof. by_guard (fetchStockHistory_guarded net a b c). apply guarded_total. Qed.

Lemma total_loadStatsData nts enc net : total (loadStatsData nts enc net).
Proof. by_guard (loadStatsData_guarded nts enc net). apply guarded_total. Qed.

Lemma total_on_refresh_click nts enc net : total (on_refresh_click nts enc net).
Proof. by_guard (on_refresh_click_guarded nts enc net). apply guarded_total. Qed.

Lemma total_classList_add_hidden p : total (classList_add_hidden p).
Proof. apply total_bind; [apply total_modify | intros _; apply total_emit]. Qed.

Lemma total_classList_remove_hidden p : total (classList_remove_hidden p).
Proof. apply total_bind; [apply total_modify | intros _; apply total_emit]. Qed.

Ltac total_step :=
  lazymatch goal with
  | |- total (bind _ _) => apply total_bind; [|intros ?]
  | |- total (ret _) => apply total_ret
  | |- total get => apply total_get
  | |- total (modify _) => apply total_modify
  | |- total (emit _) => apply total_emit
  | |- total (match ?x with _ => _ end) => destruct x
  | |- total _ =>
      first
        [ progress cbv zeta
        | apply total_renderEtfList | apply total_renderHoldingsTable
        | apply total_fetchEtfDetails | apply total_fetchStockHistory
        | apply total_loadStatsData | apply total_on_refresh_click
        | apply total_classList_add_hidden | apply total_classList_remove_hidden ]
  end.

Lemma total_switchView nts enc net v : total (switchView nts enc net v).
Proof. unfold switchView, assign. repeat total_step. Qed.

(** No listener throws. *)
Lemma total_listener nts lower enc net e : total (listener nts lower enc net e).
Proof.
  destruct e; unfold listener.
  - unfold on_search_input. repeat total_step.
  - unfold on_etf_click. repeat (total_step || apply total_switchView).
  - unfold on_holdings_count_change. repeat total_step.
  - unfold on_holdings_click. repeat total_step.
  - apply total_on_refresh_click.
  - unfold on_export_click, alert. repeat total_step.
  - unfold on_view_toggle. repeat (total_step || apply total_switchView).
  - unfold on_stats_type_change. repeat total_step.
  - unfold on_theme_change. repeat total_step.
Qed.

(** A tactic for [preserves P m]: [known] closes the goals for the
    functions that have a lemma, and an assignment is accepted when the
    property of the new page is the property of the old one. *)
Ltac head_of t :=
  lazymatch t with
  | ?f _ => head_of f
  | _ => t
  end.

Ltac preserves_step known :=
  lazymatch goal with
  | |- preserves _ (bind _ _) => apply preserves_bind; [|intros ?]
  | |- preserves _ (ret _) => apply preserves_ret
  | |- preserves _ get => apply preserves_get
  | |- preserves _ (throw _) => apply preserves_throw
  | |- preserves _ (emit _) => apply preserves_emit
  | |- preserves _ (modify _) =>
      apply preserves_modify; let H := fresh in intros ? H; exact H
  | |- preserves _ (forEach _ _) => unfold forEach
  | |- preserves _ (forEach_from _ _ _) => apply preserves_forEach_from; intros ? ?
  | |- preserves _ (try_catch _ _) => apply preserves_try_catch; [|intros ?]
  | |- preserves _ (try_finally _ _) => apply preserves_try_finally
  | |- preserves _ (match ?x with _ => _ end) => destruct x
  | |- preserves _ ?m => first [ progress cbv zeta | known | let h := head_of m in unfold h ]
  end.

Lemma released_guarded t body label msg : preserves released (guarded t body label msg).
Proof. intros s _. apply guarded_released. Qed.

Lemma released_fetchEtfDetails nts net t : preserves released (fetchEtfDetails nts net t).
Proof. by_guard (fetchEtfDetails_guarded nts net t). apply released_guarded. Qed.

Lemma released_fetchStockHistory net a b c :
  preserves released (fetchStockHistory net a b c).
Proof. by_guard (fetchStockHistory_guarded net a b c). apply released_guarded. Qed.

Lemma released_loadStatsData nts enc net : preserves released (loadStatsData nts enc net).
Proof. by_guard (loadStatsData_guarded nts enc net). apply released_guarded. Qed.

Lemma released_on_refresh_click nts enc net :
  preserves released (on_refresh_click nts enc net).
Proof. by_guard (on_refresh_click_guarded nts enc net). apply released_guarded. Qed.

Ltac released_known :=
  first [ apply released_fetchEtfDetails | apply released_fetchStockHistory
        | apply released_loadStatsData | apply released_on_refresh_click ].

(** A listener that finds the guard released leaves it released. *)
Lemma released_listener nts lower enc net e :
  preserves released (listener nts lower enc net e).
Proof.
  destruct e; unfold listener.
  - unfold on_search_input. repeat preserves_step released_known.
  - unfold on_etf_click. repeat preserves_step released_known.
  - unfold on_holdings_count_change. repeat preserves_step released_known.
  - unfold on_holdings_click. repeat preserves_step released_known.
  - apply released_on_refresh_click.
  - unfold on_export_click, alert. repeat preserves_step released_known.
  - unfold on_view_toggle. repeat preserves_step released_known.
  - unfold on_stats_type_change. repeat preserves_step released_known.
  - unfold on_theme_change. repeat preserves_step released_known.
Qed.

(** C6: each function that calls showLoading (initializeApp,
    fetchEtfDetails, fetchStockHistory, loadStatsData and the refresh
    listener) returns without throwing whatever the network answers, with the
    guard released, and its effects end with the overlay coming down; no
    listener throws, and a listener that starts with the guard released ends
    with it released. *)
Theorem C6_loading_guard_released :
  forall (Number_toString : number -> string)
         (toLowerCase encodeURIComponent : string -> string) (net : network),
    guard_released (initializeApp net)
    /\ (forall t, guard_released (fetchEtfDetails Number_toString net t))
    /\ (forall etfTicker stockTicker stockName,
          guard_released (fetchStockHistory net etfTicker stockTicker stockName))
    /\ guard_released (loadStatsData Number_toString encodeURIComponent net)
    /\ guard_released (on_refresh_click Number_toString encodeURIComponent net)
    /\ (forall e s,
          result (listener Number_toString toLowerCase encodeURIComponent net e) s
          = Return tt)
    /\ (forall e s,
          released s ->
          released (after (listener Number_toString toLowerCase encodeURIComponent net e) s)).
Proof.
  intros nts lower enc net.
  split; [by_guard (initializeApp_guarded net); apply guarded_guard_released|].
  split; [intros t; by_guard (fetchEtfDetails_guarded nts net t);
          apply guarded_guard_released|].
  split; [intros a b c; by_guard (fetchStockHistory_guarded net a b c);
          apply guarded_guard_released|].
  split; [by_guard (loadStatsData_guarded nts enc net); apply guarded_guard_released|].
  split; [by_guard (on_refresh_click_guarded nts enc net); apply guarded_guard_released|].
  split.
  - intros e s. destruct (total_listener nts lower enc net e s) as [[] H]. exact H.
  - intros e s. apply released_listener.
Qed.

(** ** What the calls to the server do *)

Lemma fetch_run {B} net (answer : network -> nat -> string -> reply B) method url s :
  fetch net answer method url s =
  match answer net (requests (env s)) url with
  | Rejected => (Throw NetworkError, bump s, [ Fetch method url ])
  | Responded ok body => (Return (ok, body), bump s, [ Fetch method url ])
  end.
Proof.
  unfold fetch, bind, get, modify, emit. cbn.
  destruct (answer net (requests (env s)) url); reflexivity.
Qed.

Ltac fold_guarded :=
  match goal with
  | |- context [ bind (showLoading ?t)
                   (fun _ => try_catch_finally ?b
                               (fun error => bind (console_error ?l error) (fun _ => alert ?m))
                               hideLoading) ] =>
      change (bind (showLoading t)
                (fun _ => try_catch_finally b
                            (fun error => bind (console_error l error) (fun _ => alert m))
                            hideLoading))
        with (guarded t b l m)
  end.

Lemma fetchEtfDetails_run nts net t s :
  let s0 := bump (loading_on "ETF 상세 정보를 불러오는 중입니다..." s) in
  fetchEtfDetails nts net t s =
  match comparison_reply net (requests (env s)) (comparison_url t) with
  | Responded true (Some d) =>
      (Return tt, loading_off (details_loaded nts d t s0),
       [ Overlay true; Fetch "GET" (comparison_url t);
         PanelHidden welcomeMessage true; PanelHidden etfDetails false;
         PanelHidden chartContainer true ]
       ++ destroy_effects (weightChart (js s))
       ++ [ Cleared holdings_table; Overlay false ])%list
  | r =>
      (Return tt, loading_off s0,
       [ Overlay true; Fetch "GET" (comparison_url t) ]
       ++ match failure r with
          | Some e => [ ConsoleError "Error fetching ETF details:" e;
                        Alert "ETF 상세 정보를 가져오는 데 실패했습니다." ]
          | None => []
          end
       ++ [ Overlay false ])%list
  end.
Proof.
  intros s0. subst s0. unfold fetchEtfDetails. fold_guarded.
  rewrite guarded_run, run_bind, fetch_run.
  change (requests (env (loading_on _ s))) with (requests (env s)).
  fold (comparison_url t).
  destruct (comparison_reply net (requests (env s)) (comparison_url t)) as [|[|] [d|]];
    try reflexivity.
  cbv iota beta.
  unfold check_ok, json, assign, classList_add_hidden, classList_remove_hidden.
  unfold details_loaded, after.
  destruct s as [j c tx dm i st e]. destruct j as [ae ced hd [w|] cv at0];
    unfold bind, destroy, modify, emit, ret, get;
    cbn -[renderHoldingsTable append display_name];
    rewrite renderHoldingsTable_run; reflexivity.
Qed.

Lemma renderWeightChart_run stockName history s :
  renderWeightChart stockName history s =
  (Return tt, chart_drawn stockName history s,
   [ PanelHidden chartContainer false ]
   ++ destroy_effects (weightChart (js s))
   ++ [ ChartNew (charts_built (env s)) ])%list.
Proof.
  unfold renderWeightChart, chart_drawn, classList_remove_hidden, new_Chart, assign.
  destruct s as [j c tx dm i st e]. destruct j as [ae ced hd [w|] cv at0];
    unfold bind, destroy, modify, emit, ret, get; cbn -[div of_Z]; reflexivity.
Qed.

Lemma fetchStockHistory_run net etfTicker stockTicker stockName s :
  let s0 := bump (loading_on "종목 비중 추이를 불러오는 중입니다..." s) in
  fetchStockHistory net etfTicker stockTicker stockName s =
  match history_reply net (requests (env s)) (history_url etfTicker stockTicker) with
  | Responded true (Some data) =>
      (Return tt, loading_off (chart_drawn stockName (History.history data) s0),
       [ Overlay true; Fetch "GET" (history_url etfTicker stockTicker);
         PanelHidden chartContainer false ]
       ++ destroy_effects (weightChart (js s))
       ++ [ ChartNew (charts_built (env s)); Overlay false ])%list
  | r =>
      (Return tt, loading_off s0,
       [ Overlay true; Fetch "GET" (history_url etfTicker stockTicker) ]
       ++ match failure r with
          | Some e => [ ConsoleError "Error fetching stock history:" e;
                        Alert "종목 비중 추이를 가져오는 데 실패했습니다." ]
          | None => []
          end
       ++ [ Overlay false ])%list
  end.
Proof.
  intros s0. subst s0. unfold fetchStockHistory. fold_guarded.
  rewrite guarded_run, run_bind, fetch_run.
  change (requests (env (loading_on _ s))) with (requests (env s)).
  fold (history_url etfTicker stockTicker).
  destruct (history_reply net (requests (env s)) (history_url etfTicker stockTicker))
    as [|[|] [d|]]; try reflexivity.
  cbv iota beta. unfold check_ok, json.
  unfold bind at 1. unfold bind at 1. cbn [fst snd ret].
  rewrite renderWeightChart_run.
  change (weightChart (js (bump (loading_on _ s)))) with (weightChart (js s)).
  change (charts_built (env (bump (loading_on _ s)))) with (charts_built (env s)).
  cbn [List.app]. rewrite <- !app_assoc. reflexivity.
Qed.

(** A loop whose callback has no effect has none. *)
Lemma forEach_from_silent {A} (f : A -> nat -> M unit) l :
  (forall x i s, effects (f x i) s = []) -> forall i s, effects (forEach_from i f l) s = [].
Proof.
  intros Hf. induction l as [|x l IH]; intros i s; simpl; [reflexivity|].
  unfold effects in *. rewrite run_bind.
  specialize (Hf x i s). destruct (f x i s) as [[[u|e] s1] t1]; simpl in Hf; subst t1.
  - specialize (IH (S i) s1). destruct (forEach_from (S i) f l s1) as [[r s2] t2].
    simpl in *. exact IH.
  - reflexivity.
Qed.

Lemma forEach_from_throws {A} (P : exn -> Prop) (f : A -> nat -> M unit) l :
  (forall x i s e, result (f x i) s = Throw e -> P e) ->
  forall i s e, result (forEach_from i f l) s = Throw e -> P e.
Proof.
  intros Hf. induction l as [|x l IH]; intros i s e; simpl; [discriminate|].
  unfold result in *. rewrite run_bind.
  specialize (Hf x i s). destruct (f x i s) as [[[u|e1] s1] t1]; simpl in Hf.
  - specialize (IH (S i) s1 e). destruct (forEach_from (S i) f l s1) as [[r s2] t2].
    simpl in *. exact IH.
  - simpl. intros H. apply Hf. exact H.
Qed.

Lemma renderStatsTable_throws nts rows type s e :
  result (renderStatsTable nts rows type) s = Throw e -> e = TypeError.
Proof.
  unfold result, renderStatsTable.
  unfold bind at 1. unfold modify at 1. cbv iota beta.
  unfold bind at 1. unfold emit at 1. cbv iota beta.
  destruct rows as [|r rows]; [discriminate|].
  match goal with |- context [forEach ?f ?l ?s] =>
    pose proof (forEach_from_throws (fun e => e = TypeError) f l) as H;
    specialize (fun Hf => H Hf 0%nat s e);
    unfold result, forEach in *; destruct (forEach_from 0 f l s) as [[r' s'] t'] end.
  simpl in *. apply H. clear. intros x i s e. unfold stats_row.
  destruct (type =? "duplicate"); [destruct (Stats.avg_weight x)|
    destruct (type =? "amount"); [destruct (Stats.max_weight x)|]];
    cbn; congruence.
Qed.

Lemma renderStatsTable_effects nts rows type s :
  effects (renderStatsTable nts rows type) s = [ Cleared stats_table ].
Proof.
  unfold effects, renderStatsTable. 
  unfold bind at 1. unfold modify at 1. cbv iota beta.
  unfold bind at 1. unfold emit at 1. cbv iota beta.
  destruct rows as [|r rows]; [reflexivity|].
  match goal with |- context [forEach ?f ?l ?s] =>
    pose proof (forEach_from_silent f l) as H; specialize (fun Hf => H Hf 0%nat s);
    unfold effects, forEach in *; destruct (forEach_from 0 f l s) as [[r' s'] t'] end.
  simpl in *. rewrite H; [reflexivity|].
  intros x i s0. unfold stats_row.
  destruct (type =? "duplicate"); [destruct (Stats.avg_weight x); reflexivity|].
  destruct (type =? "amount"); [destruct (Stats.max_weight x); reflexivity|].
  reflexivity.
Qed.

Lemma loadStatsData_effects nts enc net s :
  let url := stats_request enc s in
  exists render_error,
    effects (loadStatsData nts enc net) s =
    ([ Overlay true; Fetch "GET" url ]
     ++ match failure (stats_reply net (requests (env s)) url) with
        | Some e => [ ConsoleError "Error loading stats data:" e;
                      Alert "통계 데이터를 가져오는 데 실패했습니다." ]
        | None =>
            Cleared stats_table ::
            (if render_error : bool then
               [ ConsoleError "Error loading stats data:" TypeError;
                 Alert "통계 데이터를 가져오는 데 실패했습니다." ]
             else [])
        end
     ++ [ Overlay false ])%list.
Proof.
  intros url. subst url. unfold stats_request, effects, loadStatsData. fold_guarded.
  rewrite guarded_run, run_bind. unfold get at 1. cbv iota beta zeta.
  rewrite run_bind, fetch_run.
  change (requests (env (loading_on _ s))) with (requests (env s)).
  change (inputs (loading_on _ s)) with (inputs s).
  set (url := stats_url enc _ _).
  destruct (stats_reply net (requests (env s)) url) as [|[|] [d|]];
    try (exists false; reflexivity).
  cbv iota beta. unfold check_ok, json.
  unfold bind at 1. unfold bind at 1. cbn [fst snd ret].
  unfold bind at 1. unfold modify at 1. cbv iota beta.
  unfold bind at 1.
  match goal with |- context [updateStatsTableHeaders ?t ?s0] =>
    assert (H : exists s1, updateStatsTableHeaders t s0 = (Return tt, s1, []))
  end.
  { unfold updateStatsTableHeaders.
    destruct (_ =? "duplicate"); [eexists; reflexivity|].
    destruct (_ =? "amount"); eexists; reflexivity. }
  destruct H as [s1 H]. rewrite H. cbv iota beta.
  match goal with |- context [renderStatsTable ?n ?r ?t ?s0] =>
    pose proof (renderStatsTable_effects n r t s0) as Hr; unfold effects in Hr;
    pose proof (renderStatsTable_throws n r t s0) as He; unfold result in He;
    destruct (renderStatsTable n r t s0) as [[[u|e] s2] t2]
  end; simpl in Hr, He; subst t2.
  - exists false. reflexivity.
  - exists true. rewrite (He e eq_refl). reflexivity.
Qed.

Lemma renderEtfList_effects etfs s :
  effects (renderEtfList etfs) s = [ Cleared etf_list ]
  /\ result (renderEtfList etfs) s = Return tt.
Proof.
  split; [|destruct (total_renderEtfList etfs s) as [[] H]; exact H].
  unfold effects, renderEtfList.
  unfold bind at 1. unfold modify at 1. cbv iota beta.
  unfold bind at 1. unfold emit at 1. cbv iota beta.
  destruct etfs as [|x etfs]; [reflexivity|].
  match goal with |- context [forEach ?f ?l ?s] =>
    pose proof (forEach_from_silent f l) as H; specialize (fun Hf => H Hf 0%nat s);
    unfold effects, forEach in *; destruct (forEach_from 0 f l s) as [[r' s'] t']
  end.
  simpl in *. rewrite H by reflexivity. reflexivity.
Qed.

Lemma fetchEtfList_effects net s :
  effects (fetchEtfList net) s =
  (Fetch "GET" "/api/etfs" ::
   match failure (etfs_reply net (requests (env s)) "/api/etfs") with
   | Some e => [ ConsoleError "Error fetching ETF list:" e ]
   | None => [ Cleared etf_list ]
   end)%list.
Proof.
  unfold effects, fetchEtfList, try_catch. rewrite run_bind, fetch_run.
  destruct (etfs_reply net (requests (env s)) "/api/etfs") as [|[|] [d|]];
    try reflexivity.
  cbv iota beta. unfold check_ok, json, assign.
  unfold bind at 1. unfold bind at 1. cbn [fst snd ret].
  unfold bind at 1. unfold modify at 1. cbv iota beta.
  match goal with |- context [renderEtfList ?l ?s0] =>
    destruct (renderEtfList_effects l s0) as [He Hr]; unfold effects, result in He, Hr;
    destruct (renderEtfList l s0) as [[r s1] t1]
  end. simpl in *. subst. reflexivity.
Qed.

Lemma loadThemes_effects net s :
  effects (loadThemes net) s =
  (Fetch "GET" "/api/config/themes" ::
   match failure (themes_reply net (requests (env s)) "/api/config/themes") with
   | Some e => [ ConsoleError "Error loading themes:" e ]
   | None => []
   end)%list.
Proof.
  unfold effects, loadThemes, try_catch. rewrite run_bind, fetch_run.
  destruct (themes_reply net (requests (env s)) "/api/config/themes") as [|[|] [d|]];
    try reflexivity.
  cbv iota beta zeta. unfold check_ok, json, assign.
  unfold bind at 1. unfold bind at 1. cbn [fst snd ret].
  unfold bind at 1. unfold modify at 1. cbv iota beta.
  unfold bind at 1. unfold modify at 1. cbv iota beta.
  match goal with |- context [forEach ?f ?l ?s0] =>
    pose proof (forEach_from_silent f l) as H; specialize (fun Hf => H Hf 0%nat s0);
    pose proof (total_forEach_from f l) as Ht; specialize (fun Hf => Ht Hf 0%nat s0);
    unfold effects, result, forEach in *; destruct (forEach_from 0 f l s0) as [[r' s'] t']
  end.
  simpl in *. rewrite H by reflexivity.
  destruct Ht as [[] Ht]; [intros; apply total_modify|]. subst r'. reflexivity.
Qed.

Lemma initializeApp_failure net s :
  forall e,
    failure_unchecked (message_reply net (requests (env s)) "/api/system/initialize") = Some e ->
    effects (initializeApp net) s =
    [ Overlay true; Fetch "POST" "/api/system/initialize";
      ConsoleError "Initialization error:" e;
      Alert "초기화 중 오류가 발생했습니다."; Overlay false ].
Proof.
  intros e H. unfold effects, initializeApp. fold_guarded.
  rewrite guarded_run, run_bind, fetch_run.
  change (requests (env (loading_on _ s))) with (requests (env s)).
  destruct (message_reply net (requests (env s)) "/api/system/initialize") as [|ok [d|]];
    simpl in H; try discriminate; injection H as <-; reflexivity.
Qed.

(** A reply that decodes is a success for initializeApp whatever its status:
    the message of the body is alerted and the lists are fetched. *)
Lemma initializeApp_decoded net s ok m :
  message_reply net (requests (env s)) "/api/system/initialize" = Responded ok (Some m) ->
  let s1 := bump (loading_on "애플리케이션을 초기화하고 있습니다. 잠시만 기다려주세요..." s) in
  effects (initializeApp net) s =
  ([ Overlay true; Fetch "POST" "/api/system/initialize"; Alert (Message.message m) ]
   ++ effects (fetchEtfList net) s1
   ++ effects (loadThemes net) (after (fetchEtfList net) s1)
   ++ [ Overlay false ])%list.
Proof.
  intros H s1. unfold effects at 1, initializeApp. fold_guarded.
  rewrite guarded_run, run_bind, fetch_run.
  change (requests (env (loading_on _ s))) with (requests (env s)).
  rewrite H. cbv iota beta. unfold json.
  unfold bind at 1. cbn [fst snd ret].
  unfold bind at 1. unfold alert, emit at 1. cbv iota beta.
  fold s1. rewrite run_bind.
  pose proof (fetchEtfList_effects net s1) as He.
  assert (Hr : result (fetchEtfList net) s1 = Return tt).
  { assert (T : total (fetchEtfList net)).
    { unfold fetchEtfList. apply total_try_catch. intros e0. apply total_emit. }
    destruct (T s1) as [[] Hr]. exact Hr. }
  unfold effects, after, result in *.
  destruct (fetchEtfList net s1) as [[r s2] t2]. simpl in Hr. subst r.
  cbv iota beta. simpl fst. simpl snd.
  assert (Hr2 : result (loadThemes net) s2 = Return tt).
  { assert (T : total (loadThemes net)).
    { unfold loadThemes. apply total_try_catch. intros e0. apply total_emit. }
    destruct (T s2) as [[] Hr]. exact Hr. }
  unfold result in Hr2. unfold effects.
  destruct (loadThemes net s2) as [[r s3] t3]. simpl in Hr2. subst r.
  simpl. rewrite <- !app_assoc. reflexivity.
Qed.

Lemma on_refresh_click_failure nts enc net s :
  forall e,
    failure_unchecked (message_reply net (requests (env s)) "/api/system/update") = Some e ->
    effects (on_refresh_click nts enc net) s =
    [ Overlay true; Fetch "POST" "/api/system/update";
      ConsoleError "Refresh error:" e;
      Alert "데이터 업데이트 중 오류가 발생했습니다."; Overlay false ].
Proof.
  intros e H. unfold effects, on_refresh_click. fold_guarded.
  rewrite guarded_run, run_bind, fetch_run.
  change (requests (env (loading_on _ s))) with (requests (env s)).
  destruct (message_reply net (requests (env s)) "/api/system/update") as [|ok [d|]];
    simpl in H; try discriminate; injection H as <-; reflexivity.
Qed.

Lemma on_refresh_click_decoded nts enc net s ok m :
  message_reply net (requests (env s)) "/api/system/update" = Responded ok (Some m) ->
  let s1 := bump (loading_on "최신 데이터로 업데이트 중입니다..." s) in
  on_refresh_click nts enc net s =
  (Return tt, loading_off (after (reload nts enc net s) s1),
   [ Overlay true; Fetch "POST" "/api/system/update"; Alert (Message.message m) ]
   ++ effects (reload nts enc net s) s1 ++ [ Overlay false ])%list.
Proof.
  intros H s1. unfold on_refresh_click. fold_guarded.
  rewrite guarded_run, run_bind, fetch_run.
  change (requests (env (loading_on _ s))) with (requests (env s)).
  rewrite H. cbv iota beta. unfold json.
  unfold bind at 1. cbn [fst snd ret].
  unfold bind at 1. unfold alert, emit at 1. cbv iota beta.
  fold s1. unfold bind at 1. unfold get at 1. cbv iota beta.
  change (etfList (dom s1)) with (etfList (dom s)).
  change (currentView (js s1)) with (currentView (js s)).
  fold (reload nts enc net s).
  assert (T : total (reload nts enc net s)).
  { unfold reload. repeat total_step. }
  destruct (T s1) as [[] Hr]. unfold result, after, effects in *.
  destruct (reload nts enc net s s1) as [[r s2] t2]. simpl in Hr. subst r.
  reflexivity.
Qed.

(** ** Example pages and networks *)

Lemma blank_page_loaded : loaded blank_page.
Proof. repeat split. Qed.

Lemma charted_page_reachable :
  reachable example_toString ascii_toLowerCase example_encode online charted_page.
Proof.
  unfold charted_page. cbn [after_events].
  apply reach_event, reach_event, reach_start, blank_page_loaded.
Qed.

Lemma visited_page_reachable :
  reachable example_toString ascii_toLowerCase example_encode online visited_page.
Proof.
  unfold visited_page. cbn [after_events].
  apply reach_event, reach_event, reach_start, blank_page_loaded.
Qed.

(** ** Error paths of the calls to the server *)

(** C2, amended: on a rejected fetch, a status that is not a success or a
    body that does not decode, fetchEtfDetails, fetchStockHistory and
    loadStatsData issue their one request, log once to the console, raise one
    alert with their fixed message and do not retry; fetchEtfList and
    loadThemes log once and raise no alert; initializeApp and the refresh
    listener log and alert once when the fetch is rejected or the body does
    not decode, and do not look at the status: a body that decodes is
    alerted as the answer whatever the status. *)
Theorem C2_error_paths :
  forall (Number_toString : number -> string) (encodeURIComponent : string -> string)
         (net : network) (s : page) (t etfTicker stockTicker stockName : string),
    let n := requests (env s) in
    (* fetchEtfDetails *)
    (let tr := effects (fetchEtfDetails Number_toString net t) s in
     match failure (comparison_reply net n (comparison_url t)) with
     | Some e =>
         tr = guarded_error_path "GET" (comparison_url t) "Error fetching ETF details:" e
                "ETF 상세 정보를 가져오는 데 실패했습니다."
     | None => logs tr = 0%nat /\ alerts tr = 0%nat /\ fetches tr = 1%nat
     end)
    (* fetchStockHistory *)
    /\ (let tr := effects (fetchStockHistory net etfTicker stockTicker stockName) s in
        match failure (history_reply net n (history_url etfTicker stockTicker)) with
        | Some e =>
            tr = guarded_error_path "GET" (history_url etfTicker stockTicker)
                   "Error fetching stock history:" e
                   "종목 비중 추이를 가져오는 데 실패했습니다."
        | None => logs tr = 0%nat /\ alerts tr = 0%nat /\ fetches tr = 1%nat
        end)
    (* loadStatsData *)
    /\ (let tr := effects (loadStatsData Number_toString encodeURIComponent net) s in
        let url := stats_request encodeURIComponent s in
        match failure (stats_reply net n url) with
        | Some e =>
            tr = guarded_error_path "GET" url "Error loading stats data:" e
                   "통계 데이터를 가져오는 데 실패했습니다."
        | None =>
            fetches tr = 1%nat
            /\ (logs tr = 0%nat /\ alerts tr = 0%nat
                \/ tr = [ Overlay true; Fetch "GET" url; Cleared stats_table;
                          ConsoleError "Error loading stats data:" TypeError;
                          Alert "통계 데이터를 가져오는 데 실패했습니다."; Overlay false ])
        end)
    (* fetchEtfList and loadThemes: a console log, no alert *)
    /\ effects (fetchEtfList net) s
       = Fetch "GET" "/api/etfs"
         :: match failure (etfs_reply net n "/api/etfs") with
            | Some e => [ ConsoleError "Error fetching ETF list:" e ]
            | None => [ Cleared etf_list ]
            end
    /\ effects (loadThemes net) s
       = Fetch "GET" "/api/config/themes"
         :: match failure (themes_reply net n "/api/config/themes") with
            | Some e => [ ConsoleError "Error loading themes:" e ]
            | None => []
            end
    (* initializeApp and the refresh listener: the status is not looked at *)
    /\ (let tr := effects (initializeApp net) s in
        match message_reply net n "/api/system/initialize" with
        | Responded _ (Some m) =>
            exists rest, tr = Overlay true :: Fetch "POST" "/api/system/initialize"
                              :: Alert (Message.message m) :: rest
        | Responded _ None =>
            tr = guarded_error_path "POST" "/api/system/initialize"
                   "Initialization error:" SyntaxError "초기화 중 오류가 발생했습니다."
        | Rejected =>
            tr = guarded_error_path "POST" "/api/system/initialize"
                   "Initialization error:" NetworkError "초기화 중 오류가 발생했습니다."
        end)
    /\ (let tr := effects (on_refresh_click Number_toString encodeURIComponent net) s in
        match message_reply net n "/api/system/update" with
        | Responded _ (Some m) =>
            exists rest, tr = Overlay true :: Fetch "POST" "/api/system/update"
                              :: Alert (Message.message m) :: rest
        | Responded _ None =>
            tr = guarded_error_path "POST" "/api/system/update"
                   "Refresh error:" SyntaxError "데이터 업데이트 중 오류가 발생했습니다."
        | Rejected =>
            tr = guarded_error_path "POST" "/api/system/update"
                   "Refresh error:" NetworkError "데이터 업데이트 중 오류가 발생했습니다."
        end).
Proof.
  intros nts enc net s t a b c n. subst n.
  split.
  { unfold effects. rewrite fetchEtfDetails_run.
    destruct (comparison_reply net (requests (env s)) (comparison_url t)) as [|[|] [d|]];
      try reflexivity.
    destruct (weightChart (js s)); repeat split. }
  split.
  { unfold effects. rewrite fetchStockHistory_run.
    destruct (history_reply net (requests (env s)) (history_url a b)) as [|[|] [d|]];
      try reflexivity.
    destruct (weightChart (js s)); repeat split. }
  split.
  { destruct (loadStatsData_effects nts enc net s) as [re H]. cbv zeta in *. rewrite H.
    destruct (stats_reply net (requests (env s)) (stats_request enc s)) as [|[|] [d|]];
      try reflexivity.
    destruct re; split; try reflexivity; [right | left; split]; reflexivity. }
  split; [apply fetchEtfList_effects|].
  split; [apply loadThemes_effects|].
  split.
  { destruct (message_reply net (requests (env s)) "/api/system/initialize")
      as [|ok [m|]] eqn:E.
    - apply initializeApp_failure. rewrite E. reflexivity.
    - cbv zeta. rewrite (initializeApp_decoded net s ok m E). eexists. reflexivity.
    - apply initializeApp_failure. rewrite E. reflexivity. }
  { destruct (message_reply net (requests (env s)) "/api/system/update")
      as [|ok [m|]] eqn:E.
    - apply on_refresh_click_failure. rewrite E. reflexivity.
    - cbv zeta. unfold effects. rewrite (on_refresh_click_decoded nts enc net s ok m E).
      eexists. reflexivity.
    - apply on_refresh_click_failure. rewrite E. reflexivity. }
Qed.

(** C2 as the specification states it fails at fetchEtfList: with the
    request rejected, the function logs to the console and raises no alert. *)
Lemma C2_fetchEtfList_no_alert :
  failure (etfs_reply offline (requests (env blank_page)) "/api/etfs") = Some NetworkError
  /\ effects (fetchEtfList offline) blank_page
     = [ Fetch "GET" "/api/etfs"; ConsoleError "Error fetching ETF list:" NetworkError ]
  /\ ~ (logs (effects (fetchEtfList offline) blank_page) = 1%nat
        /\ alerts (effects (fetchEtfList offline) blank_page) = 1%nat).
Proof.
  split; [reflexivity|]. split; [reflexivity|].
  intros [_ H]. vm_compute in H. discriminate.
Qed.

(** ** The refresh listener *)





(** ** The statistics type selector *)

Lemma inputs_loadStatsData nts enc net v :
  preserves (fun s => inputs s = v) (loadStatsData nts enc net).
Proof.
  unfold loadStatsData, showLoading, hideLoading, try_catch_finally, console_error, alert,
    fetch, check_ok, json, updateStatsTableHeaders, renderStatsTable, stats_row.
  repeat preserves_step fail.
Qed.

Lemma on_stats_type_change_run nts enc net value s :
  on_stats_type_change nts enc net value s =
  match currentView (js s) with
  | stats => loadStatsData nts enc net (type_picked value s)
  | etf => (Return tt, type_picked value s, [])
  end.
Proof.
  unfold on_stats_type_change, type_picked.
  unfold bind at 1. unfold modify at 1. cbv iota beta.
  unfold bind at 1. unfold get at 1. cbv iota beta zeta.
  change (statsTypeSelect_value (inputs (with_inputs (set_statsTypeSelect_value value) s)))
    with value.
  change (currentView (js (with_inputs (set_statsTypeSelect_value value) s)))
    with (currentView (js s)).
  destruct (value =? "duplicate"); destruct (currentView (js s));
    unfold bind, modify, ret; cbn [view_eqb];
    match goal with
    | |- context [loadStatsData ?a ?b ?c ?p] => destruct (loadStatsData a b c p) as [[r s2] t2]
    | _ => idtac
    end; reflexivity.
Qed.

Lemma loadStatsData_fetches nts enc net s :
  fetches (effects (loadStatsData nts enc net) s) = 1%nat.
Proof.
  destruct (loadStatsData_effects nts enc net s) as [re H]. cbv zeta in H. rewrite H.
  destruct (failure _); [reflexivity|]. destruct re; reflexivity.
Qed.

(** C9: after a change of the statistics type, the theme selector is
    enabled exactly when the type picked is "duplicate"; when it is disabled
    its value is the empty string (and when enabled its value is kept); the
    statistics are reloaded when the
    current view is the statistics view, and otherwise nothing is requested
    and nothing else changes. *)
Theorem C9_stats_type_change :
  forall (Number_toString : number -> string) (encodeURIComponent : string -> string)
         (net : network) (s : page) (value : string),
    let change := on_stats_type_change Number_toString encodeURIComponent net value in
    let s' := after change s in
    (themeSelect_disabled (inputs s') = false <-> value = "duplicate")
    /\ themeSelect_value (inputs s')
       = (if themeSelect_disabled (inputs s') then EmptyString
          else themeSelect_value (inputs s))
    /\ statsTypeSelect_value (inputs s') = value
    /\ match currentView (js s) with
       | stats =>
           change s = loadStatsData Number_toString encodeURIComponent net (type_picked value s)
           /\ fetches (effects change s) = 1%nat
       | etf => s' = type_picked value s /\ effects change s = []
       end.
Proof.
  intros nts enc net s value change s'.
  assert (I : inputs s' = inputs (type_picked value s)).
  { unfold s', change, after. rewrite on_stats_type_change_run.
    destruct (currentView (js s)); [reflexivity|].
    exact (inputs_loadStatsData nts enc net _ (type_picked value s) eq_refl). }
  assert (R : match currentView (js s) with
       | stats =>
           change s = loadStatsData nts enc net (type_picked value s)
           /\ fetches (effects change s) = 1%nat
       | etf => s' = type_picked value s /\ effects change s = []
       end).
  { unfold s', change, after, effects. rewrite on_stats_type_change_run.
    destruct (currentView (js s)); [split; reflexivity|]. split; [reflexivity|].
    apply loadStatsData_fetches. }
  refine (conj _ (conj _ (conj _ R))); rewrite I; unfold type_picked;
    destruct (String.eqb_spec value "duplicate") as [E|E].
  - split; [intros _; exact E | reflexivity].
  - split; [discriminate | intros E'; contradiction].
  - reflexivity.
  - reflexivity.
  - reflexivity.
  - reflexivity.
Qed.

(** ** The view toggle *)

(** C5, amended: toggling from the statistics view to the ETF view shows
    the welcome panel and hides the statistics panel, and it also takes the
    class [hidden] off the detail panel: the detail loaded before (name,
    ticker, dates, holdings rows) is still in the panel, unchanged, and is
    shown next to the welcome panel.  Nothing is requested or cleared. *)
Theorem C5_toggle_to_etf_view :
  forall (Number_toString : number -> string) (encodeURIComponent : string -> string)
         (net : network) (s : page),
    currentView (js s) = stats ->
    let toggle := on_view_toggle Number_toString encodeURIComponent net in
    let s' := after toggle s in
    currentView (js s') = etf
    /\ welcomeMessage_hidden (classes s') = false
    /\ statsView_hidden (classes s') = true
    /\ etfDetails_hidden (classes s') = false
    /\ chartContainer_hidden (classes s') = chartContainer_hidden (classes s)
    /\ currentEtfData (js s') = currentEtfData (js s)
    /\ holdingsData (js s') = holdingsData (js s)
    /\ holdingsTableBody (dom s') = holdingsTableBody (dom s)
    /\ etf_name_text (text s') = etf_name_text (text s)
    /\ etf_ticker_text (text s') = etf_ticker_text (text s)
    /\ etf_dates_text (text s') = etf_dates_text (text s)
    /\ effects toggle s
       = [ PanelHidden etfDetails false; PanelHidden statsView true;
           PanelHidden welcomeMessage false ].
Proof.
  intros nts enc net s V toggle s'.
  unfold s', toggle, after, effects, on_view_toggle.
  unfold bind at 1 2 3 4 5 6 7 8 9 10 11 12. unfold get. cbv iota beta zeta. rewrite V.
  destruct s as [j c t d i st e]. repeat split.
Qed.

(** The hypothesis of C5 on the example page. *)
Lemma C5_toggle_to_etf_view_witness :
  currentView (js visited_page) = stats
  /\ etfDetails_hidden
       (classes (after (on_view_toggle example_toString example_encode online) visited_page))
     = false.
Proof.
  assert (V : currentView (js visited_page) = stats) by (vm_compute; reflexivity).
  split; [exact V|].
  exact (proj1 (proj2 (proj2 (proj2
    (C5_toggle_to_etf_view example_toString example_encode online visited_page V))))).
Defined.

(** C5 as the specification states it fails on the example page: the ETF
    "KODEX 200" was loaded before the view went to the statistics, and the
    toggle back leaves the detail panel shown, with that ETF in it. *)
Lemma C5_previous_detail_shown :
  reachable example_toString ascii_toLowerCase example_encode online visited_page
  /\ currentView (js visited_page) = stats
  /\ currentEtfData (js visited_page) = Some kodex200
  /\ welcomeMessage_hidden (classes toggled_back) = false
  /\ etf_name_text (text toggled_back) = "KODEX 200"
  /\ List.length (holdingsTableBody (dom toggled_back)) = 1%nat
  /\ ~ etfDetails_hidden (classes toggled_back) = true.
Proof.
  split; [exact visited_page_reachable|].
  vm_compute. repeat split. discriminate.
Qed.

(** ** The chart instance *)

Lemma chart_invariant_length s :
  chart_invariant s -> (List.length (live_charts (env s)) <= 1)%nat.
Proof.
  unfold chart_invariant. destruct (live_charts (env s)) as [|k [|k' l]]; simpl; intros H.
  - lia.
  - lia.
  - contradiction.
Qed.

(** Destroying the chart the variable refers to leaves no live instance. *)
Lemma destroyed_none s :
  chart_invariant s -> live_charts (env (destroyed (weightChart (js s)) s)) = [].
Proof.
  unfold chart_invariant, destroyed.
  destruct s as [j c t d i st e]. destruct e as [live built n]. simpl.
  destruct live as [|k [|k' l]]; intros H.
  - destruct (weightChart j); reflexivity.
  - rewrite H. simpl. rewrite Nat.eqb_refl. reflexivity.
  - contradiction.
Qed.

Lemma details_loaded_charts nts d t s :
  live_charts (env (details_loaded nts d t s))
  = live_charts (env (destroyed (weightChart (js s)) s))
  /\ weightChart (js (details_loaded nts d t s)) = weightChart (js s)
  /\ chartContainer_hidden (classes (details_loaded nts d t s)) = true.
Proof.
  unfold details_loaded, after. rewrite renderHoldingsTable_run.
  destruct s as [j c tx dm i st e]. destruct j as [ae ced hd [w|] cv at0]; repeat split.
Qed.

Lemma loading_off_charts x :
  live_charts (env (loading_off x)) = live_charts (env x)
  /\ weightChart (js (loading_off x)) = weightChart (js x)
  /\ classes (loading_off x) = classes x.
Proof. repeat split. Qed.

Lemma entered_charts a s :
  weightChart (js (bump (loading_on a s))) = weightChart (js s)
  /\ live_charts (env (bump (loading_on a s))) = live_charts (env s)
  /\ charts_built (env (bump (loading_on a s))) = charts_built (env s).
Proof. repeat split. Qed.

Lemma destroyed_entered a w s :
  live_charts (env (destroyed w (bump (loading_on a s))))
  = live_charts (env (destroyed w s)).
Proof. destruct w; reflexivity. Qed.

Lemma chart_invariant_fetchEtfDetails nts net t :
  preserves chart_invariant (fetchEtfDetails nts net t).
Proof.
  intros s H. unfold after. rewrite fetchEtfDetails_run.
  destruct (comparison_reply _ _ _) as [|[|] [d|]]; try exact H.
  unfold chart_invariant. cbn [fst snd].
  rewrite (proj1 (loading_off_charts _)).
  destruct (details_loaded_charts nts d t (bump (loading_on "ETF 상세 정보를 불러오는 중입니다..." s)))
    as [E _]. rewrite E.
  rewrite (proj1 (entered_charts _ _)), destroyed_entered, (destroyed_none s H).
  exact I.
Qed.

Lemma chart_drawn_charts stockName history s :
  chart_invariant s ->
  exists k,
    live_charts (env (chart_drawn stockName history s)) = [ k ]
    /\ chart_id k = charts_built (env s)
    /\ weightChart (js (chart_drawn stockName history s)) = Some (chart_id k).
Proof.
  intros H. pose proof (destroyed_none s H) as D.
  unfold chart_drawn.
  destruct s as [j c tx dm i st e]. destruct j as [ae ced hd [w|] cv at0];
    simpl in *; rewrite D; eexists; repeat split.
Qed.

Lemma chart_invariant_renderWeightChart stockName history :
  preserves chart_invariant (renderWeightChart stockName history).
Proof.
  intros s H. unfold after. rewrite renderWeightChart_run. cbn [fst snd].
  destruct (chart_drawn_charts stockName history s H) as [k [E1 [_ E3]]].
  unfold chart_invariant. rewrite E1. exact E3.
Qed.

Lemma chart_invariant_loading_off s : chart_invariant s -> chart_invariant (loading_off s).
Proof. intros H. exact H. Qed.

Lemma chart_invariant_entered a s : chart_invariant s -> chart_invariant (bump (loading_on a s)).
Proof. intros H. exact H. Qed.

Lemma chart_invariant_fetchStockHistory net a b c :
  preserves chart_invariant (fetchStockHistory net a b c).
Proof.
  intros s H. unfold after. rewrite fetchStockHistory_run.
  destruct (history_reply _ _ _) as [|[|] [d|]]; try exact H.
  cbn [fst snd]. apply chart_invariant_loading_off.
  apply (chart_invariant_entered "종목 비중 추이를 불러오는 중입니다...") in H.
  apply (chart_invariant_renderWeightChart c (History.history d)) in H.
  unfold after in H. rewrite renderWeightChart_run in H. exact H.
Qed.

Lemma chart_invariant_showLoading t : preserves chart_invariant (showLoading t).
Proof. unfold showLoading. repeat preserves_step fail. Qed.

Lemma chart_invariant_hideLoading : preserves chart_invariant hideLoading.
Proof. unfold hideLoading. repeat preserves_step fail. Qed.

Lemma chart_invariant_fetch {B} net (answer : network -> nat -> string -> reply B) m u :
  preserves chart_invariant (fetch net answer m u).
Proof. unfold fetch. repeat preserves_step fail. Qed.

Lemma chart_invariant_renderEtfList etfs : preserves chart_invariant (renderEtfList etfs).
Proof. unfold renderEtfList. repeat preserves_step fail. Qed.

Lemma chart_invariant_renderHoldingsTable nts :
  preserves chart_invariant (renderHoldingsTable nts).
Proof. unfold renderHoldingsTable. repeat preserves_step fail. Qed.

Lemma chart_invariant_renderStatsTable nts rows type :
  preserves chart_invariant (renderStatsTable nts rows type).
Proof. unfold renderStatsTable, stats_row. repeat preserves_step fail. Qed.

Ltac chart_known :=
  first [ apply chart_invariant_fetchEtfDetails | apply chart_invariant_fetchStockHistory
        | apply chart_invariant_showLoading | apply chart_invariant_hideLoading
        | apply chart_invariant_fetch | apply chart_invariant_renderEtfList
        | apply chart_invariant_renderHoldingsTable
        | apply chart_invariant_renderStatsTable ].

Lemma chart_invariant_loadStatsData nts enc net :
  preserves chart_invariant (loadStatsData nts enc net).
Proof.
  unfold loadStatsData, try_catch_finally, console_error, alert, check_ok, json,
    updateStatsTableHeaders.
  repeat preserves_step chart_known.
Qed.

Lemma chart_invariant_fetchEtfList net : preserves chart_invariant (fetchEtfList net).
Proof.
  unfold fetchEtfList, console_error, check_ok, json, assign.
  repeat preserves_step chart_known.
Qed.

Lemma chart_invariant_loadThemes net : preserves chart_invariant (loadThemes net).
Proof.
  unfold loadThemes, console_error, check_ok, json, assign.
  repeat preserves_step chart_known.
Qed.

Lemma chart_invariant_initializeApp net : preserves chart_invariant (initializeApp net).
Proof.
  unfold initializeApp, try_catch_finally, console_error, alert, json.
  repeat preserves_step
    ltac:(first [ chart_known | apply chart_invariant_fetchEtfList
                | apply chart_invariant_loadThemes ]).
Qed.

Lemma chart_invariant_switchView nts enc net v :
  preserves chart_invariant (switchView nts enc net v).
Proof.
  unfold switchView, assign, classList_add_hidden, classList_remove_hidden.
  repeat preserves_step ltac:(first [ chart_known | apply chart_invariant_loadStatsData ]).
Qed.

Lemma chart_invariant_on_refresh_click nts enc net :
  preserves chart_invariant (on_refresh_click nts enc net).
Proof.
  unfold on_refresh_click, try_catch_finally, console_error, alert, json.
  repeat preserves_step ltac:(first [ chart_known | apply chart_invariant_loadStatsData ]).
Qed.

Ltac chart_known' :=
  first [ chart_known | apply chart_invariant_loadStatsData
        | apply chart_invariant_switchView | apply chart_invariant_on_refresh_click ].

Lemma chart_invariant_listener nts lower enc net e :
  preserves chart_invariant (listener nts lower enc net e).
Proof.
  destruct e; unfold listener.
  - unfold on_search_input. repeat preserves_step chart_known'.
  - unfold on_etf_click. repeat preserves_step chart_known'.
  - unfold on_holdings_count_change. repeat preserves_step chart_known'.
  - unfold on_holdings_click. repeat preserves_step chart_known'.
  - apply chart_invariant_on_refresh_click.
  - unfold on_export_click, alert. repeat preserves_step chart_known'.
  - unfold on_view_toggle. repeat preserves_step chart_known'.
  - unfold on_stats_type_change. repeat preserves_step chart_known'.
  - unfold on_theme_change. repeat preserves_step chart_known'.
Qed.

Lemma reachable_chart_invariant nts lower enc net s :
  reachable nts lower enc net s -> chart_invariant s.
Proof.
  induction 1 as [s L|s e R IH].
  - apply chart_invariant_initializeApp. destruct L as [_ [L _]].
    unfold chart_invariant. rewrite L. exact I.
  - apply chart_invariant_listener, IH.
Qed.

(** C3 as stated fails: on a page with a chart drawn, a click on the other
    ETF of the list whose request is rejected neither hides the chart panel
    nor destroys the chart.  The panel is shown and one instance is live
    before the click and after it, and fetchEtfDetails is the same. *)
Lemma C3_failed_click_keeps_chart :
  let click :=
    listener example_toString ascii_toLowerCase example_encode connection_lost (EtfClick 1) in
  let details := fetchEtfDetails example_toString connection_lost "102110" in
  reachable example_toString ascii_toLowerCase example_encode connection_lost last_chart_page
  /\ option_map li_ticker (nth_error (etfList (dom last_chart_page)) 1) = Some (Some "102110")
  /\ option_map li_active (nth_error (etfList (dom last_chart_page)) 1) = Some false
  /\ chartContainer_hidden (classes last_chart_page) = false
  /\ List.length (live_charts (env last_chart_page)) = 1%nat
  /\ chartContainer_hidden (classes (after click last_chart_page)) = false
  /\ live_charts (env (after click last_chart_page)) = live_charts (env last_chart_page)
  /\ ~ In (PanelHidden chartContainer true) (effects click last_chart_page)
  /\ (forall c, ~ In (ChartDestroy c) (effects click last_chart_page))
  /\ chartContainer_hidden (classes (after details last_chart_page)) = false
  /\ live_charts (env (after details last_chart_page)) = live_charts (env last_chart_page)
  /\ ~ In (PanelHidden chartContainer true) (effects details last_chart_page)
  /\ (forall c, ~ In (ChartDestroy c) (effects details last_chart_page)).
Proof.
  cbv zeta. split.
  { unfold last_chart_page. cbn [after_events].
    apply reach_event, reach_event, reach_start, blank_page_loaded. }
  do 6 (split; [vm_compute; reflexivity|]).
  split; [vm_compute; intros [F|[F|[F|[F|[F|[]]]]]]; discriminate|].
  split; [intros c; vm_compute; intros [F|[F|[F|[F|[F|[]]]]]]; discriminate|].
  do 2 (split; [vm_compute; reflexivity|]).
  split; [vm_compute; intros [F|[F|[F|[F|[F|[]]]]]]; discriminate|].
  intros c. vm_compute. intros [F|[F|[F|[F|[F|[]]]]]]; discriminate.
Qed.

(** C3, amended: between two events at most one Chart instance is live, and
    it is the one the variable refers to.  When fetchEtfDetails gets its
    record, it hides the chart panel and destroys the instance the variable
    refers to before it renders the holdings table, and leaves no live
    instance; when its request fails it renders no table and leaves the
    chart panel and the live instance as they are.  renderWeightChart
    destroys the instance the variable refers to, so that none is live, and
    only then constructs the new one, which is the only live instance
    afterwards. *)
Theorem C3_single_chart_instance :
  forall (Number_toString : number -> string)
         (toLowerCase encodeURIComponent : string -> string) (net : network) (s : page),
    reachable Number_toString toLowerCase encodeURIComponent net s ->
    (List.length (live_charts (env s)) <= 1)%nat
    /\ (forall t,
          let details := fetchEtfDetails Number_toString net t in
          match comparison_reply net (requests (env s)) (comparison_url t) with
          | Responded true (Some d) =>
              effects details s
              = ([ Overlay true; Fetch "GET" (comparison_url t);
                   PanelHidden welcomeMessage true; PanelHidden etfDetails false;
                   PanelHidden chartContainer true ]
                 ++ destroy_effects (weightChart (js s))
                 ++ [ Cleared holdings_table; Overlay false ])%list
              /\ chartContainer_hidden (classes (after details s)) = true
              /\ live_charts (env (after details s)) = []
          | _ =>
              ~ In (Cleared holdings_table) (effects details s)
              /\ live_charts (env (after details s)) = live_charts (env s)
              /\ chartContainer_hidden (classes (after details s))
                 = chartContainer_hidden (classes s)
          end)
    /\ (forall stockName history,
          let draw := renderWeightChart stockName history in
          effects draw s
          = ([ PanelHidden chartContainer false ]
             ++ destroy_effects (weightChart (js s))
             ++ [ ChartNew (charts_built (env s)) ])%list
          /\ live_charts (env (destroyed (weightChart (js s)) s)) = []
          /\ exists k, live_charts (env (after draw s)) = [ k ]
                       /\ chart_id k = charts_built (env s)
                       /\ weightChart (js (after draw s)) = Some (chart_id k)).
Proof.
  intros nts lower enc net s R.
  pose proof (reachable_chart_invariant _ _ _ _ _ R) as H.
  split; [apply chart_invariant_length, H|]. split.
  - intros t details. unfold details, effects, after. rewrite fetchEtfDetails_run.
    destruct (comparison_reply _ _ _) as [|[|] [d|]]; cbn [fst snd].
    + split; [|split; reflexivity]. intros [F|[F|[F|[F|[F|[]]]]]]; discriminate.
    + split; [reflexivity|].
      destruct (details_loaded_charts nts d t
                  (bump (loading_on "ETF 상세 정보를 불러오는 중입니다..." s))) as [E1 [_ E3]].
      split.
      * rewrite (proj2 (proj2 (loading_off_charts _))). exact E3.
      * rewrite (proj1 (loading_off_charts _)), E1.
        rewrite (proj1 (entered_charts _ _)), destroyed_entered.
        apply (destroyed_none s H).
    + split; [|split; reflexivity]. intros [F|[F|[F|[F|[F|[]]]]]]; discriminate.
    + split; [|split; reflexivity]. intros [F|[F|[F|[F|[F|[]]]]]]; discriminate.
    + split; [|split; reflexivity]. intros [F|[F|[F|[F|[F|[]]]]]]; discriminate.
  - intros stockName history draw. unfold draw, effects, after.
    rewrite renderWeightChart_run. cbn [fst snd].
    split; [reflexivity|]. split; [apply destroyed_none, H|].
    apply chart_drawn_charts, H.
Qed.

(** The hypothesis of C3 on the example page with a chart drawn: one
    instance is live, and selecting the ETF again destroys it. *)
Lemma C3_single_chart_instance_witness :
  reachable example_toString ascii_toLowerCase example_encode online charted_page
  /\ List.length (live_charts (env charted_page)) = 1%nat
  /\ (List.length (live_charts (env charted_page)) <= 1)%nat
  /\ live_charts (env (after (fetchEtfDetails example_toString online "069500") charted_page))
     = [].
Proof.
  split; [exact charted_page_reachable|].
  split; [vm_compute; reflexivity|].
  pose proof (C3_single_chart_instance example_toString ascii_toLowerCase example_encode
                online charted_page charted_page_reachable) as [H1 [H2 _]].
  split; [exact H1|].
  specialize (H2 "069500"). cbv zeta in H2.
  change (comparison_reply online (requests (env charted_page)) (comparison_url "069500"))
    with (Responded true (Some kodex200)) in H2.
  exact (proj2 (proj2 H2)).
Defined.

Local Open Scope Z_scope.

(** ** Binary64 arithmetic on integers *)

Lemma digits2_pos_size p : digits2_pos p = Pos.size p.
Proof. induction p; simpl; congruence. Qed.

Lemma Zdigits2_bounds z :
  0 < z -> 2 ^ (Zdigits2 z - 1) <= z < 2 ^ Zdigits2 z.
Proof.
  intros H. destruct z as [|p|p]; try lia. simpl Zdigits2. rewrite digits2_pos_size.
  pose proof (Pos.size_gt p) as Hgt. pose proof (Pos.size_le p) as Hle.
  apply Pos2Z.pos_lt_pos in Hgt. apply Pos2Z.pos_le_pos in Hle.
  rewrite Pos2Z.inj_pow in Hgt, Hle.
  change (Z.pos 2) with 2 in Hgt.
  change (Z.pos 2 ^ Z.pos (Pos.size p)) with (2 ^ Z.pos (Pos.size p)) in Hle.
  rewrite (Pos2Z.inj_xO p) in Hle.
  assert (E : 2 ^ Z.pos (Pos.size p) = 2 * 2 ^ (Z.pos (Pos.size p) - 1)).
  { rewrite <- Z.pow_succ_r by lia. f_equal. lia. }
  lia.
Qed.

Lemma Zdigits2_unique z k :
  2 ^ (k - 1) <= z < 2 ^ k -> 0 < k -> Zdigits2 z = k.
Proof.
  intros [Hlo Hhi] Hk.
  assert (Hz : 0 < z) by (pose proof (Z.pow_pos_nonneg 2 (k - 1)); lia).
  pose proof (Zdigits2_bounds z Hz) as [Blo Bhi].
  assert (Hd : 0 < Zdigits2 z) by (destruct z; simpl; lia).
  destruct (Z.lt_trichotomy (Zdigits2 z) k) as [L|[E|G]]; [|exact E|].
  - assert (2 ^ Zdigits2 z <= 2 ^ (k - 1)) by (apply Z.pow_le_mono_r; lia). lia.
  - assert (2 ^ k <= 2 ^ (Zdigits2 z - 1)) by (apply Z.pow_le_mono_r; lia). lia.
Qed.

Lemma iter_xO_pow p k : Zpos (Pos.iter xO p k) = Zpos p * 2 ^ Zpos k.
Proof.
  induction k using Pos.peano_ind.
  - simpl. lia.
  - rewrite Pos.iter_succ, Pos2Z.inj_xO, IHk, Pos2Z.inj_succ, Z.pow_succ_r by lia. ring.
Qed.

Lemma pow2_52 : 2 ^ 52 = 4503599627370496. Proof. reflexivity. Qed.
Lemma pow2_53 : 2 ^ 53 = 9007199254740992. Proof. reflexivity. Qed.
Lemma pow2_54 : 2 ^ 54 = 18014398509481984. Proof. reflexivity. Qed.

(** Where the remainder r of a division by the even number B lies with
    respect to one half. *)
Lemma new_location_even_spec B r :
  Z.even B = true -> 0 < B -> 0 <= r < B ->
  match new_location B r with
  | loc_Exact => r = 0
  | loc_Inexact Lt => 0 < 2 * r < B
  | loc_Inexact Eq => 2 * r = B
  | loc_Inexact Gt => B < 2 * r
  end.
Proof.
  intros Ev HB Hr. unfold new_location. rewrite Ev. unfold new_location_even.
  destruct (Z.eqb_spec r 0) as [E|N]; [exact E|].
  destruct (Z.compare_spec (2 * r) B); lia.
Qed.

(** Rounding the quotient q, remainder r, to the nearest integer, ties to
    even. *)
Lemma round_nearest_even_div q B r :
  Z.even B = true -> 0 < B -> 0 <= r < B ->
  let q' := round_nearest_even q (new_location B r) in
  (q' = q \/ q' = q + 1) /\ 2 * Z.abs (q' * B - (q * B + r)) <= B.
Proof.
  intros Ev HB Hr q'. subst q'.
  pose proof (new_location_even_spec B r Ev HB Hr) as L.
  destruct (new_location B r) as [|[| |]]; cbn [round_nearest_even].
  - split; [left; reflexivity | lia].
  - destruct (Z.even q); split; auto; lia.
  - split; [left; reflexivity | lia].
  - split; [right; reflexivity | lia].
Qed.

Lemma shr_1_spec q r s :
  0 <= q ->
  shr_1 (Build_shr_record q r s) = Build_shr_record (q / 2) (Z.odd q) (r || s).
Proof.
  intros H. destruct q as [|[p|p|]|p]; try lia; unfold shr_1.
  - reflexivity.
  - f_equal. rewrite Pos2Z.inj_xI. apply Z.div_unique with 1; lia.
  - f_equal. rewrite Pos2Z.inj_xO. apply Z.div_unique with 0; lia.
  - reflexivity.
Qed.

(** Rounding after one shift: the quotient counted in units of two. *)
Lemma round_nearest_even_shifted q B r :
  Z.even B = true -> 0 < B -> 0 <= r < B -> 0 <= q ->
  let mrs := shr_1 (shr_record_of_loc q (new_location B r)) in
  let h' := round_nearest_even (shr_m mrs) (loc_of_shr_record mrs) in
  (h' = q / 2 \/ h' = q / 2 + 1) /\ 2 * Z.abs (h' * 2 * B - (q * B + r)) <= 2 * B.
Proof.
  intros Ev HB Hr Hq mrs h'. subst h' mrs.
  pose proof (new_location_even_spec B r Ev HB Hr) as L.
  pose proof (Z.div_mod q 2 ltac:(lia)) as D.
  pose proof (Zmod_odd q) as O.
  destruct (new_location B r) as [|[| |]]; unfold shr_record_of_loc;
    rewrite shr_1_spec by assumption; destruct (Z.odd q);
    cbn [orb shr_m loc_of_shr_record round_nearest_even];
    try (destruct (Z.even (q / 2))); split; auto; lia.
Qed.

Lemma shr_record_of_loc_m m l : shr_m (shr_record_of_loc m l) = m.
Proof. destruct l as [|[| |]]; reflexivity. Qed.

Lemma loc_of_shr_record_of_loc m l : loc_of_shr_record (shr_record_of_loc m l) = l.
Proof. destruct l as [|[| |]]; reflexivity. Qed.

(** A significand of 53 bits is kept, one of 54 bits is shifted once. *)
Lemma shr_fexp_normal m e l :
  2 ^ 52 <= m < 2 ^ 53 -> -1074 <= e ->
  shr_fexp prec emax m e l = (shr_record_of_loc m l, e).
Proof.
  intros Hm He. unfold shr_fexp.
  rewrite (Zdigits2_unique m 53) by (change (53 - 1) with 52; lia).
  replace (fexp prec emax (53 + e) - e) with 0
    by (unfold fexp, emin, prec, emax; lia).
  reflexivity.
Qed.

Lemma shr_fexp_carry m e l :
  2 ^ 53 <= m < 2 ^ 54 -> -1074 <= e ->
  shr_fexp prec emax m e l = (shr_1 (shr_record_of_loc m l), e + 1).
Proof.
  intros Hm He. unfold shr_fexp.
  rewrite (Zdigits2_unique m 54) by (change (54 - 1) with 53; lia).
  replace (fexp prec emax (54 + e) - e) with 1
    by (unfold fexp, emin, prec, emax; lia).
  reflexivity.
Qed.

(** The last step of [binary_round_aux]: a rounded significand between 2^52
    and 2^53 gives a finite number of the same value. *)
Lemma renormalize s h e :
  2 ^ 52 <= h <= 2 ^ 53 -> -1074 <= e <= 960 ->
  exists M E,
    (let '(mrs, e') := shr_fexp prec emax h e loc_Exact in
     match shr_m mrs with
     | Z0 => S754_zero s
     | Zpos m => if e' <=? emax - prec then S754_finite s m e' else S754_infinity s
     | Zneg _ => S754_nan
     end) = S754_finite s M E
    /\ 2 ^ 52 <= Zpos M < 2 ^ 53
    /\ (E = e /\ Zpos M = h \/ E = e + 1 /\ 2 * Zpos M = h).
Proof.
  intros Hh He. rewrite pow2_52, pow2_53 in *.
  destruct (Z_lt_le_dec h (2 ^ 53)) as [L|G]; rewrite pow2_53 in *.
  - rewrite shr_fexp_normal by (rewrite ?pow2_52, ?pow2_53; lia).
    cbn [shr_record_of_loc shr_m]. destruct h as [|m|m]; try lia.
    exists m, e. replace (e <=? emax - prec) with true
      by (symmetry; apply Z.leb_le; unfold emax, prec; lia).
    split; [reflexivity|]. split; [lia|]. left. split; reflexivity.
  - assert (h = 9007199254740992) by lia. subst h.
    rewrite shr_fexp_carry by (rewrite ?pow2_53, ?pow2_54; lia).
    exists 4503599627370496%positive, (e + 1).
    cbn [shr_record_of_loc shr_1 shr_m].
    replace (e + 1 <=? emax - prec) with true
      by (symmetry; apply Z.leb_le; unfold emax, prec; lia).
    split; [reflexivity|]. split; [lia|]. right. split; reflexivity.
Qed.

(** Rounding the quotient q with remainder r of a division by B to a
    binary64 number: the result M * 2^E is within half a unit in the last
    place of (q + r / B) * 2^e. *)
Lemma binary_round_aux_quotient s q e B r :
  2 ^ 52 <= q < 2 ^ 54 -> -1074 <= e <= 950 ->
  Z.even B = true -> 0 < B -> 0 <= r < B ->
  exists M E u,
    binary_round_aux prec emax s q e (new_location B r) = S754_finite s M E
    /\ 2 ^ 52 <= Zpos M < 2 ^ 53
    /\ (u = 1 /\ E = e \/ u = 2 /\ E = e + 1 \/ u = 4 /\ E = e + 2)
    /\ 2 * Z.abs (Zpos M * u * B - (q * B + r)) <= u * B.
Proof.
  intros Hq He Ev HB Hr. unfold binary_round_aux.
  rewrite pow2_52, pow2_54 in Hq.
  destruct (Z_lt_le_dec q (2 ^ 53)) as [L|G]; rewrite pow2_53 in *.
  - rewrite shr_fexp_normal by (rewrite ?pow2_52, ?pow2_53; lia).
    rewrite shr_record_of_loc_m, loc_of_shr_record_of_loc.
    destruct (round_nearest_even_div q B r Ev HB Hr) as [Hc Hb].
    set (q' := round_nearest_even q (new_location B r)) in *.
    destruct (renormalize s q' e) as [M [E [R [HM HE]]]];
      [rewrite pow2_52, pow2_53; lia | lia |].
    rewrite R. exists M, E.
    destruct HE as [[-> HE]|[-> HE]].
    + exists 1. split; [reflexivity|]. split; [exact HM|]. split; [auto|].
      rewrite HE. lia.
    + exists 2. split; [reflexivity|]. split; [exact HM|]. split; [auto|].
      replace (Zpos M * 2 * B) with (q' * B) by lia. lia.
  - rewrite shr_fexp_carry by (rewrite ?pow2_53, ?pow2_54; lia).
    destruct (round_nearest_even_shifted q B r Ev HB Hr ltac:(lia)) as [Hc Hb].
    set (mrs := shr_1 (shr_record_of_loc q (new_location B r))) in *.
    set (h' := round_nearest_even (shr_m mrs) (loc_of_shr_record mrs)) in *.
    pose proof (Z.div_mod q 2 ltac:(lia)) as D.
    pose proof (Z.mod_pos_bound q 2 ltac:(lia)) as Dm.
    destruct (renormalize s h' (e + 1)) as [M [E [R [HM HE]]]];
      [rewrite pow2_52, pow2_53; lia | lia |].
    rewrite R. exists M, E.
    destruct HE as [[-> HE]|[-> HE]].
    + exists 2. split; [reflexivity|]. split; [exact HM|]. split; [auto|].
      rewrite HE. lia.
    + exists 4. split; [reflexivity|]. split; [exact HM|].
      split; [right; right; split; [reflexivity | lia]|].
      replace (Zpos M * 4 * B) with (h' * 2 * B) by lia. lia.
Qed.

Lemma binary_round_aux_exact s m e :
  2 ^ 52 <= Zpos m < 2 ^ 53 -> -1074 <= e <= 960 ->
  binary_round_aux prec emax s (Zpos m) e loc_Exact = S754_finite s m e.
Proof.
  intros Hm He. unfold binary_round_aux.
  rewrite shr_fexp_normal by lia.
  cbn [shr_record_of_loc shr_m loc_of_shr_record round_nearest_even].
  rewrite shr_fexp_normal by lia. cbn [shr_record_of_loc shr_m].
  replace (e <=? emax - prec) with true
    by (symmetry; apply Z.leb_le; unfold emax, prec; lia).
  reflexivity.
Qed.

(** The binary64 number of a non-zero integer below 2^53 in absolute value
    is the integer itself, with a significand of 53 bits. *)
Lemma binary_round_integer s p :
  Zpos p < 2 ^ 53 ->
  exists m e,
    binary_round prec emax s p 0 = S754_finite s m e
    /\ 2 ^ 52 <= Zpos m < 2 ^ 53
    /\ -52 <= e <= 0
    /\ Zpos m = Zpos p * 2 ^ (- e)
    /\ e = Zdigits2 (Zpos p) - 53.
Proof.
  intros Hp. unfold binary_round.
  pose proof (Zdigits2_bounds (Zpos p) ltac:(lia)) as [Blo Bhi].
  set (d := Zdigits2 (Zpos p)) in *.
  assert (Hd : 1 <= d <= 53).
  { split; [unfold d; simpl; lia|].
    destruct (Z_le_gt_dec d 53) as [L|G]; [exact L|].
    assert (2 ^ 53 <= 2 ^ (d - 1)) by (apply Z.pow_le_mono_r; lia). lia. }
  change (Z.pos (digits2_pos p)) with d.
  replace (fexp prec emax (d + 0)) with (d - 53)
    by (unfold fexp, emin, prec, emax; lia).
  unfold shl_align.
  destruct (Z.eq_dec d 53) as [E|N].
  - replace (d - 53 - 0) with 0 by lia.
    cbv iota. rewrite E in Blo. change (53 - 1) with 52 in Blo.
    rewrite binary_round_aux_exact by lia.
    exists p, 0. repeat split; try lia.
  - set (k := Z.to_pos (53 - d)).
    assert (Hk : Zpos k = 53 - d) by (unfold k; rewrite Z2Pos.id; lia).
    replace (d - 53 - 0) with (Zneg k) by lia.
    assert (Hm : Zpos (Pos.iter xO p k) = Zpos p * 2 ^ (53 - d))
      by (rewrite iter_xO_pow, Hk; reflexivity).
    assert (Hpow : 2 ^ 52 = 2 ^ (d - 1) * 2 ^ (53 - d)).
    { rewrite <- Z.pow_add_r by lia. f_equal. lia. }
    assert (Hpow' : 2 ^ 53 = 2 ^ d * 2 ^ (53 - d)).
    { rewrite <- Z.pow_add_r by lia. f_equal. lia. }
    assert (Hpos : 0 < 2 ^ (53 - d)) by (apply Z.pow_pos_nonneg; lia).
    assert (Hb : 2 ^ 52 <= Zpos (Pos.iter xO p k) < 2 ^ 53).
    { rewrite Hm, Hpow, Hpow'. split.
      - apply Z.mul_le_mono_nonneg_r; lia.
      - apply Z.mul_lt_mono_pos_r; lia. }
    rewrite binary_round_aux_exact by lia.
    exists (Pos.iter xO p k), (d - 53). repeat split; try lia.
    rewrite Hm. f_equal. f_equal. lia.
Qed.

(** Division of two binary64 numbers with significands of 53 bits, the
    divisor's being even: the quotient M * 2^E is within half a unit in the
    last place of the exact quotient. *)
Lemma div_finite s1 m1 e1 s2 m2 e2 :
  2 ^ 52 <= Zpos m1 < 2 ^ 53 -> 2 ^ 52 <= Zpos m2 < 2 ^ 53 ->
  Z.even (Zpos m2) = true ->
  -100 <= e1 <= 100 -> -100 <= e2 <= 100 ->
  exists M E u,
    div (S754_finite s1 m1 e1) (S754_finite s2 m2 e2) = S754_finite (xorb s1 s2) M E
    /\ 2 ^ 52 <= Zpos M < 2 ^ 53
    /\ (u = 1 /\ E = e1 - e2 - 53 \/ u = 2 /\ E = e1 - e2 - 52
        \/ u = 4 /\ E = e1 - e2 - 51)
    /\ 2 * Z.abs (Zpos M * u * Zpos m2 - Zpos m1 * 2 ^ 53) <= u * Zpos m2.
Proof.
  intros H1 H2 Ev He1 He2. unfold div, SFdiv, SFdiv_core_binary.
  rewrite (Zdigits2_unique (Zpos m1) 53), (Zdigits2_unique (Zpos m2) 53)
    by (change (53 - 1) with 52; lia).
  replace (Z.min (fexp prec emax (53 + e1 - (53 + e2))) (e1 - e2)) with (e1 - e2 - 53)
    by (unfold fexp, emin, prec, emax; lia).
  replace (e1 - e2 - (e1 - e2 - 53)) with 53 by lia.
  cbv iota. rewrite Z.shiftl_mul_pow2 by lia.
  pose proof (Z_div_mod (Zpos m1 * 2 ^ 53) (Zpos m2) ltac:(lia)) as DM.
  destruct (Z.div_eucl (Zpos m1 * 2 ^ 53) (Zpos m2)) as [q r].
  destruct DM as [DM Hr].
  rewrite pow2_52, pow2_53 in *.
  assert (Hq : 2 ^ 52 <= q < 2 ^ 54).
  { rewrite pow2_52, pow2_54. split.
    - destruct (Z_le_gt_dec 4503599627370496 q) as [L|G]; [exact L|].
      assert (Zpos m2 * q <= Zpos m2 * 4503599627370495)
        by (apply Z.mul_le_mono_nonneg_l; lia).
      nia.
    - destruct (Z_lt_le_dec q 18014398509481984) as [L|G]; [exact L|].
      assert (Zpos m2 * 18014398509481984 <= Zpos m2 * q)
        by (apply Z.mul_le_mono_nonneg_l; lia).
      nia. }
  destruct (binary_round_aux_quotient (xorb s1 s2) q (e1 - e2 - 53) (Zpos m2) r
              Hq ltac:(lia) Ev ltac:(lia) Hr) as [M [E [u [R [HM [HE Hb]]]]]].
  exists M, E, u. rewrite R. split; [reflexivity|].
  rewrite pow2_52, pow2_53 in HM. split; [exact HM|]. split; [lia|].
  replace (Zpos m1 * 9007199254740992) with (q * Zpos m2 + r) by lia. exact Hb.
Qed.

Lemma of_Z_1e8 : of_Z 100000000 = S754_finite false 6710886400000000 (-26).
Proof. reflexivity. Qed.

Lemma of_Z_1e7 : of_Z 10000000 = S754_finite false 5368709120000000 (-29).
Proof. reflexivity. Qed.

Lemma of_Z_1 : of_Z 1 = S754_finite false 4503599627370496 (-52).
Proof. reflexivity. Qed.

(** The quotient of a non-zero integer a below 2^53 by D = 10^8 or 10^7:
    a finite number M * 2^E, E negative, with |M * 2^E - a / D| at most half
    a unit in the last place. *)
Lemma div_integer s p D k :
  Zpos p < 2 ^ 53 ->
  (D = 100000000 /\ k = 26 \/ D = 10000000 /\ k = 29) ->
  exists M E,
    div (binary_round prec emax s p 0) (S754_finite false (Z.to_pos (D * 2 ^ k)) (- k))
    = S754_finite s M E
    /\ 2 ^ 52 <= Zpos M < 2 ^ 53
    /\ E < 0
    /\ 2 * Z.abs (Zpos M * D - Zpos p * 2 ^ (- E)) <= D.
Proof.
  intros Hp HD.
  destruct (binary_round_integer s p Hp) as [m1 [e1 [R1 [Hm1 [He1 [Em1 _]]]]]].
  rewrite R1.
  assert (Hm2 : 2 ^ 52 <= Zpos (Z.to_pos (D * 2 ^ k)) < 2 ^ 53
                /\ Z.even (Zpos (Z.to_pos (D * 2 ^ k))) = true
                /\ Zpos (Z.to_pos (D * 2 ^ k)) = D * 2 ^ k).
  { destruct HD as [[-> ->]|[-> ->]]; repeat split; vm_compute; congruence. }
  destruct Hm2 as [Hm2 [Ev Em2]].
  destruct (div_finite s m1 e1 false (Z.to_pos (D * 2 ^ k)) (- k) Hm1 Hm2 Ev
              ltac:(lia) ltac:(destruct HD as [[_ ->]|[_ ->]]; lia))
    as [M [E [u [R [HM [HE Hb]]]]]].
  rewrite xorb_false_r in R. exists M, E. split; [exact R|]. split; [exact HM|].
  assert (Hk : 0 <= k <= 29) by (destruct HD as [[_ ->]|[_ ->]]; lia).
  split; [lia|].
  rewrite Em2, Em1 in Hb.
  assert (HDpos : 0 < D) by (destruct HD as [[-> _]|[-> _]]; lia).
  assert (P2 : 0 < 2 ^ k) by (apply Z.pow_pos_nonneg; lia).
  assert (Hsplit : forall j, 0 <= j -> - E = 53 - e1 - k - j ->
            2 ^ (- e1) * 2 ^ 53 = 2 ^ (- E) * (2 ^ j * 2 ^ k)).
  { intros j Hj HEj. rewrite <- !Z.pow_add_r by lia. f_equal. lia. }
  assert (Hcancel : forall c, 0 < c ->
            2 * Z.abs (Zpos M * c * (D * 2 ^ k) - Zpos p * (2 ^ (- E) * (c * 2 ^ k)))
            <= c * (D * 2 ^ k) ->
            2 * Z.abs (Zpos M * D - Zpos p * 2 ^ (- E)) <= D).
  { intros c Hc Hin.
    replace (Zpos M * c * (D * 2 ^ k) - Zpos p * (2 ^ (- E) * (c * 2 ^ k)))
      with ((c * 2 ^ k) * (Zpos M * D - Zpos p * 2 ^ (- E))) in Hin by ring.
    rewrite Z.abs_mul, (Z.abs_eq (c * 2 ^ k)) in Hin by nia.
    replace (c * (D * 2 ^ k)) with ((c * 2 ^ k) * D) in Hin by ring.
    rewrite Z.mul_assoc, (Z.mul_comm 2 (c * 2 ^ k)), <- Z.mul_assoc in Hin.
    apply Z.mul_le_mono_pos_l in Hin; [exact Hin | nia]. }
  replace (Zpos p * 2 ^ (- e1) * 2 ^ 53) with (Zpos p * (2 ^ (- e1) * 2 ^ 53)) in Hb by ring.
  destruct HE as [[-> HE]|[[-> HE]|[-> HE]]].
  - rewrite (Hsplit 0) in Hb by lia. apply (Hcancel 1); [lia|]. exact Hb.
  - rewrite (Hsplit 1) in Hb by lia. apply (Hcancel 2); [lia|]. exact Hb.
  - rewrite (Hsplit 2) in Hb by lia. apply (Hcancel 4); [lia|]. exact Hb.
Qed.

(** The least significant bit of the quotient weighs less than the divisor's
    half: 2^(-E) exceeds D / 2. *)
Lemma ulp_small D M E a :
  (D = 100000000 \/ D = 10000000) ->
  2 ^ 52 <= M < 2 ^ 53 -> E < 0 -> 0 < a < 2 ^ 53 ->
  2 * Z.abs (M * D - a * 2 ^ (- E)) <= D ->
  D < 2 * 2 ^ (- E) /\ 2 <= 2 ^ (- E) /\ Z.even (2 ^ (- E)) = true.
Proof.
  intros HD HM HE Ha Hb. rewrite pow2_52, pow2_53 in *.
  assert (Hev : Z.even (2 ^ (- E)) = true).
  { replace (- E) with (Z.succ (- E - 1)) by lia. rewrite Z.pow_succ_r by lia.
    apply Z.even_mul. }
  assert (H2 : 2 <= 2 ^ (- E)).
  { change 2 with (2 ^ 1) at 1. apply Z.pow_le_mono_r; lia. }
  split; [|split; assumption].
  destruct (Z_lt_le_dec D (2 * 2 ^ (- E))) as [L|G]; [exact L|exfalso].
  assert (HW : 2 ^ (- E) <= 2 ^ 22 \/ D = 100000000 /\ 2 ^ (- E) <= 2 ^ 25).
  { destruct (Z_le_gt_dec (- E) 22) as [L|G'].
    - left. apply Z.pow_le_mono_r; lia.
    - assert (2 ^ 23 <= 2 ^ (- E)) by (apply Z.pow_le_mono_r; lia).
      change (2 ^ 23) with 8388608 in *.
      destruct HD as [-> | ->]; [|lia]. right. split; [reflexivity|].
      destruct (Z_le_gt_dec (- E) 25) as [L|G''].
      + apply Z.pow_le_mono_r; lia.
      + assert (2 ^ 26 <= 2 ^ (- E)) by (apply Z.pow_le_mono_r; lia).
        change (2 ^ 26) with 67108864 in *. lia. }
  change (2 ^ 25) with 33554432 in HW. change (2 ^ 22) with 4194304 in HW.
  set (W := 2 ^ (- E)) in *.
  assert (a * W <= 9007199254740992 * W) by (apply Z.mul_le_mono_nonneg_r; lia).
  destruct HW as [HW|[-> HW]]; [destruct HD as [-> | ->]|]; lia.
Qed.

(** ** Rounding to a number of decimals *)

Lemma nearest_half_up a d n :
  0 < d -> nearest a d n -> 2 * (a mod d) <> d -> n = half_up a d.
Proof.
  intros Hd Hn Hne. unfold nearest, half_up in *.
  pose proof (Z.div_mod a d ltac:(lia)) as DM.
  pose proof (Z.mod_pos_bound a d Hd) as Hm.
  apply Z.div_unique with (2 * a + d - 2 * d * n); [|ring].
  left. split.
  - lia.
  - assert (2 * (n * d - a) <> - d).
    { intros E. apply Hne.
      assert (R : a mod d = a - n * d)
        by (symmetry; apply Z.mod_unique with n; lia).
      lia. }
    lia.
Qed.

(** toFixed(1) of a quotient by 10^8 within half a unit in the last place:
    the digits are those of an integer nearest to a / 10^7. *)
Lemma tenths_nearest M W a :
  0 < W -> 100000000 < 2 * W ->
  2 * Z.abs (M * 100000000 - a * W) <= 100000000 ->
  nearest a 10000000 ((2 * (M * 10) + W) / (2 * W)).
Proof.
  intros HW HD Hb. unfold nearest.
  set (n := (2 * (M * 10) + W) / (2 * W)).
  pose proof (Z.div_mod (2 * (M * 10) + W) (2 * W) ltac:(lia)) as DM.
  pose proof (Z.mod_pos_bound (2 * (M * 10) + W) (2 * W) ltac:(lia)) as Hm.
  fold n in DM.
  set (X := 2 * (n * 10000000 - a)).
  assert (Hup : X <= 10000000).
  { destruct (Z_le_gt_dec X 10000000) as [L|G]; [exact L|exfalso].
    assert (2 * W <= W * (X - 10000000)) by nia.
    unfold X in *. nia. }
  assert (Hlo : - 10000000 <= X).
  { destruct (Z_le_gt_dec (- 10000000) X) as [L|G]; [exact L|exfalso].
    assert (2 * W <= W * (- 10000000 - X)) by nia.
    unfold X in *. nia. }
  unfold X in *. lia.
Qed.

(** toFixed(0) of a quotient by 10^7 within half a unit in the last place:
    the digits are those of a / 10^7 rounded half up. *)
Lemma units_half_up M W a :
  0 < W -> Z.even W = true -> 10000000 < 2 * W -> 0 <= a ->
  2 * Z.abs (M * 10000000 - a * W) <= 10000000 ->
  (2 * (M * 1) + W) / (2 * W) = half_up a 10000000.
Proof.
  intros HW Ev HD Ha Hb. unfold half_up.
  set (h := (2 * a + 10000000) / (2 * 10000000)).
  pose proof (Z.div_mod (2 * a + 10000000) (2 * 10000000) ltac:(lia)) as DM.
  pose proof (Z.mod_pos_bound (2 * a + 10000000) (2 * 10000000) ltac:(lia)) as Hm.
  fold h in DM.
  apply Z.even_spec in Ev. destruct Ev as [w Ew].
  assert (Hlo : (2 * h - 1) * 5000000 <= a) by lia.
  assert (Hhi : a <= (2 * h + 1) * 5000000 - 1) by lia.
  assert (Hlo' : (2 * h - 1) * 5000000 * W <= a * W)
    by (apply Z.mul_le_mono_nonneg_r; lia).
  assert (Hhi' : a * W <= ((2 * h + 1) * 5000000 - 1) * W)
    by (apply Z.mul_le_mono_nonneg_r; lia).
  symmetry. apply Z.div_unique with (2 * (M * 1) + W - 2 * W * h); [|ring].
  left. split.
  - assert (10000000 * ((2 * h - 1) * W) <= 10000000 * (2 * M) + 10000000) by lia.
    assert ((2 * h - 1) * W <= 2 * M + 1) by lia.
    assert ((2 * h - 1) * W = 2 * ((2 * h - 1) * w)) by (rewrite Ew; ring).
    lia.
  - assert (10000000 * (2 * M) < 10000000 * ((2 * h + 1) * W)) by lia.
    lia.
Qed.

(** ** The amount formatter *)

Lemma ge_one_spec M E a :
  2 ^ 52 <= Zpos M < 2 ^ 53 -> E < 0 -> 0 < a < 2 ^ 53 ->
  2 * Z.abs (Zpos M * 100000000 - a * 2 ^ (- E)) <= 100000000 ->
  ge (S754_finite false M E) (of_Z 1) = (100000000 <=? a).
Proof.
  intros HM HE Ha Hb.
  destruct (ulp_small 100000000 (Zpos M) E a ltac:(auto) HM HE Ha Hb) as [HD [HW2 _]].
  rewrite pow2_52, pow2_53 in *.
  set (W := 2 ^ (- E)) in *.
  assert (A : W <= Zpos M -> 100000000 <= a).
  { intros L. destruct (Z_le_gt_dec 100000000 a) as [G|G]; [exact G|exfalso].
    assert (a * W <= 99999999 * W) by (apply Z.mul_le_mono_nonneg_r; lia).
    lia. }
  assert (B : Zpos M < W -> a < 100000000).
  { intros L. destruct (Z_lt_le_dec a 100000000) as [G|G]; [exact G|exfalso].
    assert (100000000 * W <= a * W) by (apply Z.mul_le_mono_nonneg_r; lia).
    lia. }
  rewrite of_Z_1. unfold ge, SFleb, SFcompare.
  destruct (Z.compare_spec (-52) E) as [HEq|HLt|HGt].
  - assert (HWv : W = 4503599627370496) by (unfold W; rewrite <- HEq; reflexivity).
    change (Pos.compare_cont Eq 4503599627370496 M)
      with (Pos.compare 4503599627370496 M).
    specialize (A ltac:(lia)).
    destruct (Pos.compare_spec 4503599627370496 M) as [C|C|C];
      try (symmetry; apply Z.leb_le; exact A).
    apply Pos2Z.pos_lt_pos in C. lia.
  - assert (HWv : W <= 2 ^ 51) by (apply Z.pow_le_mono_r; lia).
    change (2 ^ 51) with 2251799813685248 in HWv.
    specialize (A ltac:(lia)). symmetry. apply Z.leb_le. exact A.
  - assert (HWv : 2 ^ 53 <= W) by (apply Z.pow_le_mono_r; lia).
    rewrite pow2_53 in HWv.
    specialize (B ltac:(lia)). symmetry. apply Z.leb_gt. exact B.
Qed.

Lemma ge_1e21_small M E : Zpos M < 2 ^ 53 -> E < 0 -> ge_1e21 M E = false.
Proof.
  intros HM HE. rewrite pow2_53 in HM. destruct E as [|e|e]; try lia.
  unfold ge_1e21. apply Z.leb_gt.
  assert (0 < 2 ^ Zpos e) by (apply Z.pow_pos_nonneg; lia).
  change (10 ^ 21) with 1000000000000000000000. nia.
Qed.

Lemma nearest_scaled_neg M E f :
  E < 0 ->
  nearest_scaled M E f
  = (2 * (Zpos M * 10 ^ Z.of_nat f) + 2 ^ (- E)) / (2 * 2 ^ (- E)).
Proof.
  intros HE. destruct E as [|e|e]; try lia. unfold nearest_scaled.
  rewrite Z.pow_add_r by lia. change (- Zneg e) with (Zpos e).
  f_equal. change (2 ^ 1) with 2. ring.
Qed.

(** The million branch, for a non-zero amount of either sign. *)
Lemma million_digits nts s p :
  Zpos p < 2 ^ 53 ->
  toFixed nts (div (binary_round prec emax s p 0) (of_Z 10000000)) 0
  = sign s ++ decimal (half_up (Zpos p) 10000000).
Proof.
  intros Hp. rewrite of_Z_1e7.
  destruct (div_integer s p 10000000 29 Hp ltac:(auto)) as [M [E [R [HM [HE Hb]]]]].
  change (Z.to_pos (10000000 * 2 ^ 29)) with 5368709120000000%positive in R.
  change (- (29)) with (-29) in R. rewrite R.
  destruct (ulp_small 10000000 (Zpos M) E (Zpos p) ltac:(auto) HM HE ltac:(lia) Hb)
    as [HD [HW2 Ev]].
  unfold toFixed. rewrite ge_1e21_small by lia.
  rewrite nearest_scaled_neg by lia. change (10 ^ Z.of_nat 0) with 1.
  rewrite units_half_up with (a := Zpos p) by (try assumption; lia).
  reflexivity.
Qed.

(** The two branches of formatAmount on a non-zero amount. *)
Lemma formatAmount_billion nts p :
  Zpos p < 2 ^ 53 -> 100000000 <= Zpos p ->
  exists n,
    nearest (Zpos p) 10000000 n
    /\ formatAmount nts (of_Z (Zpos p)) = fixed_digits n 1 ++ "억원".
Proof.
  intros Hp Ha. unfold formatAmount. cbv zeta.
  change (of_Z (Zpos p)) with (binary_round prec emax false p 0).
  destruct (div_integer false p 100000000 26 Hp ltac:(auto)) as [M [E [R [HM [HE Hb]]]]].
  change (Z.to_pos (100000000 * 2 ^ 26)) with 6710886400000000%positive in R.
  change (- (26)) with (-26) in R. rewrite of_Z_1e8. rewrite R.
  rewrite (ge_one_spec M E (Zpos p)) by (assumption || lia).
  replace (100000000 <=? Zpos p) with true by (symmetry; apply Z.leb_le; exact Ha).
  destruct (ulp_small 100000000 (Zpos M) E (Zpos p) ltac:(auto) HM HE ltac:(lia) Hb)
    as [HD [HW2 Ev]].
  exists ((2 * (Zpos M * 10) + 2 ^ (- E)) / (2 * 2 ^ (- E))). split.
  - apply tenths_nearest; [lia | exact HD | exact Hb].
  - unfold toFixed. rewrite ge_1e21_small by lia.
    rewrite nearest_scaled_neg by lia. reflexivity.
Qed.

Lemma formatAmount_million nts s p :
  Zpos p < 2 ^ 53 -> (s = true \/ Zpos p < 100000000) ->
  formatAmount nts (binary_round prec emax s p 0)
  = (sign s ++ decimal (half_up (Zpos p) 10000000)) ++ "백만원".
Proof.
  intros Hp Ha. unfold formatAmount. cbv zeta.
  destruct (div_integer s p 100000000 26 Hp ltac:(auto)) as [M [E [R [HM [HE Hb]]]]].
  change (Z.to_pos (100000000 * 2 ^ 26)) with 6710886400000000%positive in R.
  change (- (26)) with (-26) in R. rewrite of_Z_1e8. rewrite R.
  assert (G : ge (S754_finite s M E) (of_Z 1) = false).
  { destruct s.
    - reflexivity.
    - rewrite (ge_one_spec M E (Zpos p)) by (assumption || lia).
      apply Z.leb_gt. destruct Ha as [Ha|Ha]; [discriminate | exact Ha]. }
  rewrite G. rewrite million_digits by exact Hp. reflexivity.
Qed.

(** C1: for an integer amount that a Number holds exactly (below 2^53 in
    absolute value), formatAmount takes the hundred-million branch exactly
    when amount / 100,000,000 >= 1 and then prints, with one decimal and the
    label 억원, an integer number n of tenths nearest to the quotient (the
    quotient rounded to one decimal; when the quotient lies exactly halfway
    between two tenths, n is one of the two); otherwise it prints
    amount / 10,000,000 rounded to the nearest integer, halves away from
    zero, with the label 백만원 (and a minus sign for a negative amount).
    formatAmount(150000000) is "1.5억원" and formatAmount(50000000) is
    "5백만원". *)
Theorem C1_formatAmount_rounds :
  forall (Number_toString : number -> string) (amount : Z),
    - 2 ^ 53 < amount < 2 ^ 53 ->
    (100000000 <= amount ->
       exists n,
         nearest amount 10000000 n
         /\ (2 * (amount mod 10000000) <> 10000000 -> n = half_up amount 10000000)
         /\ formatAmount Number_toString (of_Z amount)
            = (decimal (n / 10) ++ "." ++ decimal (n mod 10)) ++ "억원")
    /\ (amount < 100000000 ->
          formatAmount Number_toString (of_Z amount)
          = (sign (amount <? 0) ++ decimal (half_up (Z.abs amount) 10000000)) ++ "백만원")
    /\ formatAmount Number_toString (of_Z 150000000) = "1.5억원"
    /\ formatAmount Number_toString (of_Z 50000000) = "5백만원".
Proof.
  intros nts amount Ha. split; [|split; [|split; reflexivity]].
  - intros Hge. destruct amount as [|p|p]; try lia.
    destruct (formatAmount_billion nts p ltac:(lia) Hge) as [n [Hn Hf]].
    exists n. split; [exact Hn|]. split.
    + intros Hne. apply nearest_half_up; [lia | exact Hn | exact Hne].
    + rewrite Hf, fixed_digits_one; [reflexivity|]. unfold nearest in Hn. lia.
  - intros Hlt. destruct amount as [|p|p].
    + reflexivity.
    + change (of_Z (Zpos p)) with (binary_round prec emax false p 0).
      rewrite formatAmount_million by (try right; lia). reflexivity.
    + change (of_Z (Zneg p)) with (binary_round prec emax true p 0).
      rewrite formatAmount_million by (try left; try reflexivity; lia). reflexivity.
Qed.

(** The hypothesis of C1 at 99,999,999, just below the hundred-million
    branch: 9.9999999 rounds to 10. *)
Lemma C1_formatAmount_rounds_witness :
  - 2 ^ 53 < 99999999 < 2 ^ 53
  /\ formatAmount example_toString (of_Z 99999999) = "10백만원".
Proof.
  split; [lia|].
  exact (proj1 (proj2 (C1_formatAmount_rounds example_toString 99999999 ltac:(lia)))
           ltac:(lia)).
Defined.

(** Halfway quotients: the binary64 quotient decides the side.  1.15 and
    1.05 are not binary64 numbers; the nearest ones lie below 1.15 and above
    1.05.  1.25 is one, and goes up. *)
Example formatAmount_halfway :
  formatAmount example_toString (of_Z 115000000) = "1.1억원"
  /\ formatAmount example_toString (of_Z 105000000) = "1.1억원"
  /\ formatAmount example_toString (of_Z 125000000) = "1.3억원"
  /\ formatAmount example_toString (of_Z (-4000000)) = "-0백만원"
  /\ formatAmount example_toString (of_Z 0) = "0백만원".
Proof. repeat split. Qed.

Local Close Scope Z_scope.

(** * Further properties *)

(** ** The list of ETFs *)

Lemma forEach_append_items l : forall i s,
  forEach_from i
    (fun (e : Etf.t) (_ : nat) =>
       modify (with_dom (fun d =>
         set_etfList (etfList d ++
           [ {| li_text := Etf.name e; li_ticker := Some (Etf.ticker e);
                li_active := false |} ])%list d))) l s
  = (Return tt,
     with_dom (fun d => set_etfList (etfList d ++ map etf_item l)%list d) s, []).
Proof.
  induction l as [|e l IH]; intros i s; simpl.
  - unfold ret. destruct s as [j c t d i0 st en]. destruct d.
    unfold with_dom, set_etfList. simpl. rewrite app_nil_r. reflexivity.
  - rewrite run_bind. unfold modify at 1. rewrite IH.
    destruct s as [j c t d i0 st en]. destruct d. unfold with_dom, set_etfList.
    simpl. rewrite <- app_assoc. reflexivity.
Qed.

Lemma renderEtfList_run etfs s :
  renderEtfList etfs s
  = (Return tt, with_dom (set_etfList (list_items etfs)) s, [ Cleared etf_list ]).
Proof.
  unfold renderEtfList.
  unfold bind at 1. unfold modify at 1. cbv iota beta.
  unfold bind at 1. unfold emit at 1. cbv iota beta.
  destruct etfs as [|e etfs].
  - destruct s as [j c t d i st en]. destruct d. reflexivity.
  - unfold forEach. rewrite forEach_append_items.
    destruct s as [j c t d i st en]. destruct d. reflexivity.
Qed.

Lemma active_items_map_etf_item etfs : active_items (map etf_item etfs) = 0%nat.
Proof. unfold active_items. induction etfs; simpl; [reflexivity | exact IHetfs]. Qed.

Lemma active_items_list_items etfs : active_items (list_items etfs) = 0%nat.
Proof.
  destruct etfs as [|e etfs]; [reflexivity|].
  apply (active_items_map_etf_item (e :: etfs)).
Qed.

(** X1: renderEtfList replaces the content of the list: for no ETF, by the
    one item that says so, which carries no ticker; otherwise by one item
    per ETF, in the order of the array, with the name as text and the ticker
    as data attribute.  No item of the new list is highlighted, whatever the
    list held before, and nothing else on the page changes. *)
Theorem X1_renderEtfList_items :
  forall (etfs : list Etf.t) (e : Etf.t) (s : page),
    etfList (dom (after (renderEtfList []) s)) = [ no_etf_item ]
    /\ etfList (dom (after (renderEtfList (e :: etfs)) s)) = map etf_item (e :: etfs)
    /\ after (renderEtfList etfs) s
       = with_dom (set_etfList (etfList (dom (after (renderEtfList etfs) s)))) s
    /\ active_items (etfList (dom (after (renderEtfList etfs) s))) = 0%nat
    /\ result (renderEtfList etfs) s = Return tt
    /\ effects (renderEtfList etfs) s = [ Cleared etf_list ].
Proof.
  intros etfs e s. unfold after, result, effects. rewrite !renderEtfList_run.
  cbn [fst snd].
  split; [destruct s as [j c t d i st en]; destruct d; reflexivity|].
  split; [destruct s as [j c t d i st en]; destruct d; reflexivity|].
  split; [destruct s as [j c t d i st en]; destruct d; reflexivity|].
  split; [|split; reflexivity].
  replace (etfList (dom (with_dom (set_etfList (list_items etfs)) s)))
    with (list_items etfs) by (destruct s as [j c t d i st en]; destruct d; reflexivity).
  apply active_items_list_items.
Qed.

Lemma on_search_input_run lower v s :
  on_search_input lower v s
  = (Return tt,
     with_dom (set_etfList (list_items (search_filter lower v (allEtfs (js s))))) s,
     [ Cleared etf_list ]).
Proof.
  unfold on_search_input. unfold bind at 1. unfold get at 1. cbv iota beta.
  rewrite renderEtfList_run. reflexivity.
Qed.

(** X2: the search listener shows the matches among all the ETFs fetched,
    not among those the list showed: the array [allEtfs] and the other
    variables stay as they are, so a search after another search gives what
    it gives alone.  It requests nothing, and it leaves no item
    highlighted. *)
Theorem X2_search_from_all_etfs :
  forall (toLowerCase : string -> string) (s : page) (v v' : string),
    let search q := on_search_input toLowerCase q in
    after (search v) s
    = with_dom (set_etfList (list_items (search_filter toLowerCase v (allEtfs (js s))))) s
    /\ js (after (search v) s) = js s
    /\ after (search v') (after (search v) s) = after (search v') s
    /\ effects (search v) s = [ Cleared etf_list ]
    /\ requests (env (after (search v) s)) = requests (env s)
    /\ active_items (etfList (dom (after (search v) s))) = 0%nat.
Proof.
  intros lower s v v' search. unfold search, after, effects.
  rewrite !on_search_input_run. cbn [fst snd].
  destruct s as [j c t d i st en]. destruct d as [l hb sb sh]. cbn.
  repeat split. apply active_items_list_items.
Qed.

Lemma includes_empty s : includes s EmptyString = true.
Proof. destruct s; reflexivity. Qed.

Lemma filter_all {A} (f : A -> bool) l : (forall x, f x = true) -> filter f l = l.
Proof.
  intros H. induction l as [|x l IH]; simpl; [reflexivity|]. now rewrite H, IH.
Qed.

(** X3: with a toLowerCase that maps the empty string to itself, an empty
    search box shows every ETF fetched: clearing the box undoes a search. *)
Theorem X3_empty_search_shows_all :
  forall (toLowerCase : string -> string) (s : page) (v : string),
    toLowerCase EmptyString = EmptyString ->
    let search q := on_search_input toLowerCase q in
    search_filter toLowerCase EmptyString (allEtfs (js s)) = allEtfs (js s)
    /\ etfList (dom (after (search EmptyString) (after (search v) s)))
       = list_items (allEtfs (js s)).
Proof.
  intros lower s v H search.
  assert (F : forall l, search_filter lower EmptyString l = l).
  { intros l. unfold search_filter. apply filter_all. intros x.
    rewrite H, includes_empty. reflexivity. }
  split; [apply F|].
  unfold search, after. rewrite !on_search_input_run. cbn [fst snd].
  destruct s as [j c t d i st en]. destruct d as [l hb sb sh]. cbn.
  now rewrite F.
Qed.

(** The hypothesis of X3 for toLowerCase on ASCII letters, on a page with
    two ETFs after a search for "tiger". *)
Lemma X3_empty_search_shows_all_witness :
  let etfs := [ {| Etf.ticker := "069500"; Etf.name := "KODEX 200" |};
                {| Etf.ticker := "102110"; Etf.name := "TIGER 200" |} ] in
  let s := with_js (set_allEtfs etfs) blank_page in
  ascii_toLowerCase EmptyString = EmptyString
  /\ etfList (dom (after (on_search_input ascii_toLowerCase "tiger") s))
     = [ etf_item {| Etf.ticker := "102110"; Etf.name := "TIGER 200" |} ]
  /\ etfList (dom (after (on_search_input ascii_toLowerCase EmptyString)
                     (after (on_search_input ascii_toLowerCase "tiger") s)))
     = map etf_item etfs.
Proof.
  intros etfs s. split; [reflexivity|]. split; [reflexivity|].
  exact (proj2 (X3_empty_search_shows_all ascii_toLowerCase s "tiger" eq_refl)).
Defined.

Lemma on_etf_click_miss nts enc net i s :
  match nth_error (etfList (dom s)) i with
  | Some target =>
      match li_ticker target with Some t => truthy t = false | None => True end
  | None => True
  end ->
  on_etf_click nts enc net i s = (Return tt, s, []).
Proof.
  intros H. unfold on_etf_click. unfold bind at 1. unfold get at 1. cbv iota beta.
  destruct (nth_error (etfList (dom s)) i) as [target|]; [|reflexivity].
  destruct (li_ticker target) as [t|]; [|reflexivity].
  rewrite H. reflexivity.
Qed.

(** X4: when the list shows the item for "no ETF" (an empty array was
    rendered, for instance by a search without a match), a click in the list
    does nothing: the item carries no ticker, so nothing is highlighted and
    nothing is requested. *)
Theorem X4_no_etf_item_click :
  forall (Number_toString : number -> string) (encodeURIComponent : string -> string)
         (net : network) (s : page) (i : nat),
    let s0 := after (renderEtfList []) s in
    on_etf_click Number_toString encodeURIComponent net i s0 = (Return tt, s0, []).
Proof.
  intros nts enc net s i s0. apply on_etf_click_miss.
  unfold s0, after. rewrite renderEtfList_run. cbn [fst snd].
  replace (etfList (dom (with_dom (set_etfList (list_items [])) s)))
    with [ no_etf_item ] by (destruct s as [j c t d i0 st en]; destruct d; reflexivity).
  destruct i as [|[|i]]; exact I.
Qed.

(** *** The highlighted item *)

Lemma remove_first_active_none l :
  (active_items l <= 1)%nat -> active_items (remove_first_active l) = 0%nat.
Proof.
  unfold active_items. induction l as [|x l IH]; simpl; intros H; [reflexivity|].
  destruct (li_active x) eqn:E; simpl in *.
  - lia.
  - rewrite E. apply IH, H.
Qed.

Lemma add_active_count l : forall i,
  active_items l = 0%nat -> (active_items (add_active i l) <= 1)%nat.
Proof.
  unfold active_items. induction l as [|x l IH]; intros i H; simpl; [destruct i; simpl; lia|].
  simpl in H. destruct (li_active x) eqn:E; simpl in H; [discriminate|].
  destruct i as [|i]; simpl.
  - lia.
  - rewrite E. apply IH, H.
Qed.

Lemma one_highlight_renderEtfList etfs : preserves one_highlight (renderEtfList etfs).
Proof.
  intros s _. unfold one_highlight, after. rewrite renderEtfList_run. cbn [fst snd].
  replace (etfList (dom (with_dom (set_etfList (list_items etfs)) s)))
    with (list_items etfs) by (destruct s as [j c t d i st en]; destruct d; reflexivity).
  rewrite active_items_list_items. lia.
Qed.

Lemma one_highlight_fetchEtfDetails nts net t :
  preserves one_highlight (fetchEtfDetails nts net t).
Proof.
  unfold fetchEtfDetails, showLoading, hideLoading, try_catch_finally, console_error, alert,
    fetch, check_ok, json, assign, classList_add_hidden, classList_remove_hidden, destroy,
    renderHoldingsTable.
  repeat preserves_step fail.
Qed.

Lemma one_highlight_fetchStockHistory net a b c :
  preserves one_highlight (fetchStockHistory net a b c).
Proof.
  unfold fetchStockHistory, showLoading, hideLoading, try_catch_finally, console_error, alert,
    fetch, check_ok, json, renderWeightChart, assign, classList_remove_hidden, destroy,
    new_Chart.
  repeat preserves_step fail.
Qed.

Lemma one_highlight_loadStatsData nts enc net :
  preserves one_highlight (loadStatsData nts enc net).
Proof.
  unfold loadStatsData, showLoading, hideLoading, try_catch_finally, console_error, alert,
    fetch, check_ok, json, updateStatsTableHeaders, renderStatsTable, stats_row.
  repeat preserves_step fail.
Qed.

Lemma one_highlight_switchView nts enc net v :
  preserves one_highlight (switchView nts enc net v).
Proof.
  unfold switchView, assign, classList_add_hidden, classList_remove_hidden.
  repeat preserves_step ltac:(apply one_highlight_loadStatsData).
Qed.

Ltac highlight_known' :=
  first [ apply one_highlight_renderEtfList | apply one_highlight_fetchEtfDetails
        | apply one_highlight_fetchStockHistory | apply one_highlight_loadStatsData
        | apply one_highlight_switchView ].

Lemma one_highlight_initializeApp net : preserves one_highlight (initializeApp net).
Proof.
  unfold initializeApp, fetchEtfList, loadThemes, showLoading, hideLoading,
    try_catch_finally, console_error, alert, fetch, check_ok, json, assign.
  repeat preserves_step highlight_known'.
Qed.

Lemma one_highlight_listener nts lower enc net e :
  preserves one_highlight (listener nts lower enc net e).
Proof.
  destruct e; unfold listener.
  - unfold on_search_input. repeat preserves_step highlight_known'.
  - unfold on_etf_click.
    apply preserves_bind; [apply preserves_get | intros s0].
    destruct (nth_error (etfList (dom s0)) i) as [target|]; [|apply preserves_ret].
    destruct (li_ticker target) as [t|]; [|apply preserves_ret].
    destruct (truthy t); [|apply preserves_ret].
    intros s H. unfold after.
    rewrite run_bind. unfold modify at 1. cbv iota beta.
    rewrite run_bind. unfold modify at 1. cbv iota beta.
    match goal with |- context [bind ?m ?k ?p] =>
      assert (P : one_highlight p);
      [| pose proof (preserves_bind one_highlight m k) as Q;
         specialize (fun A B => Q A B p P); unfold after in Q;
         destruct (bind m k p) as [[r s2] t2] ]
    end.
    + unfold one_highlight in *.
      destruct s as [j c tx d i0 st en]. destruct d as [l hb sb sh]. cbn in *.
      apply add_active_count, remove_first_active_none, H.
    + cbn [fst snd List.app]. apply Q.
      * destruct (view_eqb _ _); [apply one_highlight_switchView | apply preserves_ret].
      * intros _. apply one_highlight_fetchEtfDetails.
  - unfold on_holdings_count_change, renderHoldingsTable. repeat preserves_step highlight_known'.
  - unfold on_holdings_click. repeat preserves_step highlight_known'.
  - unfold on_refresh_click, showLoading, hideLoading, try_catch_finally, console_error,
      alert, fetch, json.
    repeat preserves_step highlight_known'.
  - unfold on_export_click, alert. repeat preserves_step highlight_known'.
  - unfold on_view_toggle. repeat preserves_step highlight_known'.
  - unfold on_stats_type_change. repeat preserves_step highlight_known'.
  - unfold on_theme_change. repeat preserves_step highlight_known'.
Qed.

Lemma preserves_after_events (P : page -> Prop) nts lower enc net :
  (forall e, preserves P (listener nts lower enc net e)) ->
  forall es s, P s -> P (after_events nts lower enc net es s).
Proof.
  intros H es. induction es as [|e es IH]; intros s Hs; simpl; [exact Hs|].
  apply IH, H, Hs.
Qed.

(** X5: the list never shows two highlighted items.  If at most one item is
    highlighted, that is still so after initializeApp and after any sequence
    of events. *)
Theorem X5_one_highlight :
  forall (Number_toString : number -> string)
         (toLowerCase encodeURIComponent : string -> string) (net : network)
         (s : page) (es : list event),
    one_highlight s ->
    one_highlight (after (initializeApp net) s)
    /\ one_highlight (after_events Number_toString toLowerCase encodeURIComponent net es s)
    /\ one_highlight
         (after_events Number_toString toLowerCase encodeURIComponent net es
            (after (initializeApp net) s)).
Proof.
  intros nts lower enc net s es H.
  pose proof (one_highlight_initializeApp net s H) as H0.
  split; [exact H0|].
  split; apply preserves_after_events; try assumption;
    intros e; apply one_highlight_listener.
Qed.

(** The hypothesis of X5 on the example page, with the second of two
    selections: one item is highlighted. *)
Lemma X5_one_highlight_witness :
  one_highlight blank_page
  /\ active_items
       (etfList (dom (after_events example_toString ascii_toLowerCase example_encode online
                        [ EtfClick 0; EtfClick 0 ] (after (initializeApp online) blank_page))))
     = 1%nat.
Proof.
  assert (H : one_highlight blank_page) by (vm_compute; lia).
  split; [exact H|].
  pose proof (proj2 (proj2 (X5_one_highlight example_toString ascii_toLowerCase
    example_encode online blank_page [ EtfClick 0; EtfClick 0 ] H))) as L.
  unfold one_highlight in L.
  assert (G : (1 <= active_items
       (etfList (dom (after_events example_toString ascii_toLowerCase example_encode online
                        [ EtfClick 0; EtfClick 0 ]
                        (after (initializeApp online) blank_page)))))%nat)
    by (vm_compute; lia).
  lia.
Defined.

(** A click on an item with a ticker: the item is highlighted and no other,
    the view is switched when it was the statistics view, and the detail is
    fetched. *)
Lemma on_etf_click_hit nts enc net i s target t :
  nth_error (etfList (dom s)) i = Some target ->
  li_ticker target = Some t ->
  truthy t = true ->
  on_etf_click nts enc net i s
  = bind (if view_eqb (currentView (js s)) stats then switchView nts enc net etf else ret tt)
      (fun _ => fetchEtfDetails nts net t)
      (with_dom (fun d => set_etfList (add_active i (remove_first_active (etfList d))) d) s).
Proof.
  intros H1 H2 H3. unfold on_etf_click. unfold bind at 1. unfold get at 1. cbv iota beta.
  rewrite H1, H2, H3.
  unfold bind at 1. unfold modify at 1. cbv iota beta.
  unfold bind at 1. unfold modify at 1. cbv iota beta.
  destruct s as [j c tx d i0 st en]. destruct d as [l hb sb sh]. cbn [with_dom set_etfList
    etfList dom js classes text inputs style env holdingsTableBody statsTableBody
    statsTableHead].
  destruct (bind _ _ _) as [[r s2] t2]. reflexivity.
Qed.

Lemma switchView_etf_run nts enc net s :
  switchView nts enc net etf s
  = (Return tt,
     with_text (set_viewToggle_text "통계 보기")
       (with_classes (set_welcomeMessage_hidden false)
          (with_classes (set_statsView_hidden true)
             (with_classes (set_etfDetails_hidden false)
                (with_js (set_currentView etf) s)))),
     [ PanelHidden etfDetails false; PanelHidden statsView true;
       PanelHidden welcomeMessage false ]).
Proof. reflexivity. Qed.

(** What fetchEtfDetails leaves as it is, whatever the reply. *)
Lemma fetchEtfDetails_frame nts net t s :
  let s' := after (fetchEtfDetails nts net t) s in
  etfList (dom s') = etfList (dom s)
  /\ statsTableBody (dom s') = statsTableBody (dom s)
  /\ statsTableHead (dom s') = statsTableHead (dom s)
  /\ allEtfs (js s') = allEtfs (js s)
  /\ currentView (js s') = currentView (js s)
  /\ allThemes (js s') = allThemes (js s)
  /\ inputs s' = inputs s
  /\ statsView_hidden (classes s') = statsView_hidden (classes s).
Proof.
  intros s'. subst s'. unfold after. rewrite fetchEtfDetails_run.
  destruct (comparison_reply _ _ _) as [|[|] [d|]]; cbn [fst snd];
    try (destruct s as [j c tx dm i0 st en]; repeat split; fail).
  unfold details_loaded, after. rewrite renderHoldingsTable_run.
  destruct s as [j c tx dm i0 st en].
  destruct j as [ae ced hd [w|] cv at0]; repeat split.
Qed.

Lemma fetchEtfDetails_fetches nts net t s :
  fetches (effects (fetchEtfDetails nts net t) s) = 1%nat
  /\ In (Fetch "GET" (comparison_url t)) (effects (fetchEtfDetails nts net t) s).
Proof.
  unfold effects. rewrite fetchEtfDetails_run.
  destruct (comparison_reply _ _ _) as [|[|] [d|]]; cbn [fst snd];
    try (split; [reflexivity | right; left; reflexivity]).
  destruct (weightChart (js s)); split; try reflexivity; right; left; reflexivity.
Qed.

Lemma remove_first_active_nth l : forall i x,
  nth_error l i = Some x ->
  exists x', nth_error (remove_first_active l) i = Some x'
             /\ li_text x' = li_text x /\ li_ticker x' = li_ticker x.
Proof.
  induction l as [|y l IH]; intros i x H; [destruct i; discriminate|].
  simpl. destruct (li_active y) eqn:E.
  - destruct i as [|i]; simpl in *.
    + injection H as <-. eexists. split; [reflexivity|]. split; reflexivity.
    + exists x. split; [exact H|]. split; reflexivity.
  - destruct i as [|i]; simpl in *.
    + injection H as <-. exists y. split; [reflexivity|]. split; reflexivity.
    + apply IH, H.
Qed.

Lemma remove_first_active_fields l :
  map li_text (remove_first_active l) = map li_text l
  /\ map li_ticker (remove_first_active l) = map li_ticker l.
Proof.
  induction l as [|y l [IH1 IH2]]; [split; reflexivity|].
  simpl. destruct (li_active y); simpl; [split; reflexivity|].
  rewrite IH1, IH2. split; reflexivity.
Qed.

Lemma add_active_fields l : forall i,
  map li_text (add_active i l) = map li_text l
  /\ map li_ticker (add_active i l) = map li_ticker l.
Proof.
  induction l as [|y l IH]; intros i; [destruct i; split; reflexivity|].
  destruct i as [|i]; simpl; [split; reflexivity|].
  destruct (IH i) as [IH1 IH2]. rewrite IH1, IH2. split; reflexivity.
Qed.

Lemma add_active_nth l : forall i x,
  active_items l = 0%nat ->
  nth_error l i = Some x ->
  nth_error (add_active i l) i = Some (highlighted x)
  /\ querySelector_active (add_active i l) = Some (highlighted x)
  /\ active_items (add_active i l) = 1%nat.
Proof.
  unfold active_items, querySelector_active.
  induction l as [|y l IH]; intros i x H0 H; [destruct i; discriminate|].
  simpl in H0. destruct (li_active y) eqn:E; [discriminate|].
  destruct i as [|i]; simpl in *.
  - injection H as <-. rewrite H0. repeat split.
  - rewrite E. apply IH; assumption.
Qed.

Lemma highlighted_fields x x' :
  li_text x' = li_text x -> li_ticker x' = li_ticker x -> highlighted x' = highlighted x.
Proof. intros H1 H2. unfold highlighted. now rewrite H1, H2. Qed.

(** X6: a click on an item of the list that carries a ticker leaves that
    item highlighted and no other (at most one was before), changes neither
    the texts nor the tickers of the list, leaves the page in the ETF view,
    and requests the detail of that ticker, in one request. *)
Theorem X6_click_selects :
  forall (Number_toString : number -> string) (encodeURIComponent : string -> string)
         (net : network) (s : page) (i : nat) (target : li) (t : string),
    one_highlight s ->
    nth_error (etfList (dom s)) i = Some target ->
    li_ticker target = Some t ->
    t <> EmptyString ->
    let click := on_etf_click Number_toString encodeURIComponent net i in
    let l' := etfList (dom (after click s)) in
    nth_error l' i = Some (highlighted target)
    /\ querySelector_active l' = Some (highlighted target)
    /\ active_items l' = 1%nat
    /\ map li_text l' = map li_text (etfList (dom s))
    /\ map li_ticker l' = map li_ticker (etfList (dom s))
    /\ currentView (js (after click s)) = etf
    /\ In (Fetch "GET" (comparison_url t)) (effects click s)
    /\ fetches (effects click s) = 1%nat.
Proof.
  intros nts enc net s i target t H Hn Ht Hne click l'.
  assert (Tr : truthy t = true) by (destruct t; [contradiction | reflexivity]).
  pose proof (on_etf_click_hit nts enc net i s target t Hn Ht Tr) as R.
  set (s0 := with_dom _ s) in R.
  assert (L0 : etfList (dom s0) = add_active i (remove_first_active (etfList (dom s))))
    by (destruct s as [j c tx d i0 st en]; destruct d; reflexivity).
  assert (V0 : currentView (js s0) = currentView (js s))
    by (destruct s as [j c tx d i0 st en]; destruct d; reflexivity).
  (* the page and the effects before the detail is fetched *)
  assert (S1 : exists s1 t1,
    (if view_eqb (currentView (js s)) stats then switchView nts enc net etf else ret tt) s0
    = (Return tt, s1, t1)
    /\ etfList (dom s1) = etfList (dom s0) /\ currentView (js s1) = etf
    /\ fetches t1 = 0%nat).
  { destruct (currentView (js s)) eqn:V; cbn [view_eqb].
    - exists s0, []. repeat split. exact V0.
    - rewrite switchView_etf_run. eexists. eexists. split; [reflexivity|].
      destruct s as [j c tx d i0 st en]; destruct d; repeat split. }
  destruct S1 as [s1 [t1 [E1 [L1 [V1 F1]]]]].
  assert (A : after click s = after (fetchEtfDetails nts net t) s1
              /\ effects click s = (t1 ++ effects (fetchEtfDetails nts net t) s1)%list).
  { unfold click, after, effects. rewrite R, run_bind, E1.
    destruct (fetchEtfDetails nts net t s1) as [[r s2] t2]. split; reflexivity. }
  destruct A as [A1 A2].
  destruct (fetchEtfDetails_frame nts net t s1) as [FL [_ [_ [_ [FV _]]]]].
  assert (L : l' = add_active i (remove_first_active (etfList (dom s)))).
  { unfold l'. rewrite A1, FL, L1, L0. reflexivity. }
  destruct (remove_first_active_nth _ _ _ Hn) as [x' [Hx' [Tx' Kx']]].
  pose proof (remove_first_active_none _ H) as Z.
  destruct (add_active_nth _ _ _ Z Hx') as [N1 [N2 N3]].
  rewrite (highlighted_fields _ _ Tx' Kx') in N1, N2.
  rewrite L.
  split; [exact N1|]. split; [exact N2|]. split; [exact N3|].
  split; [rewrite (proj1 (add_active_fields _ _)); apply remove_first_active_fields|].
  split; [rewrite (proj2 (add_active_fields _ _)); apply remove_first_active_fields|].
  split; [rewrite A1, FV; exact V1|].
  destruct (fetchEtfDetails_fetches nts net t s1) as [G1 G2].
  split.
  - rewrite A2. apply in_or_app. right. exact G2.
  - rewrite A2. unfold fetches in *. rewrite filter_app, length_app, F1, G1. reflexivity.
Qed.

(** The hypotheses of X6 on the example page in the statistics view: the
    click on the first item highlights it and goes back to the ETF view. *)
Lemma X6_click_selects_witness :
  one_highlight visited_page
  /\ nth_error (etfList (dom visited_page)) 0
     = Some {| li_text := "KODEX 200"; li_ticker := Some "069500"; li_active := true |}
  /\ currentView (js visited_page) = stats
  /\ currentView
       (js (after (on_etf_click example_toString example_encode online 0) visited_page))
     = etf.
Proof.
  assert (H : one_highlight visited_page) by (vm_compute; lia).
  split; [exact H|]. split; [vm_compute; reflexivity|]. split; [vm_compute; reflexivity|].
  refine (proj1 (proj2 (proj2 (proj2 (proj2 (proj2
    (X6_click_selects example_toString example_encode online visited_page 0
       {| li_text := "KODEX 200"; li_ticker := Some "069500"; li_active := true |}
       "069500" H _ eq_refl _))))))).
  - vm_compute. reflexivity.
  - discriminate.
Defined.

Lemma find_none_active l : active_items l = 0%nat -> querySelector_active l = None.
Proof.
  unfold active_items, querySelector_active.
  induction l as [|x l IH]; simpl; intros H; [reflexivity|].
  destruct (li_active x); [discriminate | apply IH, H].
Qed.

(** X7: the search listener renders the list anew, so that no item is
    highlighted afterwards; a refresh in the ETF view then reloads nothing,
    although a detail is loaded: once the update call has answered, the
    listener only alerts the answer, and the loaded record and its table stay
    as they are. *)
Theorem X7_refresh_after_search :
  forall (Number_toString : number -> string)
         (toLowerCase encodeURIComponent : string -> string) (net : network)
         (s : page) (v : string) (ok : bool) (m : Message.t),
    currentView (js s) = etf ->
    message_reply net (requests (env s)) "/api/system/update" = Responded ok (Some m) ->
    let s1 := after (on_search_input toLowerCase v) s in
    let refresh := on_refresh_click Number_toString encodeURIComponent net in
    querySelector_active (etfList (dom s1)) = None
    /\ effects refresh s1
       = [ Overlay true; Fetch "POST" "/api/system/update"; Alert (Message.message m);
           Overlay false ]
    /\ currentEtfData (js (after refresh s1)) = currentEtfData (js s)
    /\ holdingsTableBody (dom (after refresh s1)) = holdingsTableBody (dom s).
Proof.
  intros nts lower enc net s v ok m V H s1 refresh.
  assert (E : s1 = with_dom (set_etfList
                (list_items (search_filter lower v (allEtfs (js s))))) s).
  { unfold s1, after. rewrite on_search_input_run. reflexivity. }
  assert (Q : querySelector_active (etfList (dom s1)) = None).
  { apply find_none_active. rewrite E.
    replace (etfList (dom (with_dom (set_etfList (list_items
               (search_filter lower v (allEtfs (js s))))) s)))
      with (list_items (search_filter lower v (allEtfs (js s))))
      by (destruct s as [j c t d i st en]; destruct d; reflexivity).
    apply active_items_list_items. }
  assert (V1 : currentView (js s1) = etf) by (rewrite E; exact V).
  assert (H1 : message_reply net (requests (env s1)) "/api/system/update"
               = Responded ok (Some m)) by (rewrite E; exact H).
  pose proof (on_refresh_click_decoded nts enc net s1 ok m H1) as R. cbv zeta in R.
  unfold reload in R. rewrite Q, V1 in R.
  split; [exact Q|]. unfold refresh, effects, after. rewrite R. cbn [fst snd].
  split; [reflexivity|]. rewrite E.
  destruct s as [j c t d i st en]; destruct d; split; reflexivity.
Qed.

(** The hypotheses of X7 on the example page with its ETF selected. *)
Lemma X7_refresh_after_search_witness :
  let s := after_events example_toString ascii_toLowerCase example_encode online
             [ EtfClick 0 ] (after (initializeApp online) blank_page) in
  currentView (js s) = etf
  /\ currentEtfData (js s) = Some kodex200
  /\ fetches (effects (on_refresh_click example_toString example_encode online) s) = 2%nat
  /\ fetches (effects (on_refresh_click example_toString example_encode online)
                (after (on_search_input ascii_toLowerCase "kodex") s)) = 1%nat.
Proof.
  intros s.
  assert (V : currentView (js s) = etf) by (vm_compute; reflexivity).
  split; [exact V|]. split; [vm_compute; reflexivity|]. split; [vm_compute; reflexivity|].
  rewrite (proj1 (proj2 (X7_refresh_after_search example_toString ascii_toLowerCase
    example_encode online s "kodex" true {| Message.message := "완료" |} V eq_refl))).
  reflexivity.
Defined.

(** ** The detail of an ETF *)

Lemma same_content_entered t s : same_content s (loading_off (bump (loading_on t s))).
Proof.
  destruct s as [j c tx d i st en]. destruct tx. repeat split.
Qed.

(** X8: when the request of fetchEtfDetails fails (rejected, a status that
    is not a success, or a body that does not decode), the page keeps its
    content: the record loaded before, its holdings, the texts, the panels,
    the tables and the chart are as they were; only the text of the overlay
    and the number of requests differ. *)
Theorem X8_failed_detail_keeps_page :
  forall (Number_toString : number -> string) (net : network) (s : page) (t : string)
         (e : exn),
    failure (comparison_reply net (requests (env s)) (comparison_url t)) = Some e ->
    same_content s (after (fetchEtfDetails Number_toString net t) s)
    /\ requests (env (after (fetchEtfDetails Number_toString net t) s))
       = S (requests (env s)).
Proof.
  intros nts net s t e H. unfold after. rewrite fetchEtfDetails_run.
  destruct (comparison_reply _ _ _) as [|[|] [d|]]; try discriminate H; cbn [fst snd];
    (split; [apply same_content_entered | reflexivity]).
Qed.

(** The hypothesis of X8 on the example page with its ETF selected, when
    the network has gone: the record of "KODEX 200" stays. *)
Lemma X8_failed_detail_keeps_page_witness :
  let s := after_events example_toString ascii_toLowerCase example_encode online
             [ EtfClick 0 ] (after (initializeApp online) blank_page) in
  failure (comparison_reply offline (requests (env s)) (comparison_url "069500"))
  = Some NetworkError
  /\ currentEtfData (js s) = Some kodex200
  /\ js (after (fetchEtfDetails example_toString offline "069500") s) = js s.
Proof.
  intros s. split; [reflexivity|]. split; [vm_compute; reflexivity|].
  exact (proj1 (proj1 (X8_failed_detail_keeps_page example_toString offline s "069500"
                         NetworkError eq_refl))).
Defined.

(** X9: when the request of fetchStockHistory fails, the page keeps its
    content: no chart is destroyed or built, the chart panel and the title of
    the chart are as they were. *)
Theorem X9_failed_history_keeps_page :
  forall (net : network) (s : page) (etfTicker stockTicker stockName : string) (e : exn),
    failure (history_reply net (requests (env s)) (history_url etfTicker stockTicker))
    = Some e ->
    let s' := after (fetchStockHistory net etfTicker stockTicker stockName) s in
    same_content s s' /\ requests (env s') = S (requests (env s)).
Proof.
  intros net s a b c e H s'. subst s'. unfold after. rewrite fetchStockHistory_run.
  destruct (history_reply _ _ _) as [|[|] [d|]]; try discriminate H; cbn [fst snd];
    (split; [apply same_content_entered | reflexivity]).
Qed.

(** The hypothesis of X9 on the example page with a chart drawn, when the
    network has gone: the chart stays. *)
Lemma X9_failed_history_keeps_page_witness :
  failure (history_reply offline (requests (env charted_page))
             (history_url "069500" "005930")) = Some NetworkError
  /\ List.length (live_charts (env charted_page)) = 1%nat
  /\ live_charts (env (after (fetchStockHistory offline "069500" "005930" "삼성전자")
                         charted_page))
     = live_charts (env charted_page).
Proof.
  split; [reflexivity|]. split; [vm_compute; reflexivity|].
  pose proof (X9_failed_history_keeps_page offline charted_page "069500" "005930"
                "삼성전자" NetworkError eq_refl) as H.
  cbv zeta in H. destruct H as [[_ [_ [_ [_ [_ [H _]]]]]] _]. exact H.
Defined.

Lemma loading_off_frame x :
  js (loading_off x) = js x
  /\ classes (loading_off x) = classes x
  /\ text (loading_off x) = text x
  /\ dom (loading_off x) = dom x
  /\ inputs (loading_off x) = inputs x
  /\ env (loading_off x) = env x.
Proof. repeat split. Qed.

Lemma entered_frame a s :
  js (bump (loading_on a s)) = js s
  /\ classes (bump (loading_on a s)) = classes s
  /\ dom (bump (loading_on a s)) = dom s
  /\ inputs (bump (loading_on a s)) = inputs s
  /\ requests (env (bump (loading_on a s))) = S (requests (env s)).
Proof. repeat split. Qed.

Lemma details_loaded_fields nts d t s :
  let s' := details_loaded nts d t s in
  currentEtfData (js s') = Some d
  /\ holdingsData (js s') = Comparison.comparison d
  /\ holdingsTableBody (dom s')
     = table_of nts (dataToShow (holdingsCountSelect_value (inputs s))
                       (Comparison.comparison d))
  /\ etf_name_text (text s') = display_name d (find_etf t (allEtfs (js s)))
  /\ etf_ticker_text (text s') = "TICKER: " ++ Comparison.etf_ticker d
  /\ etf_dates_text (text s')
     = "비교 기간: " ++ Comparison.prev_date d ++ " vs " ++ Comparison.current_date d
  /\ welcomeMessage_hidden (classes s') = true
  /\ etfDetails_hidden (classes s') = false
  /\ chartContainer_hidden (classes s') = true
  /\ inputs s' = inputs s.
Proof.
  intros s'. subst s'. unfold details_loaded, after. rewrite renderHoldingsTable_run.
  destruct s as [j c tx dm i st en]. destruct j as [ae ced hd [w|] cv at0];
    cbn -[dataToShow display_name find_etf append];
    unfold table_of; repeat split;
    destruct (dataToShow _ _); reflexivity.
Qed.

Lemma display_name_nonempty d sel : display_name d sel <> EmptyString.
Proof.
  unfold display_name.
  destruct (Comparison.etf_name d) as [[|c n]|]; cbn [truthy];
    try discriminate;
    destruct sel as [[tk [|c' n']]|]; cbn [truthy Etf.name]; discriminate.
Qed.

Lemma display_name_server d sel n :
  Comparison.etf_name d = Some n -> n <> EmptyString -> display_name d sel = n.
Proof.
  intros H Hn. unfold display_name. rewrite H.
  destruct n; [contradiction | reflexivity].
Qed.

Lemma find_etf_some t l e :
  find_etf t l = Some e -> In e l /\ Etf.ticker e = t.
Proof.
  unfold find_etf. intros H. apply find_some in H. destruct H as [H1 H2].
  split; [exact H1 | apply String.eqb_eq, H2].
Qed.

(** X10: when fetchEtfDetails gets its record, the record becomes the
    current one and its holdings the holdings array; the welcome panel is
    hidden, the detail panel shown and the chart panel hidden; the ticker and
    the dates shown are those of the record (the ticker the server sent, not
    the one requested); the holdings table shows the holdings through the
    count selector.  The name shown is never empty: it is the name of the
    record when that is not empty, else the name of the first ETF fetched
    with the requested ticker when there is one with a name, else
    "Unknown ETF". *)
Theorem X10_detail_loaded :
  forall (Number_toString : number -> string) (net : network) (s : page) (t : string)
         (d : Comparison.t),
    comparison_reply net (requests (env s)) (comparison_url t) = Responded true (Some d) ->
    let s' := after (fetchEtfDetails Number_toString net t) s in
    currentEtfData (js s') = Some d
    /\ holdingsData (js s') = Comparison.comparison d
    /\ holdingsTableBody (dom s')
       = table_of Number_toString
           (dataToShow (holdingsCountSelect_value (inputs s)) (Comparison.comparison d))
    /\ etf_ticker_text (text s') = "TICKER: " ++ Comparison.etf_ticker d
    /\ etf_dates_text (text s')
       = "비교 기간: " ++ Comparison.prev_date d ++ " vs " ++ Comparison.current_date d
    /\ welcomeMessage_hidden (classes s') = true
    /\ etfDetails_hidden (classes s') = false
    /\ chartContainer_hidden (classes s') = true
    /\ etf_name_text (text s') <> EmptyString
    /\ (forall n, Comparison.etf_name d = Some n -> n <> EmptyString ->
          etf_name_text (text s') = n)
    /\ (Comparison.etf_name d = None \/ Comparison.etf_name d = Some EmptyString ->
          match find_etf t (allEtfs (js s)) with
          | Some e =>
              In e (allEtfs (js s)) /\ Etf.ticker e = t
              /\ etf_name_text (text s')
                 = (if truthy (Etf.name e) then Etf.name e else "Unknown ETF")
          | None => etf_name_text (text s') = "Unknown ETF"
          end).
Proof.
  intros nts net s t d H s'.
  assert (E : s' = loading_off (details_loaded nts d t
                     (bump (loading_on "ETF 상세 정보를 불러오는 중입니다..." s)))).
  { unfold s', after. rewrite fetchEtfDetails_run, H. reflexivity. }
  clearbody s'. subst s'.
  destruct (loading_off_frame (details_loaded nts d t
              (bump (loading_on "ETF 상세 정보를 불러오는 중입니다..." s))))
    as [O1 [O2 [O3 [O4 _]]]].
  rewrite O1, O2, O3, O4. clear O1 O2 O3 O4.
  destruct (details_loaded_fields nts d t
              (bump (loading_on "ETF 상세 정보를 불러오는 중입니다..." s)))
    as [F1 [F2 [F3 [F4 [F5 [F6 [F7 [F8 [F9 _]]]]]]]]].
  destruct (entered_frame "ETF 상세 정보를 불러오는 중입니다..." s) as [N1 [_ [_ [N4 _]]]].
  rewrite N1 in F4. rewrite N4 in F3.
  split; [exact F1|]. split; [exact F2|]. split; [exact F3|]. split; [exact F5|].
  split; [exact F6|]. split; [exact F7|]. split; [exact F8|]. split; [exact F9|].
  rewrite F4.
  split; [apply display_name_nonempty|].
  split; [intros n Hn Hne; apply display_name_server; assumption|].
  intros Hm. destruct (find_etf t (allEtfs (js s))) as [e|] eqn:Fd.
  - destruct (find_etf_some _ _ _ Fd) as [I1 I2].
    split; [exact I1|]. split; [exact I2|].
    unfold display_name. destruct Hm as [-> | ->]; reflexivity.
  - unfold display_name. destruct Hm as [-> | ->]; reflexivity.
Qed.

(** The hypothesis of X10 on the example page and network. *)
Lemma X10_detail_loaded_witness :
  let s := after (initializeApp online) blank_page in
  comparison_reply online (requests (env s)) (comparison_url "069500")
  = Responded true (Some kodex200)
  /\ etf_ticker_text (text (after (fetchEtfDetails example_toString online "069500") s))
     = "TICKER: 069500".
Proof.
  intros s. split; [reflexivity|].
  exact (proj1 (proj2 (proj2 (proj2
    (X10_detail_loaded example_toString online s "069500" kodex200 eq_refl))))).
Defined.

Lemma no_record_initializeApp net :
  preserves (fun s => currentEtfData (js s) = None) (initializeApp net).
Proof.
  unfold initializeApp, fetchEtfList, loadThemes, showLoading, hideLoading,
    try_catch_finally, console_error, alert, fetch, check_ok, json, assign, renderEtfList.
  repeat preserves_step fail.
Qed.

(** X11: the export button navigates to the export of the record that is
    loaded, under the ticker the server sent in it, and alerts when there is
    none: after initializeApp on the page as loaded it alerts, after a
    fetchEtfDetails that got its record it navigates.  The page stays as it
    is, and nothing is fetched. *)
Theorem X11_export_target :
  forall (Number_toString : number -> string) (net : network) (s0 s : page) (t : string)
         (d : Comparison.t),
    loaded s0 ->
    comparison_reply net (requests (env s)) (comparison_url t) = Responded true (Some d) ->
    let started := after (initializeApp net) s0 in
    let selected := after (fetchEtfDetails Number_toString net t) s in
    on_export_click started = (Return tt, started, [ Alert "먼저 ETF를 선택해주세요." ])
    /\ on_export_click selected = (Return tt, selected, [ Navigate (export_url d) ]).
Proof.
  intros nts net s0 s t d L H started selected.
  assert (N : currentEtfData (js started) = None).
  { apply no_record_initializeApp. destruct L as [L _]. rewrite L. reflexivity. }
  assert (D : currentEtfData (js selected) = Some d).
  { unfold selected, after. rewrite fetchEtfDetails_run, H. cbn [fst snd].
    rewrite (proj1 (loading_off_frame _)). apply details_loaded_fields. }
  unfold on_export_click, bind, get, alert, emit. rewrite N, D. split; reflexivity.
Qed.

(** The hypotheses of X11 on the example page and network. *)
Lemma X11_export_target_witness :
  let s := after (initializeApp online) blank_page in
  loaded blank_page
  /\ comparison_reply online (requests (env s)) (comparison_url "069500")
     = Responded true (Some kodex200)
  /\ effects on_export_click (after (fetchEtfDetails example_toString online "069500") s)
     = [ Navigate "/api/etf/069500/export" ].
Proof.
  intros s. split; [exact blank_page_loaded|]. split; [reflexivity|].
  unfold effects.
  rewrite (proj2 (X11_export_target example_toString online blank_page s "069500" kodex200
                    blank_page_loaded eq_refl)).
  reflexivity.
Defined.

(** *** The detail panel and the record loaded *)

Lemma sync_renderHoldingsTable nts :
  preserves (detail_in_sync nts) (renderHoldingsTable nts).
Proof.
  intros s H. unfold after. rewrite renderHoldingsTable_run. cbn [fst snd].
  unfold detail_in_sync in *.
  destruct s as [j c tx d i st en]. destruct d as [l hb sb sh].
  cbn [js dom text inputs with_dom set_holdingsTableBody holdingsTableBody] in *.
  destruct (currentEtfData j) as [r|]; [|exact H].
  destruct H as [H1 [_ [H3 H4]]]. rewrite H1. repeat split; try assumption.
  unfold table_of. destruct (dataToShow _ _); reflexivity.
Qed.

Lemma sync_on_holdings_count_change nts v :
  preserves (detail_in_sync nts) (on_holdings_count_change nts v).
Proof.
  intros s H. unfold after, on_holdings_count_change.
  rewrite run_bind. unfold modify at 1. cbv iota beta.
  rewrite renderHoldingsTable_run. cbn [fst snd].
  unfold detail_in_sync in *.
  destruct s as [j c tx d i st en]. destruct d as [l hb sb sh].
  destruct i as [cv0 sv0 tv0 td0 to0].
  cbn [js dom text inputs with_dom with_inputs set_holdingsTableBody holdingsTableBody
       set_holdingsCountSelect_value holdingsCountSelect_value] in *.
  destruct (currentEtfData j) as [r|]; [|exact H].
  destruct H as [H1 [_ [H3 H4]]]. rewrite H1. repeat split; try assumption.
  unfold table_of. destruct (dataToShow _ _); reflexivity.
Qed.

Lemma sync_fetchEtfDetails nts net t :
  preserves (detail_in_sync nts) (fetchEtfDetails nts net t).
Proof.
  intros s H. unfold after. rewrite fetchEtfDetails_run.
  destruct (comparison_reply _ _ _) as [|[|] [d|]]; cbn [fst snd]; try exact H.
  unfold detail_in_sync.
  destruct (loading_off_frame (details_loaded nts d t
              (bump (loading_on "ETF 상세 정보를 불러오는 중입니다..." s))))
    as [O1 [_ [O3 [O4 [O5 _]]]]].
  rewrite O1, O3, O4, O5.
  destruct (details_loaded_fields nts d t
              (bump (loading_on "ETF 상세 정보를 불러오는 중입니다..." s)))
    as [F1 [F2 [F3 [_ [F5 [F6 [_ [_ [_ F10]]]]]]]]].
  rewrite F1, F10. repeat split; assumption.
Qed.

Lemma sync_fetchStockHistory nts net a b c :
  preserves (detail_in_sync nts) (fetchStockHistory net a b c).
Proof.
  unfold fetchStockHistory, showLoading, hideLoading, try_catch_finally, console_error, alert,
    fetch, check_ok, json, renderWeightChart, assign, classList_remove_hidden, destroy,
    new_Chart.
  repeat preserves_step fail.
Qed.

Lemma sync_loadStatsData nts enc net :
  preserves (detail_in_sync nts) (loadStatsData nts enc net).
Proof.
  unfold loadStatsData, showLoading, hideLoading, try_catch_finally, console_error, alert,
    fetch, check_ok, json, updateStatsTableHeaders, renderStatsTable, stats_row.
  repeat preserves_step fail.
Qed.

Ltac sync_known :=
  first [ apply sync_renderHoldingsTable | apply sync_on_holdings_count_change
        | apply sync_fetchEtfDetails | apply sync_fetchStockHistory
        | apply sync_loadStatsData ].

Lemma sync_initializeApp nts net : preserves (detail_in_sync nts) (initializeApp net).
Proof.
  unfold initializeApp, fetchEtfList, loadThemes, showLoading, hideLoading,
    try_catch_finally, console_error, alert, fetch, check_ok, json, assign, renderEtfList.
  repeat preserves_step fail.
Qed.

Lemma sync_listener nts lower enc net e :
  preserves (detail_in_sync nts) (listener nts lower enc net e).
Proof.
  destruct e; unfold listener.
  - unfold on_search_input, renderEtfList. repeat preserves_step sync_known.
  - unfold on_etf_click, switchView, assign, classList_add_hidden, classList_remove_hidden.
    repeat preserves_step sync_known.
  - apply sync_on_holdings_count_change.
  - unfold on_holdings_click. repeat preserves_step sync_known.
  - unfold on_refresh_click, showLoading, hideLoading, try_catch_finally, console_error,
      alert, fetch, json.
    repeat preserves_step sync_known.
  - unfold on_export_click, alert. repeat preserves_step sync_known.
  - unfold on_view_toggle, switchView, assign, classList_add_hidden, classList_remove_hidden.
    repeat preserves_step sync_known.
  - unfold on_stats_type_change. repeat preserves_step sync_known.
  - unfold on_theme_change. repeat preserves_step sync_known.
Qed.

Lemma reachable_sync nts lower enc net s :
  reachable nts lower enc net s -> detail_in_sync nts s.
Proof.
  induction 1 as [s L|s e R IH].
  - apply sync_initializeApp. destruct L as [L _]. unfold detail_in_sync. rewrite L.
    reflexivity.
  - apply sync_listener, IH.
Qed.

(** X12: between two events the detail panel shows the record that is
    loaded: the holdings array is that of the record, the holdings table
    shows it through the current value of the count selector (the first N
    rows, all of them, or the placeholder), and the ticker and the dates are
    those of the record; as long as no record is loaded the holdings array is
    empty.  A failed request, a search, a change of view or of the statistics
    filters never leave the table and the record apart. *)
Theorem X12_detail_in_sync :
  forall (Number_toString : number -> string)
         (toLowerCase encodeURIComponent : string -> string) (net : network) (s : page),
    reachable Number_toString toLowerCase encodeURIComponent net s ->
    match currentEtfData (js s) with
    | None => holdingsData (js s) = []
    | Some d =>
        holdingsData (js s) = Comparison.comparison d
        /\ holdingsTableBody (dom s)
           = table_of Number_toString
               (dataToShow (holdingsCountSelect_value (inputs s)) (Comparison.comparison d))
        /\ etf_ticker_text (text s) = "TICKER: " ++ Comparison.etf_ticker d
        /\ etf_dates_text (text s)
           = "비교 기간: " ++ Comparison.prev_date d ++ " vs " ++ Comparison.current_date d
    end.
Proof.
  intros nts lower enc net s R. exact (reachable_sync nts lower enc net s R).
Qed.

(** The hypothesis of X12 on the example page in the statistics view, with
    its ETF selected earlier. *)
Lemma X12_detail_in_sync_witness :
  reachable example_toString ascii_toLowerCase example_encode online visited_page
  /\ currentEtfData (js visited_page) = Some kodex200
  /\ holdingsData (js visited_page) = [ samsung ].
Proof.
  split; [exact visited_page_reachable|].
  assert (D : currentEtfData (js visited_page) = Some kodex200) by (vm_compute; reflexivity).
  split; [exact D|].
  pose proof (X12_detail_in_sync example_toString ascii_toLowerCase example_encode online
                visited_page visited_page_reachable) as H.
  rewrite D in H. exact (proj1 H).
Defined.

(** ** Rows of the holdings table *)

Lemma rows_from_nth_some nts l : forall i k item,
  nth_error l k = Some item ->
  nth_error (rows_from nts i l) k = Some (holding_row nts item (i + k)).
Proof.
  induction l as [|x l IH]; intros i k item H; [destruct k; discriminate|].
  destruct k as [|k]; simpl in *.
  - injection H as <-. rewrite Nat.add_0_r. reflexivity.
  - rewrite (IH (S i) k item H). f_equal. f_equal. lia.
Qed.

(** X13: a click on a row of the holdings table requests the history of the
    holding the row was rendered for, under the ticker of the record that is
    loaded, and passes the name of the holding on for the title of the chart:
    the listener does what fetchStockHistory does for them, in one request. *)
Theorem X13_row_click_history :
  forall (Number_toString : number -> string) (net : network) (s : page)
         (d : Comparison.t) (shown : list Holding.t) (i : nat) (item : Holding.t),
    currentEtfData (js s) = Some d ->
    holdingsTableBody (dom s) = table_of Number_toString shown ->
    nth_error shown i = Some item ->
    Holding.stock_ticker item <> EmptyString ->
    let url := history_url (Comparison.etf_ticker d) (Holding.stock_ticker item) in
    on_holdings_click net i s
    = fetchStockHistory net (Comparison.etf_ticker d) (Holding.stock_ticker item)
        (Holding.stock_name item) s
    /\ In (Fetch "GET" url) (effects (on_holdings_click net i) s)
    /\ fetches (effects (on_holdings_click net i) s) = 1%nat
    /\ (forall data,
          history_reply net (requests (env s)) url = Responded true (Some data) ->
          stock_name_chart_text (text (after (on_holdings_click net i) s))
          = Holding.stock_name item).
Proof.
  intros nts net s d shown i item D B N T url.
  assert (R : nth_error (holdingsTableBody (dom s)) i = Some (holding_row nts item i)).
  { rewrite B. unfold table_of. destruct shown as [|x shown]; [destruct i; discriminate|].
    apply (rows_from_nth_some nts (x :: shown) 0 i item N). }
  assert (E : on_holdings_click net i s
              = fetchStockHistory net (Comparison.etf_ticker d) (Holding.stock_ticker item)
                  (Holding.stock_name item) s).
  { unfold on_holdings_click. unfold bind at 1. unfold get at 1. cbv iota beta.
    rewrite R, D. cbn [stockTicker stockName holding_row].
    destruct (Holding.stock_ticker item); [contradiction|]. cbn [truthy].
    destruct (fetchStockHistory _ _ _ _ s) as [[r s2] t2]. reflexivity. }
  split; [exact E|]. unfold effects, after. rewrite E, fetchStockHistory_run.
  fold url.
  destruct (history_reply net (requests (env s)) url) as [|[|] [data|]]; cbn [fst snd];
    (split; [right; left; reflexivity|]);
    (split; [try reflexivity; destruct (weightChart (js s)); reflexivity|]);
    intros data' H'; try discriminate H'.
  destruct s as [j c tx dm i0 st en]. destruct j as [ae ced hd [w|] cv at0]; reflexivity.
Qed.

(** The hypotheses of X13 on the example page with its ETF selected: the
    click on the first row requests the history of that holding. *)
Lemma X13_row_click_history_witness :
  let s := after_events example_toString ascii_toLowerCase example_encode online
             [ EtfClick 0 ] (after (initializeApp online) blank_page) in
  currentEtfData (js s) = Some kodex200
  /\ holdingsTableBody (dom s) = table_of example_toString [ samsung ]
  /\ In (Fetch "GET" "/api/etf/069500/stock/005930/history")
        (effects (on_holdings_click online 0) s).
Proof.
  intros s.
  assert (D : currentEtfData (js s) = Some kodex200) by (vm_compute; reflexivity).
  assert (B : holdingsTableBody (dom s) = table_of example_toString [ samsung ])
    by (vm_compute; reflexivity).
  split; [exact D|]. split; [exact B|].
  refine (proj1 (proj2 (X13_row_click_history example_toString online s kodex200
                          [ samsung ] 0 samsung D B eq_refl _))).
  discriminate.
Defined.

(** X14: a click in the holdings table does nothing as long as no record is
    loaded, and nothing on the placeholder row, which carries no ticker:
    nothing is requested and the page stays as it is. *)
Theorem X14_row_click_nothing :
  forall (Number_toString : number -> string) (net : network) (s : page) (i : nat),
    currentEtfData (js s) = None
    \/ holdingsTableBody (dom s) = table_of Number_toString [] ->
    on_holdings_click net i s = (Return tt, s, []).
Proof.
  intros nts net s i H. unfold on_holdings_click. unfold bind at 1. unfold get at 1.
  cbv iota beta.
  destruct H as [H|H]; rewrite H.
  - destruct (nth_error (holdingsTableBody (dom s)) i) as [row|]; [|reflexivity].
    destruct (stockTicker row); reflexivity.
  - destruct i as [|[|i]]; reflexivity.
Qed.

(** The hypothesis of X14 on the example page before any selection. *)
Lemma X14_row_click_nothing_witness :
  let s := after (initializeApp online) blank_page in
  currentEtfData (js s) = None
  /\ effects (on_holdings_click online 0) s = [].
Proof.
  intros s.
  assert (D : currentEtfData (js s) = None) by (vm_compute; reflexivity).
  split; [exact D|]. unfold effects.
  rewrite (X14_row_click_nothing example_toString online s 0 (or_introl D)). reflexivity.
Defined.



(** X16: in a holdings row whose name and two weights are written without
    a "<" (the template is assigned to innerHTML, and a name with markup
    would change the cells that follow it), the fifth cell carries the sign
    of the change: a change above zero is shown with "+" before its two
    decimals and the class change-positive, a change below zero with its "-"
    and the class change-negative; a zero of either sign is shown as "0.00"
    and NaN as "NaN", both without a sign and without a class of their
    own. *)
Theorem X16_change_cell_sign :
  forall (Number_toString : number -> string) (item : Holding.t) (index : nat),
    plain_before_change Number_toString item ->
    let c := change_cell (holding_row Number_toString item index) in
    let x := Holding.change item in
    match x with
    | S754_finite false _ _ | S754_infinity false =>
        td_class c = Some "text-right change-positive"
        /\ td_text c = "+" ++ toFixed Number_toString x 2
    | S754_finite true _ _ | S754_infinity true =>
        td_class c = Some "text-right change-negative"
        /\ td_text c = toFixed Number_toString x 2
        /\ exists digits, td_text c = "-" ++ digits
    | S754_zero _ => td_class c = Some "text-right " /\ td_text c = "0.00"
    | S754_nan => td_class c = Some "text-right " /\ td_text c = "NaN"
    end.
Proof.
  intros nts item index _ c x. subst c x.
  unfold change_cell, holding_row, changeClass. cbn [cells nth cell td_class td_text].
  destruct (Holding.change item) as [[|]|[|]| |[|] m e]; try (split; reflexivity).
  - split; [reflexivity|]. split; [reflexivity|]. eexists. reflexivity.
  - split; [reflexivity|]. split; [reflexivity|]. eexists. reflexivity.
Qed.

(** The hypothesis of X16 for the example holding, whose weight has grown by
    1.2: the cell shows "+1.20". *)
Lemma X16_change_cell_sign_witness :
  plain_before_change example_toString samsung
  /\ td_class (change_cell (holding_row example_toString samsung 0))
     = Some "text-right change-positive"
  /\ td_text (change_cell (holding_row example_toString samsung 0)) = "+1.20".
Proof.
  assert (P : plain_before_change example_toString samsung)
    by (repeat split; vm_compute; reflexivity).
  split; [exact P|].
  pose proof (X16_change_cell_sign example_toString samsung 0 P) as H.
  split; [exact (proj1 H) | exact (proj2 H)].
Defined.

(** ** The chart of a holding *)

(** X17: when fetchStockHistory gets the history, the chart panel is shown
    with the name passed as title, and the chart built is the newest live
    instance and the one the variable refers to; it has one point per entry
    of the history, in order: the dates as labels, the weights as the first
    series, and the amounts divided by 100000000 as the second. *)
Theorem X17_chart_series :
  forall (net : network) (s : page) (etfTicker stockTicker stockName : string)
         (data : History.t),
    history_reply net (requests (env s)) (history_url etfTicker stockTicker)
    = Responded true (Some data) ->
    let s' := after (fetchStockHistory net etfTicker stockTicker stockName) s in
    let points := History.history data in
    chartContainer_hidden (classes s') = false
    /\ stock_name_chart_text (text s') = stockName
    /\ exists k rest,
         live_charts (env s') = k :: rest
         /\ weightChart (js s') = Some (chart_id k)
         /\ chart_id k = charts_built (env s)
         /\ charts_built (env s') = S (charts_built (env s))
         /\ List.length (labels k) = List.length points
         /\ List.length (weightData k) = List.length points
         /\ List.length (amountData k) = List.length points
         /\ forall i p,
              nth_error points i = Some p ->
              nth_error (labels k) i = Some (History.date p)
              /\ nth_error (weightData k) i = Some (History.weight p)
              /\ nth_error (amountData k) i
                 = Some (div (History.amount p) (of_Z 100000000)).
Proof.
  intros net s a b c data H s' points.
  assert (E : s' = loading_off (chart_drawn c points
                     (bump (loading_on "종목 비중 추이를 불러오는 중입니다..." s)))).
  { unfold s', after. rewrite fetchStockHistory_run, H. reflexivity. }
  rewrite E. clear E s'.
  destruct s as [j cl tx dm i0 st en]. destruct j as [ae ced hd w cv at0].
  split; [destruct w; reflexivity|]. split; [destruct w; reflexivity|].
  eexists. eexists.
  split; [destruct w; reflexivity|].
  split; [destruct w; reflexivity|].
  cbn [chart_id labels weightData amountData].
  split; [reflexivity|]. split; [destruct w; reflexivity|].
  rewrite !length_map. repeat split.
  - now apply map_nth_error.
  - now apply map_nth_error.
  - now apply (map_nth_error (fun item => div (History.amount item) (of_Z 100000000))).
Qed.

(** The hypothesis of X17 on the example page with its ETF selected. *)
Lemma X17_chart_series_witness :
  let s := after_events example_toString ascii_toLowerCase example_encode online
             [ EtfClick 0 ] (after (initializeApp online) blank_page) in
  history_reply online (requests (env s)) (history_url "069500" "005930")
  = Responded true
      (Some {| History.history :=
                 [ {| History.date := "2024-01-03";
                      History.weight := div (of_Z 263) (of_Z 10);
                      History.amount := of_Z 150000000 |} ] |})
  /\ stock_name_chart_text
       (text (after (fetchStockHistory online "069500" "005930" "삼성전자") s))
     = "삼성전자".
Proof.
  intros s. split; [reflexivity|].
  exact (proj1 (proj2 (X17_chart_series online s "069500" "005930" "삼성전자" _ eq_refl))).
Defined.

(** ** The statistics *)

Lemma stats_row_pure nts item i type :
  exists c, (forall s, stats_row nts item i type s = (c, s, []))
            /\ (forall e, c = Throw e -> e = TypeError).
Proof.
  unfold stats_row.
  destruct (type =? "duplicate").
  - destruct (Stats.avg_weight item); eexists; (split; [intros s; reflexivity|]);
      intros e H; [discriminate | now injection H as <-].
  - destruct (type =? "amount").
    + destruct (Stats.max_weight item); eexists; (split; [intros s; reflexivity|]);
        intros e H; [discriminate | now injection H as <-].
    + eexists. split; [intros s; reflexivity|]. discriminate.
Qed.

Lemma append_rendered (l1 l2 : list tr) s :
  with_dom (fun d => set_statsTableBody (statsTableBody d ++ l2)%list d)
    (with_dom (fun d => set_statsTableBody (statsTableBody d ++ l1)%list d) s)
  = with_dom (fun d => set_statsTableBody (statsTableBody d ++ l1 ++ l2)%list d) s.
Proof.
  destruct s as [j c t d i st en]. destruct d. unfold with_dom, set_statsTableBody. simpl.
  rewrite <- app_assoc. reflexivity.
Qed.

Lemma append_nothing s :
  with_dom (fun d => set_statsTableBody (statsTableBody d ++ [])%list d) s = s.
Proof.
  destruct s as [j c t d i st en]. destruct d. unfold with_dom, set_statsTableBody. simpl.
  rewrite app_nil_r. reflexivity.
Qed.

(** The loop of renderStatsTable appends the rows of the items, in order,
    up to the first item whose row cannot be built; the rows do not depend
    on the page. *)
Lemma forEach_stats_rows nts type l : forall i,
  exists rendered,
    (forall s,
       forEach_from i (append_stats_row nts type) l s
       = (if (List.length rendered =? List.length l)%nat then Return tt else Throw TypeError,
          with_dom (fun d => set_statsTableBody (statsTableBody d ++ rendered)%list d) s, []))
    /\ (List.length rendered <= List.length l)%nat
    /\ (forall j row,
          nth_error rendered j = Some row ->
          exists item, nth_error l j = Some item
                       /\ forall p, result (stats_row nts item (i + j) type) p = Return row)
    /\ ((List.length rendered < List.length l)%nat ->
        exists item, nth_error l (List.length rendered) = Some item
          /\ forall p, result (stats_row nts item (i + List.length rendered) type) p
                       = Throw TypeError).
Proof.
  induction l as [|x l IH]; intros i.
  - exists []. split; [intros s; simpl; rewrite append_nothing; reflexivity|].
    split; [simpl; lia|].
    split; [intros j row H; destruct j; discriminate | simpl; lia].
  - destruct (stats_row_pure nts x i type) as [c [Hc He]]. destruct c as [row|e].
    + destruct (IH (S i)) as [rendered [E [L [N T]]]].
      exists (row :: rendered). split.
      { intros s. simpl forEach_from. rewrite run_bind. unfold append_stats_row at 1.
        rewrite run_bind, Hc. unfold modify at 1. cbv iota beta.
        rewrite E, append_rendered. reflexivity. }
      split; [simpl; lia|]. split.
      * intros j r H. destruct j as [|j]; simpl in H.
        -- injection H as <-. exists x. split; [reflexivity|]. intros p.
           unfold result. rewrite Nat.add_0_r, Hc. reflexivity.
        -- destruct (N j r H) as [item [H1 H2]]. exists item. split; [exact H1|].
           intros p. rewrite <- (H2 p). f_equal. f_equal. lia.
      * intros H. simpl in H. destruct T as [item [H1 H2]]; [lia|].
        exists item. split; [exact H1|]. intros p. rewrite <- (H2 p). simpl.
        f_equal. f_equal. lia.
    + rewrite (He e eq_refl) in Hc. exists []. split.
      { intros s. simpl forEach_from. rewrite run_bind. unfold append_stats_row at 1.
        rewrite run_bind, Hc, append_nothing. reflexivity. }
      split; [simpl; lia|].
      split; [intros j r H; destruct j; discriminate|].
      intros _. exists x. split; [reflexivity|]. intros p.
      unfold result. rewrite Nat.add_0_r, Hc. reflexivity.
Qed.

Lemma renderStatsTable_run nts rows type s :
  renderStatsTable nts rows type s
  = match rows with
    | [] =>
        (Return tt,
         with_dom (set_statsTableBody [ placeholder_row 6 "통계 데이터가 없습니다." ]) s,
         [ Cleared stats_table ])
    | _ =>
        let '(r, s', t) :=
          forEach_from 0 (append_stats_row nts type) rows
            (with_dom (set_statsTableBody []) s) in
        (r, s', Cleared stats_table :: t)
    end.
Proof.
  unfold renderStatsTable.
  unfold bind at 1. unfold modify at 1. cbv iota beta.
  unfold bind at 1. unfold emit at 1. cbv iota beta.
  destruct rows as [|x rows].
  - destruct s as [j c t d i st en]. destruct d. reflexivity.
  - unfold forEach. fold (append_stats_row nts type).
    destruct (forEach_from 0 _ _ _) as [[r s'] t]. reflexivity.
Qed.

(** The outcome of renderStatsTable and the rows it leaves depend on the
    array and the type only. *)
Lemma renderStatsTable_shape nts rows type :
  exists r body,
    (forall s, renderStatsTable nts rows type s
               = (r, with_dom (set_statsTableBody body) s, [ Cleared stats_table ]))
    /\ (forall e, r = Throw e -> e = TypeError).
Proof.
  destruct rows as [|x rows].
  - exists (Return tt), [ placeholder_row 6 "통계 데이터가 없습니다." ].
    split; [intros s; apply renderStatsTable_run | discriminate].
  - destruct (forEach_stats_rows nts type (x :: rows) 0) as [rendered [E _]].
    exists (if (List.length rendered =? List.length (x :: rows))%nat
            then Return tt else Throw TypeError), rendered.
    split.
    + intros s. rewrite renderStatsTable_run, E.
      destruct s as [j c t d i st en]. destruct d. reflexivity.
    + destruct (_ =? _)%nat; intros e H; [discriminate | now injection H as <-].
Qed.

Lemma stats_row_label nts item i type s row :
  type = "duplicate" \/ type = "amount" ->
  result (stats_row nts item i type) s = Return row ->
  index_label row = nat_to_string (i + 1).
Proof.
  intros [-> | ->]; unfold result, stats_row; cbn [String.eqb Ascii.eqb Bool.eqb andb].
  - destruct (Stats.avg_weight item); cbn; intros H; [|discriminate].
    injection H as <-. reflexivity.
  - destruct (Stats.max_weight item); cbn; intros H; [|discriminate].
    injection H as <-. reflexivity.
Qed.

Lemma stats_row_throws nts item i s :
  (result (stats_row nts item i "duplicate") s = Throw TypeError
   <-> Stats.avg_weight item = None)
  /\ (result (stats_row nts item i "amount") s = Throw TypeError
      <-> Stats.max_weight item = None).
Proof.
  unfold result, stats_row. cbn [String.eqb Ascii.eqb Bool.eqb andb].
  split.
  - destruct (Stats.avg_weight item); cbn; split; intros H; try reflexivity; discriminate.
  - destruct (Stats.max_weight item); cbn; split; intros H; try reflexivity; discriminate.
Qed.

(** X18: renderStatsTable replaces the body of the statistics table.  For no
    row it leaves the placeholder row, one cell with a colspan of 6.
    Otherwise it appends one row per entry, in the order of the array; for
    the types "duplicate" and "amount" the first cell of a row numbers it
    from 1.  A row for "duplicate" needs the average weight of its entry, a row
    for "amount" the maximal weight: at the first entry without it the
    renderer throws a TypeError, and the rows appended before it stay in the
    table.  Nothing else on the page changes. *)
Theorem X18_renderStatsTable_rows :
  forall (Number_toString : number -> string) (rows : list Stats.row) (entry : Stats.row)
         (type : string) (s : page),
    let render l := renderStatsTable Number_toString l type in
    let body := statsTableBody (dom (after (render (entry :: rows)) s)) in
    (statsTableBody (dom (after (render []) s))
       = [ placeholder_row 6 "통계 데이터가 없습니다." ]
     /\ result (render []) s = Return tt)
    /\ after (render (entry :: rows)) s = with_dom (set_statsTableBody body) s
    /\ effects (render (entry :: rows)) s = [ Cleared stats_table ]
    /\ (List.length body <= List.length (entry :: rows))%nat
    /\ (forall j row,
          nth_error body j = Some row ->
          exists item,
            nth_error (entry :: rows) j = Some item
            /\ result (stats_row Number_toString item j type) s = Return row
            /\ (type = "duplicate" \/ type = "amount" ->
                index_label row = nat_to_string (j + 1)))
    /\ (List.length body = List.length (entry :: rows) ->
        result (render (entry :: rows)) s = Return tt)
    /\ ((List.length body < List.length (entry :: rows))%nat ->
        result (render (entry :: rows)) s = Throw TypeError
        /\ exists item,
             nth_error (entry :: rows) (List.length body) = Some item
             /\ result (stats_row Number_toString item (List.length body) type) s
                = Throw TypeError)
    /\ (forall item j,
          (result (stats_row Number_toString item j "duplicate") s = Throw TypeError
           <-> Stats.avg_weight item = None)
          /\ (result (stats_row Number_toString item j "amount") s = Throw TypeError
              <-> Stats.max_weight item = None)).
Proof.
  intros nts rows entry type s render body.
  split.
  { unfold render, after, result. rewrite renderStatsTable_run. cbn [fst snd].
    split; [|reflexivity]. destruct s as [j c t d i st en]. destruct d. reflexivity. }
  destruct (forEach_stats_rows nts type (entry :: rows) 0) as [rendered [E [L [N T]]]].
  assert (R : render (entry :: rows) s
              = (if (List.length rendered =? List.length (entry :: rows))%nat
                 then Return tt else Throw TypeError,
                 with_dom (set_statsTableBody rendered) s, [ Cleared stats_table ])).
  { unfold render. rewrite renderStatsTable_run, E.
    destruct s as [j c t d i st en]. destruct d. reflexivity. }
  assert (B : body = rendered).
  { unfold body, after. rewrite R. destruct s as [j c t d i st en]. destruct d. reflexivity. }
  unfold after, effects, result. rewrite R. cbn [fst snd]. rewrite B.
  split; [reflexivity|]. split; [reflexivity|]. split; [exact L|].
  split.
  { intros j row H. destruct (N j row H) as [item [H1 H2]]. exists item.
    split; [exact H1|]. split; [apply H2|]. intros Ht.
    apply (stats_row_label nts item j type s row Ht). apply H2. }
  split; [intros H; now rewrite H, Nat.eqb_refl|].
  split.
  { intros H. destruct (Nat.eqb_spec (List.length rendered) (List.length (entry :: rows)));
      [lia|].
    split; [reflexivity|]. destruct (T H) as [item [H1 H2]]. exists item.
    split; [exact H1 | apply H2]. }
  intros item j. apply stats_row_throws.
Qed.

Lemma updateStatsTableHeaders_run type s :
  updateStatsTableHeaders type s
  = (Return tt,
     with_dom (set_statsTableHead (statsTableHead (dom (after (updateStatsTableHeaders type) s))))
       s, []).
Proof.
  unfold after, updateStatsTableHeaders.
  destruct (type =? "duplicate"); [|destruct (type =? "amount")];
    destruct s as [j c t d i st en]; destruct d; reflexivity.
Qed.

Lemma statsTableHead_indep type s p :
  statsTableHead (dom s) = statsTableHead (dom p) ->
  statsTableHead (dom (after (updateStatsTableHeaders type) s))
  = statsTableHead (dom (after (updateStatsTableHeaders type) p)).
Proof.
  intros H. unfold after, updateStatsTableHeaders.
  destruct (type =? "duplicate"); [|destruct (type =? "amount")];
    destruct s as [j c t d i st en]; destruct d;
    destruct p as [j' c' t' d' i' st' en']; destruct d'; try reflexivity. exact H.
Qed.

(** What loadStatsData does with a reply that is a success and decodes. *)
Lemma loadStatsData_run nts enc net s data :
  stats_reply net (requests (env s)) (stats_request enc s) = Responded true (Some data) ->
  let type := statsTypeSelect_value (inputs s) in
  let theme := themeSelect_value (inputs s) in
  let s1 :=
    after (updateStatsTableHeaders type)
      (with_text (set_stats_date_text ("기준일: " ++ Stats.date data))
         (bump (loading_on "통계 데이터를 불러오는 중입니다..." s))) in
  loadStatsData nts enc net s
  = let '(r, s2, t2) := renderStatsTable nts (stats_rows type theme data) type s1 in
    (Return tt, loading_off s2,
     [ Overlay true; Fetch "GET" (stats_request enc s) ] ++ t2
     ++ match r with
        | Throw e => [ ConsoleError "Error loading stats data:" e;
                       Alert "통계 데이터를 가져오는 데 실패했습니다." ]
        | Return _ => []
        end
     ++ [ Overlay false ])%list.
Proof.
  intros H type theme s1. unfold loadStatsData. fold_guarded.
  rewrite guarded_run, run_bind. unfold get at 1. cbv iota beta zeta.
  rewrite run_bind, fetch_run.
  change (requests (env (loading_on _ s))) with (requests (env s)).
  change (inputs (loading_on _ s)) with (inputs s).
  fold type theme. unfold stats_request in H. fold type theme in H. rewrite H.
  cbv iota beta. unfold check_ok, json.
  unfold bind at 1. unfold bind at 1. cbn [fst snd ret].
  unfold bind at 1. unfold modify at 1. cbv iota beta.
  unfold bind at 1. rewrite updateStatsTableHeaders_run. cbv iota beta.
  fold (stats_rows type theme data).
  unfold stats_request. fold type theme.
  match goal with |- context [renderStatsTable nts _ type ?p] =>
    replace p with s1
  end.
  - destruct (renderStatsTable nts (stats_rows type theme data) type s1) as [[[[]|e] s2] t2];
      cbn [List.app]; rewrite <- ?app_assoc; reflexivity.
  - unfold s1. unfold after at 1. rewrite updateStatsTableHeaders_run. reflexivity.
Qed.

(** X19: when loadStatsData gets its reply, it shows the date of the reply,
    sets the header of the table for the type of the selector, and renders,
    with a theme picked for the type "duplicate", the field duplicate_stocks
    of the reply, and otherwise the field stocks; a missing field counts as
    no row.  The header is set before the rows: it is that of the type also
    when a row then fails.  For "duplicate" with a theme the request goes to
    the URL of the theme, for "duplicate" without one to the duplicate
    stocks, for "amount" to the amount ranking whatever the theme.  The
    variables, the panels, the selectors and the other tables stay as they
    are. *)
Theorem X19_stats_loaded :
  forall (Number_toString : number -> string) (encodeURIComponent : string -> string)
         (net : network) (s : page) (data : Stats.t),
    stats_reply net (requests (env s)) (stats_request encodeURIComponent s)
    = Responded true (Some data) ->
    let type := statsTypeSelect_value (inputs s) in
    let theme := themeSelect_value (inputs s) in
    let s' := after (loadStatsData Number_toString encodeURIComponent net) s in
    let or_none (l : option (list Stats.row)) := match l with Some l => l | None => [] end in
    stats_date_text (text s') = "기준일: " ++ Stats.date data
    /\ statsTableHead (dom s') = statsTableHead (dom (after (updateStatsTableHeaders type) s))
    /\ statsTableBody (dom s')
       = statsTableBody
           (dom (after (renderStatsTable Number_toString (stats_rows type theme data) type) s))
    /\ (type = "duplicate" ->
        statsTableHead (dom s')
        = [ "순위"; "종목명"; "종목코드"; "중복 ETF 수"; "총 평가금액"; "평균 비중(%)" ]
        /\ (theme <> EmptyString ->
            stats_request encodeURIComponent s
            = "/api/stats/theme/" ++ encodeURIComponent theme
            /\ stats_rows type theme data = or_none (Stats.duplicate_stocks data))
        /\ (theme = EmptyString ->
            stats_request encodeURIComponent s = "/api/stats/duplicate-stocks"
            /\ stats_rows type theme data = or_none (Stats.stocks data)))
    /\ (type = "amount" ->
        statsTableHead (dom s')
        = [ "순위"; "종목명"; "종목코드"; "총 평가금액"; "포함 ETF 수"; "최대 비중(%)" ]
        /\ stats_request encodeURIComponent s = "/api/stats/amount-ranking"
        /\ stats_rows type theme data = or_none (Stats.stocks data))
    /\ js s' = js s
    /\ classes s' = classes s
    /\ inputs s' = inputs s
    /\ etfList (dom s') = etfList (dom s)
    /\ holdingsTableBody (dom s') = holdingsTableBody (dom s).
Proof.
  intros nts enc net s data H type theme s' or_none.
  pose proof (loadStatsData_run nts enc net s data H) as R. cbv zeta in R.
  fold type theme in R.
  destruct (renderStatsTable_shape nts (stats_rows type theme data) type)
    as [r [body [Sh _]]].
  rewrite Sh in R.
  assert (E : s' = loading_off (with_dom (set_statsTableBody body)
                (after (updateStatsTableHeaders type)
                   (with_text (set_stats_date_text ("기준일: " ++ Stats.date data))
                      (bump (loading_on "통계 데이터를 불러오는 중입니다..." s)))))).
  { unfold s', after at 1. rewrite R. reflexivity. }
  assert (B : statsTableBody (dom (after (renderStatsTable nts
                (stats_rows type theme data) type) s)) = body).
  { unfold after. rewrite Sh. destruct s as [j c t d i st en]. destruct d. reflexivity. }
  assert (Hd : statsTableHead (dom s')
               = statsTableHead (dom (after (updateStatsTableHeaders type) s))).
  { rewrite E.
    rewrite (statsTableHead_indep type s
               (with_text (set_stats_date_text ("기준일: " ++ Stats.date data))
                  (bump (loading_on "통계 데이터를 불러오는 중입니다..." s)))) by reflexivity.
    unfold after. rewrite updateStatsTableHeaders_run.
    destruct s as [j c t d i st en]. destruct d. reflexivity. }
  rewrite B, Hd.
  assert (F : stats_date_text (text s') = "기준일: " ++ Stats.date data
              /\ js s' = js s /\ classes s' = classes s /\ inputs s' = inputs s
              /\ etfList (dom s') = etfList (dom s)
              /\ holdingsTableBody (dom s') = holdingsTableBody (dom s)).
  { rewrite E. unfold after. rewrite updateStatsTableHeaders_run.
    destruct s as [j c t d i st en]. destruct d. repeat split. }
  destruct F as [F1 [F2 [F3 [F4 [F5 F6]]]]].
  split; [exact F1|]. split; [reflexivity|].
  split; [rewrite E; destruct s as [j c t d i st en]; destruct d; reflexivity|].
  split.
  { intros T. unfold stats_request, stats_rows. fold type theme. rewrite T.
    split; [reflexivity|]. unfold stats_url. cbn [String.eqb Ascii.eqb Bool.eqb andb].
    split; intros Th.
    - destruct theme; [contradiction|]. split; reflexivity.
    - rewrite Th. split; reflexivity. }
  split.
  { intros T. unfold stats_request, stats_rows. fold type theme. rewrite T.
    split; [reflexivity|]. split; reflexivity. }
  repeat split; assumption.
Qed.

(** The hypothesis of X19 on the example page in the statistics view: the
    reply has no row, and the table shows the placeholder under the header
    of the type "duplicate". *)
Lemma X19_stats_loaded_witness :
  stats_reply online (requests (env visited_page)) (stats_request example_encode visited_page)
  = Responded true
      (Some {| Stats.date := "2024-01-03"; Stats.stocks := Some [];
               Stats.duplicate_stocks := None |})
  /\ stats_date_text
       (text (after (loadStatsData example_toString example_encode online) visited_page))
     = "기준일: 2024-01-03".
Proof.
  split; [reflexivity|].
  exact (proj1 (X19_stats_loaded example_toString example_encode online visited_page _
                  eq_refl)).
Defined.

Lemma loadStatsData_request nts enc net s :
  In (Fetch "GET" (stats_request enc s)) (effects (loadStatsData nts enc net) s).
Proof.
  destruct (loadStatsData_effects nts enc net s) as [re H]. cbv zeta in H. rewrite H.
  right. left. reflexivity.
Qed.

(** X20: a change of the theme selector reloads the statistics when the page
    is in the statistics view, in one request, for the type of the selector
    and the theme picked; in the ETF view it requests nothing and changes
    nothing but the value of the selector.  For the type "duplicate" the
    request goes to the URL of the theme picked, or to the duplicate stocks
    when the theme picked is the empty one; for the type "amount" the theme
    does not matter. *)
Theorem X20_theme_change :
  forall (Number_toString : number -> string) (encodeURIComponent : string -> string)
         (net : network) (s : page) (value : string),
    let change := on_theme_change Number_toString encodeURIComponent net value in
    let picked := with_inputs (set_themeSelect_value value) s in
    let type := statsTypeSelect_value (inputs s) in
    themeSelect_value (inputs (after change s)) = value
    /\ match currentView (js s) with
       | stats =>
           change s = loadStatsData Number_toString encodeURIComponent net picked
           /\ fetches (effects change s) = 1%nat
           /\ In (Fetch "GET" (stats_url encodeURIComponent type value)) (effects change s)
       | etf => change s = (Return tt, picked, [])
       end
    /\ stats_url encodeURIComponent "duplicate" value
       = (if truthy value then "/api/stats/theme/" ++ encodeURIComponent value
          else "/api/stats/duplicate-stocks")
    /\ stats_url encodeURIComponent "amount" value = "/api/stats/amount-ranking".
Proof.
  intros nts enc net s value change picked type.
  assert (R : change s = match currentView (js s) with
                         | stats => loadStatsData nts enc net picked
                         | etf => (Return tt, picked, [])
                         end).
  { unfold change, on_theme_change.
    unfold bind at 1. unfold modify at 1. cbv iota beta.
    unfold bind at 1. unfold get at 1. cbv iota beta. fold picked.
    change (currentView (js picked)) with (currentView (js s)).
    destruct (currentView (js s)); cbn [view_eqb]; [reflexivity|].
    destruct (loadStatsData nts enc net picked) as [[r s2] t2]. reflexivity. }
  split.
  { unfold after. rewrite R. destruct (currentView (js s)); [reflexivity|].
    pose proof (inputs_loadStatsData nts enc net (inputs picked) picked eq_refl) as I.
    unfold after in I. rewrite I. destruct s as [j c t d i st en]. reflexivity. }
  split.
  { unfold effects. rewrite R. destruct (currentView (js s)); [reflexivity|].
    split; [reflexivity|]. split; [apply loadStatsData_fetches|].
    apply (loadStatsData_request nts enc net picked). }
  split; reflexivity.
Qed.

(** ** The lists fetched at the start *)

Lemma fetchEtfList_run net s :
  fetchEtfList net s
  = match etfs_reply net (requests (env s)) "/api/etfs" with
    | Responded true (Some etfs) =>
        (Return tt, listed etfs (bump s), [ Fetch "GET" "/api/etfs"; Cleared etf_list ])
    | r =>
        (Return tt, bump s,
         Fetch "GET" "/api/etfs"
         :: match failure r with
            | Some e => [ ConsoleError "Error fetching ETF list:" e ]
            | None => []
            end)
    end.
Proof.
  unfold fetchEtfList, try_catch. rewrite run_bind, fetch_run.
  destruct (etfs_reply net (requests (env s)) "/api/etfs") as [|[|] [d|]];
    try reflexivity.
  cbv iota beta. unfold check_ok, json, assign.
  unfold bind at 1. unfold bind at 1. cbn [fst snd ret].
  unfold bind at 1. unfold modify at 1. cbv iota beta.
  rewrite renderEtfList_run. reflexivity.
Qed.

Lemma forEach_append_options l : forall i s,
  forEach_from i
    (fun (theme : string) (_ : nat) =>
       modify (with_inputs (fun c =>
         set_themeSelect_options (themeSelect_options c ++ [ (theme, theme) ])%list c))) l s
  = (Return tt,
     with_inputs (fun c =>
       set_themeSelect_options (themeSelect_options c ++ map (fun t => (t, t)) l)%list c) s,
     []).
Proof.
  induction l as [|x l IH]; intros i s; simpl.
  - unfold ret. destruct s as [j c t d i0 st en]. destruct i0.
    unfold with_inputs, set_themeSelect_options. simpl. rewrite app_nil_r. reflexivity.
  - rewrite run_bind. unfold modify at 1. rewrite IH.
    destruct s as [j c t d i0 st en]. destruct i0.
    unfold with_inputs, set_themeSelect_options. simpl. rewrite <- app_assoc. reflexivity.
Qed.

Lemma loadThemes_run net s :
  loadThemes net s
  = match themes_reply net (requests (env s)) "/api/config/themes" with
    | Responded true (Some r) =>
        (Return tt, themed (themes_of r) (bump s), [ Fetch "GET" "/api/config/themes" ])
    | r =>
        (Return tt, bump s,
         Fetch "GET" "/api/config/themes"
         :: match failure r with
            | Some e => [ ConsoleError "Error loading themes:" e ]
            | None => []
            end)
    end.
Proof.
  unfold loadThemes, try_catch. rewrite run_bind, fetch_run.
  destruct (themes_reply net (requests (env s)) "/api/config/themes") as [|[|] [d|]];
    try reflexivity.
  cbv iota beta zeta. unfold check_ok, json, assign.
  unfold bind at 1. unfold bind at 1. cbn [fst snd ret].
  unfold bind at 1. unfold modify at 1. cbv iota beta.
  unfold bind at 1. unfold modify at 1. cbv iota beta.
  unfold forEach. rewrite forEach_append_options.
  unfold themed, theme_options, themes_of.
  destruct s as [j c t dm i0 st en]. destruct i0. reflexivity.
Qed.

(** X21: loadThemes issues its one request and, with the themes of the
    reply (none when the reply has no such field), sets the array of themes
    and fills the theme selector anew: the option for every theme, with the
    empty value, which is the value of the selector afterwards, then one
    option per theme, in order, with the theme as value and as text.  When
    the request fails nothing changes.  In both cases the function returns
    and leaves the overlay, the text of the overlay and the panels alone. *)
Theorem X21_loadThemes_options :
  forall (net : network) (s : page),
    let s' := after (loadThemes net) s in
    match themes_reply net (requests (env s)) "/api/config/themes" with
    | Responded true (Some r) =>
        let ts := match Themes.themes r with Some l => l | None => [] end in
        allThemes (js s') = ts
        /\ themeSelect_options (inputs s') = (EmptyString, "전체") :: map (fun t => (t, t)) ts
        /\ themeSelect_value (inputs s') = EmptyString
        /\ themeSelect_disabled (inputs s') = themeSelect_disabled (inputs s)
        /\ s' = themed ts (bump s)
    | _ => s' = bump s
    end
    /\ result (loadThemes net) s = Return tt
    /\ style s' = style s /\ text s' = text s /\ classes s' = classes s /\ dom s' = dom s
    /\ requests (env s') = S (requests (env s)).
Proof.
  intros net s s'. subst s'. unfold after, result. rewrite loadThemes_run.
  destruct (themes_reply net (requests (env s)) "/api/config/themes") as [|[|] [r|]];
    cbn [fst snd]; repeat split.
Qed.

Lemma initializeApp_run net s ok m :
  message_reply net (requests (env s)) "/api/system/initialize" = Responded ok (Some m) ->
  let s1 := bump (loading_on "애플리케이션을 초기화하고 있습니다. 잠시만 기다려주세요..." s) in
  initializeApp net s
  = (Return tt, loading_off (after (loadThemes net) (after (fetchEtfList net) s1)),
     [ Overlay true; Fetch "POST" "/api/system/initialize"; Alert (Message.message m) ]
     ++ effects (fetchEtfList net) s1
     ++ effects (loadThemes net) (after (fetchEtfList net) s1)
     ++ [ Overlay false ])%list.
Proof.
  intros H s1. unfold initializeApp. fold_guarded.
  rewrite guarded_run, run_bind, fetch_run.
  change (requests (env (loading_on _ s))) with (requests (env s)).
  rewrite H. cbv iota beta. unfold json.
  unfold bind at 1. cbn [fst snd ret].
  unfold bind at 1. unfold alert, emit at 1. cbv iota beta.
  fold s1. rewrite run_bind.
  unfold effects, after.
  rewrite (fetchEtfList_run net s1).
  destruct (etfs_reply net (requests (env s1)) "/api/etfs") as [|[|] [d|]];
    cbv iota beta; cbn [fst snd]; rewrite loadThemes_run;
    destruct (themes_reply net _ "/api/config/themes") as [|[|] [r|]];
    reflexivity.
Qed.

Lemma initializeApp_run_failure net s e :
  failure_unchecked (message_reply net (requests (env s)) "/api/system/initialize") = Some e ->
  after (initializeApp net) s
  = loading_off
      (bump (loading_on "애플리케이션을 초기화하고 있습니다. 잠시만 기다려주세요..." s)).
Proof.
  intros H. unfold after, initializeApp. fold_guarded.
  rewrite guarded_run, run_bind, fetch_run.
  change (requests (env (loading_on _ s))) with (requests (env s)).
  destruct (message_reply net (requests (env s)) "/api/system/initialize") as [|ok [d|]];
    simpl in H; try discriminate; reflexivity.
Qed.

(** X22: once the call of initializeApp has answered with a body that
    decodes, the function alerts the message of the body and requests the
    ETFs and then the themes, whatever the first of the two requests comes
    to: it issues three requests, in this order, raises the one alert and
    never the alert of its own error path, and logs once for each of the two
    lists that fails.  The ETFs of the reply become the array and the list
    shown, the themes of the reply the array of themes and the options of the
    selector; a list that fails leaves its part of the page as it was. *)
Theorem X22_initializeApp_lists :
  forall (net : network) (s : page) (ok : bool) (m : Message.t),
    message_reply net (requests (env s)) "/api/system/initialize" = Responded ok (Some m) ->
    let n := requests (env s) in
    let tr := effects (initializeApp net) s in
    let s' := after (initializeApp net) s in
    let failed {B} (r : reply B) := match failure r with Some _ => 1%nat | None => 0%nat end in
    filter is_fetch tr
    = [ Fetch "POST" "/api/system/initialize"; Fetch "GET" "/api/etfs";
        Fetch "GET" "/api/config/themes" ]
    /\ filter is_alert tr = [ Alert (Message.message m) ]
    /\ logs tr = (failed (etfs_reply net (S n) "/api/etfs")
                  + failed (themes_reply net (S (S n)) "/api/config/themes"))%nat
    /\ requests (env s') = S (S (S n))
    /\ match etfs_reply net (S n) "/api/etfs" with
       | Responded true (Some etfs) =>
           allEtfs (js s') = etfs /\ etfList (dom s') = list_items etfs
       | _ => allEtfs (js s') = allEtfs (js s) /\ etfList (dom s') = etfList (dom s)
       end
    /\ match themes_reply net (S (S n)) "/api/config/themes" with
       | Responded true (Some r) =>
           allThemes (js s') = themes_of r
           /\ themeSelect_options (inputs s') = theme_options (themes_of r)
       | _ =>
           allThemes (js s') = allThemes (js s)
           /\ themeSelect_options (inputs s') = themeSelect_options (inputs s)
       end
    /\ currentEtfData (js s') = currentEtfData (js s)
    /\ currentView (js s') = currentView (js s)
    /\ classes s' = classes s.
Proof.
  intros net s ok m H n tr s' failed.
  pose proof (initializeApp_run net s ok m H) as R. cbv zeta in R.
  unfold tr, s', effects, after. rewrite R. cbn [fst snd]. clear R.
  unfold effects, after. rewrite fetchEtfList_run.
  change (requests (env (bump (loading_on _ s)))) with (S n).
  destruct (etfs_reply net (S n) "/api/etfs") as [|[|] [etfs|]]; cbn [fst snd];
    rewrite loadThemes_run;
    match goal with
    | |- context [themes_reply net (requests (env ?p)) _] =>
        change (requests (env p)) with (S (S n))
    end;
    destruct (themes_reply net (S (S n)) "/api/config/themes") as [|[|] [r|]];
    cbn [fst snd];
    destruct s as [j c t dm i0 st en]; destruct dm; destruct i0; repeat split.
Qed.

(** The hypothesis of X22 on the example page and network. *)
Lemma X22_initializeApp_lists_witness :
  message_reply online (requests (env blank_page)) "/api/system/initialize"
  = Responded true (Some {| Message.message := "완료" |})
  /\ filter is_alert (effects (initializeApp online) blank_page) = [ Alert "완료" ].
Proof.
  split; [reflexivity|].
  exact (proj1 (proj2 (X22_initializeApp_lists online blank_page true _ eq_refl))).
Defined.

(** X23: when the call of initializeApp is rejected or its body does not
    decode, neither the ETFs nor the themes are requested: the one request is
    the only one, and the page keeps its content, with the list and the theme
    selector as the document had them. *)
Theorem X23_initializeApp_failed :
  forall (net : network) (s : page) (e : exn),
    failure_unchecked (message_reply net (requests (env s)) "/api/system/initialize")
    = Some e ->
    same_content s (after (initializeApp net) s)
    /\ requests (env (after (initializeApp net) s)) = S (requests (env s))
    /\ fetches (effects (initializeApp net) s) = 1%nat.
Proof.
  intros net s e H. rewrite (initializeApp_run_failure net s e H).
  split; [apply same_content_entered|]. split; [reflexivity|].
  rewrite (initializeApp_failure net s e H). reflexivity.
Qed.

(** The hypothesis of X23 on the example page without a network. *)
Lemma X23_initializeApp_failed_witness :
  failure_unchecked (message_reply offline (requests (env blank_page))
                       "/api/system/initialize") = Some NetworkError
  /\ etfList (dom (after (initializeApp offline) blank_page)) = [].
Proof.
  split; [reflexivity|].
  destruct (X23_initializeApp_failed offline blank_page NetworkError eq_refl)
    as [[_ [_ [D _]]] _].
  rewrite D. reflexivity.
Defined.

(** ** The two views *)

Lemma switchView_stats_run nts enc net s :
  switchView nts enc net stats s
  = let '(r, s', t) := loadStatsData nts enc net (stats_entered s) in
    (r, s',
     [ PanelHidden etfDetails true; PanelHidden statsView false;
       PanelHidden welcomeMessage true ] ++ t)%list.
Proof.
  unfold switchView, assign, classList_add_hidden, classList_remove_hidden, bind, modify,
    emit.
  cbv iota beta. unfold stats_entered. cbn [set_panel].
  destruct (loadStatsData nts enc net _) as [[r s'] t]. reflexivity.
Qed.

Lemma on_view_toggle_run nts enc net s :
  on_view_toggle nts enc net s
  = switchView nts enc net (match currentView (js s) with etf => stats | stats => etf end) s.
Proof.
  unfold on_view_toggle. unfold bind at 1. unfold get at 1. cbv iota beta zeta.
  destruct (switchView nts enc net _ s) as [[r s2] t2]. reflexivity.
Qed.

(** What loadStatsData leaves as it is, whatever the reply. *)
Lemma loadStatsData_frame nts enc net s :
  let s' := after (loadStatsData nts enc net) s in
  js s' = js s /\ classes s' = classes s /\ inputs s' = inputs s
  /\ viewToggle_text (text s') = viewToggle_text (text s)
  /\ etfList (dom s') = etfList (dom s)
  /\ holdingsTableBody (dom s') = holdingsTableBody (dom s).
Proof.
  intros s'. subst s'.
  assert (P : preserves (fun p => js p = js s /\ classes p = classes s /\ inputs p = inputs s
                /\ viewToggle_text (text p) = viewToggle_text (text s)
                /\ etfList (dom p) = etfList (dom s)
                /\ holdingsTableBody (dom p) = holdingsTableBody (dom s))
              (loadStatsData nts enc net)).
  { unfold loadStatsData, showLoading, hideLoading, try_catch_finally, console_error, alert,
      fetch, check_ok, json, updateStatsTableHeaders, renderStatsTable, stats_row.
    repeat preserves_step fail. }
  apply P. repeat split.
Qed.

(** X24: the toggle in the ETF view goes to the statistics view: the detail
    panel and the welcome panel are hidden and the statistics panel shown,
    the button offers the ETF view, and then the statistics are loaded, in
    one request, for the type and the theme of the selectors.  The record
    loaded and its holdings stay in the variables, and the chart panel is as
    it was.  A second toggle goes back to the ETF view, and the button offers
    the statistics again. *)
Theorem X24_toggle_to_stats :
  forall (Number_toString : number -> string) (encodeURIComponent : string -> string)
         (net : network) (s : page),
    currentView (js s) = etf ->
    let toggle := on_view_toggle Number_toString encodeURIComponent net in
    let s' := after toggle s in
    currentView (js s') = stats
    /\ etfDetails_hidden (classes s') = true
    /\ welcomeMessage_hidden (classes s') = true
    /\ statsView_hidden (classes s') = false
    /\ chartContainer_hidden (classes s') = chartContainer_hidden (classes s)
    /\ viewToggle_text (text s') = "ETF 상세 보기"
    /\ currentEtfData (js s') = currentEtfData (js s)
    /\ holdingsData (js s') = holdingsData (js s)
    /\ (exists rest,
          effects toggle s
          = PanelHidden etfDetails true :: PanelHidden statsView false
            :: PanelHidden welcomeMessage true :: Overlay true
            :: Fetch "GET" (stats_request encodeURIComponent s) :: rest)
    /\ fetches (effects toggle s) = 1%nat
    /\ currentView (js (after toggle s')) = etf
    /\ viewToggle_text (text (after toggle s')) = "통계 보기".
Proof.
  intros nts enc net s V toggle s'.
  assert (R : toggle s = switchView nts enc net stats s).
  { unfold toggle. rewrite on_view_toggle_run, V. reflexivity. }
  rewrite switchView_stats_run in R.
  destruct (loadStatsData_frame nts enc net (stats_entered s)) as [F1 [F2 [F3 [F4 _]]]].
  pose proof (loadStatsData_fetches nts enc net (stats_entered s)) as Fe.
  destruct (loadStatsData_effects nts enc net (stats_entered s)) as [re Ef].
  cbv zeta in Ef.
  change (stats_request enc (stats_entered s)) with (stats_request enc s) in Ef.
  change (requests (env (stats_entered s))) with (requests (env s)) in Ef.
  unfold after, effects in F1, F2, F3, F4, Fe, Ef.
  assert (E : s' = snd (fst (loadStatsData nts enc net (stats_entered s)))
              /\ effects toggle s
                 = ([ PanelHidden etfDetails true; PanelHidden statsView false;
                      PanelHidden welcomeMessage true ]
                    ++ snd (loadStatsData nts enc net (stats_entered s)))%list).
  { unfold s', after, effects. rewrite R.
    destruct (loadStatsData nts enc net (stats_entered s)) as [[r s2] t2]. split; reflexivity. }
  destruct E as [E1 E2].
  assert (V' : currentView (js s') = stats) by (rewrite E1, F1; reflexivity).
  split; [exact V'|].
  split; [rewrite E1, F2; reflexivity|].
  split; [rewrite E1, F2; reflexivity|].
  split; [rewrite E1, F2; reflexivity|].
  split; [rewrite E1, F2; reflexivity|].
  split; [rewrite E1, F4; reflexivity|].
  split; [rewrite E1, F1; reflexivity|].
  split; [rewrite E1, F1; reflexivity|].
  split; [rewrite E2, Ef; eexists; reflexivity|].
  split.
  { rewrite E2. unfold fetches in *. rewrite filter_app, length_app, Fe. reflexivity. }
  unfold toggle, after. rewrite on_view_toggle_run, V', switchView_etf_run.
  split; reflexivity.
Qed.

(** The hypothesis of X24 on the example page with its ETF selected. *)
Lemma X24_toggle_to_stats_witness :
  let s := after_events example_toString ascii_toLowerCase example_encode online
             [ EtfClick 0 ] (after (initializeApp online) blank_page) in
  currentView (js s) = etf
  /\ statsView_hidden
       (classes (after (on_view_toggle example_toString example_encode online) s)) = false.
Proof.
  intros s.
  assert (V : currentView (js s) = etf) by (vm_compute; reflexivity).
  split; [exact V|].
  exact (proj1 (proj2 (proj2 (proj2
    (X24_toggle_to_stats example_toString example_encode online s V))))).
Defined.

(** *** The panels follow the view *)













(** ** The count selector *)

Lemma on_holdings_count_change_run nts v s :
  on_holdings_count_change nts v s
  = (Return tt,
     with_dom (set_holdingsTableBody (table_of nts (dataToShow v (holdingsData (js s)))))
       (with_inputs (set_holdingsCountSelect_value v) s),
     [ Cleared holdings_table ]).
Proof.
  unfold on_holdings_count_change. rewrite run_bind. unfold modify at 1. cbv iota beta.
  rewrite renderHoldingsTable_run. unfold table_of.
  destruct s as [j c t d i st en]. destruct i as [cv0 sv0 tv0 td0 to0].
  cbn [inputs js with_inputs set_holdingsCountSelect_value holdingsCountSelect_value].
  destruct (dataToShow v (holdingsData j)); reflexivity.
Qed.

(** X26: a change of the count selector renders the holdings table anew
    from the holdings array as it is, through the value picked; it requests
    nothing and leaves the variables alone.  The table depends on the value
    picked last only: picking a value after another gives what picking it
    alone gives, and picking the same value again changes nothing. *)
Theorem X26_count_change :
  forall (Number_toString : number -> string) (s : page) (v v0 : string),
    let change c := on_holdings_count_change Number_toString c in
    let s' := after (change v) s in
    holdingsCountSelect_value (inputs s') = v
    /\ holdingsTableBody (dom s')
       = table_of Number_toString (dataToShow v (holdingsData (js s)))
    /\ js s' = js s
    /\ effects (change v) s = [ Cleared holdings_table ]
    /\ requests (env s') = requests (env s)
    /\ after (change v0) s' = after (change v0) s
    /\ after (change v) s' = s'.
Proof.
  intros nts s v v0 change s'. unfold s', change, after, effects.
  rewrite !on_holdings_count_change_run. cbn [fst snd].
  destruct s as [j c t d i st en]. destruct d as [l hb sb sh].
  destruct i as [cv0 sv0 tv0 td0 to0]. repeat split.
Qed.

(** ** Requests *)

Lemma effects_bind {A B} (m : M A) (k : A -> M B) s :
  effects (bind m k) s
  = match result m s with
    | Return a => (effects m s ++ effects (k a) (after m s))%list
    | Throw _ => effects m s
    end.
Proof.
  unfold effects, result, after, bind. destruct (m s) as [[[a|e] s1] t1]; cbn [fst snd].
  - destruct (k a s1) as [[r s2] t2]. reflexivity.
  - reflexivity.
Qed.

Lemma emits_only_ret {A} Q (a : A) : emits_only Q (ret a).
Proof. intros s. constructor. Qed.

Lemma emits_only_get Q : emits_only Q get.
Proof. intros s. constructor. Qed.

Lemma emits_only_throw {A} Q e : emits_only Q (@throw A e).
Proof. intros s. constructor. Qed.

Lemma emits_only_modify Q f : emits_only Q (modify f).
Proof. intros s. constructor. Qed.

Lemma emits_only_emit (Q : effect -> Prop) e : Q e -> emits_only Q (emit e).
Proof. intros H s. constructor; [exact H | constructor]. Qed.

Lemma emits_only_bind {A B} Q (m : M A) (k : A -> M B) :
  emits_only Q m -> (forall a, emits_only Q (k a)) -> emits_only Q (bind m k).
Proof.
  intros Hm Hk s. rewrite effects_bind. destruct (result m s).
  - apply Forall_app. split; [apply Hm | apply Hk].
  - apply Hm.
Qed.

Lemma emits_only_try_catch {A} Q (body : M A) handler :
  emits_only Q body -> (forall e, emits_only Q (handler e)) ->
  emits_only Q (try_catch body handler).
Proof.
  intros Hb Hh s. specialize (Hb s). unfold effects, try_catch in *.
  destruct (body s) as [[[a|e] s1] t1]; cbn [snd] in *; [exact Hb|].
  specialize (Hh e s1). unfold effects in Hh.
  destruct (handler e s1) as [[r s2] t2]. cbn [snd] in *.
  apply Forall_app. split; assumption.
Qed.

Lemma emits_only_try_finally {A} Q (body : M A) cleanup :
  emits_only Q body -> emits_only Q cleanup -> emits_only Q (try_finally body cleanup).
Proof.
  intros Hb Hc s. specialize (Hb s). unfold effects, try_finally in *.
  destruct (body s) as [[r s1] t1]. cbn [snd] in Hb.
  specialize (Hc s1). unfold effects in Hc.
  destruct (cleanup s1) as [[[u|e] s2] t2]; cbn [snd] in *;
    apply Forall_app; split; assumption.
Qed.

Lemma emits_only_forEach_from {A} Q (f : A -> nat -> M unit) l :
  (forall x i, emits_only Q (f x i)) -> forall i, emits_only Q (forEach_from i f l).
Proof.
  intros Hf. induction l as [|x l IH]; intros i; simpl.
  - apply emits_only_ret.
  - apply emits_only_bind; [apply Hf | intros _; apply IH].
Qed.

Ltac emits_step :=
  lazymatch goal with
  | |- emits_only _ (bind _ _) => apply emits_only_bind; [|intros ?]
  | |- emits_only _ (ret _) => apply emits_only_ret
  | |- emits_only _ get => apply emits_only_get
  | |- emits_only _ (throw _) => apply emits_only_throw
  | |- emits_only _ (modify _) => apply emits_only_modify
  | |- emits_only _ (emit _) => apply emits_only_emit
  | |- emits_only _ (forEach _ _) => unfold forEach
  | |- emits_only _ (forEach_from _ _ _) => apply emits_only_forEach_from; intros ? ?
  | |- emits_only _ (try_catch _ _) => apply emits_only_try_catch; [|intros ?]
  | |- emits_only _ (try_finally _ _) => apply emits_only_try_finally
  | |- emits_only _ (match ?x with _ => _ end) => destruct x
  | |- emits_only _ ?m => first [ progress cbv zeta | let h := head_of m in unfold h ]
  end.

Lemma stats_url_not_start enc statsType theme :
  not_a_start_request (Fetch "GET" (stats_url enc statsType theme)).
Proof.
  unfold not_a_start_request, stats_url.
  destruct (statsType =? "duplicate"); [destruct (truthy theme)|
    destruct (statsType =? "amount")]; repeat split; discriminate.
Qed.

Lemma emits_listener nts lower enc net e :
  emits_only not_a_start_request (listener nts lower enc net e).
Proof.
  destruct e; unfold listener.
  all: repeat emits_step.
  all: try exact I.
  all: try (repeat split; discriminate).
  all: try apply stats_url_not_start.
Qed.

Lemma lists_kept_listener nts lower enc net e (etfs : list Etf.t) (ts : list string) :
  preserves (fun p => allEtfs (js p) = etfs /\ allThemes (js p) = ts)
    (listener nts lower enc net e).
Proof.
  destruct e; unfold listener.
  all: repeat preserves_step fail.
Qed.

(** X27: the ETFs and the themes are fetched at the start only.  No
    listener requests the list of ETFs, the themes or the initialisation
    again, and no listener changes the arrays [allEtfs] and [allThemes]: a
    refresh reloads the detail or the statistics, not the list. *)
Theorem X27_lists_fetched_once :
  forall (Number_toString : number -> string)
         (toLowerCase encodeURIComponent : string -> string) (net : network)
         (e : event) (s : page),
    let run := listener Number_toString toLowerCase encodeURIComponent net e in
    (forall method url,
       In (Fetch method url) (effects run s) ->
       url <> "/api/etfs" /\ url <> "/api/config/themes" /\ url <> "/api/system/initialize")
    /\ allEtfs (js (after run s)) = allEtfs (js s)
    /\ allThemes (js (after run s)) = allThemes (js s).
Proof.
  intros nts lower enc net e s run. split.
  - intros method url H.
    pose proof (emits_listener nts lower enc net e s) as F.
    rewrite Forall_forall in F. exact (F _ H).
  - exact (lists_kept_listener nts lower enc net e _ _ s (conj eq_refl eq_refl)).
Qed.

Lemma fetches_app (a b : list effect) : fetches (a ++ b) = (fetches a + fetches b)%nat.
Proof. unfold fetches. now rewrite filter_app, length_app. Qed.

Lemma fetchStockHistory_fetches net a b c s :
  fetches (effects (fetchStockHistory net a b c) s) = 1%nat.
Proof.
  unfold effects. rewrite fetchStockHistory_run.
  destruct (history_reply _ _ _) as [|[|] [d|]]; cbn [fst snd]; try reflexivity.
  destruct (weightChart (js s)); reflexivity.
Qed.

Lemma on_theme_change_run nts enc net value s :
  on_theme_change nts enc net value s
  = match currentView (js s) with
    | stats => loadStatsData nts enc net (with_inputs (set_themeSelect_value value) s)
    | etf => (Return tt, with_inputs (set_themeSelect_value value) s, [])
    end.
Proof.
  unfold on_theme_change.
  unfold bind at 1. unfold modify at 1. cbv iota beta.
  unfold bind at 1. unfold get at 1. cbv iota beta.
  change (currentView (js (with_inputs (set_themeSelect_value value) s)))
    with (currentView (js s)).
  destruct (currentView (js s)); cbn [view_eqb]; [reflexivity|].
  destruct (loadStatsData nts enc net _) as [[r s2] t2]. reflexivity.
Qed.

Lemma on_etf_click_effects nts enc net i s :
  effects (on_etf_click nts enc net i) s = []
  \/ exists t p pre,
       (pre = [] \/ pre = [ PanelHidden etfDetails false; PanelHidden statsView true;
                            PanelHidden welcomeMessage false ])
       /\ effects (on_etf_click nts enc net i) s
          = (pre ++ effects (fetchEtfDetails nts net t) p)%list.
Proof.
  destruct (nth_error (etfList (dom s)) i) as [target|] eqn:N.
  2: { left. unfold effects. rewrite on_etf_click_miss; [reflexivity | rewrite N; exact I]. }
  destruct (li_ticker target) as [t|] eqn:T.
  2: { left. unfold effects. rewrite on_etf_click_miss; [reflexivity|].
       rewrite N, T. exact I. }
  destruct (truthy t) eqn:Tr.
  2: { left. unfold effects. rewrite on_etf_click_miss; [reflexivity|].
       rewrite N, T. exact Tr. }
  right. exists t. unfold effects.
  rewrite (on_etf_click_hit nts enc net i s target t N T Tr), run_bind.
  set (s0 := with_dom _ s).
  destruct (view_eqb (currentView (js s)) stats).
  - rewrite switchView_etf_run. cbv iota beta.
    match goal with |- context [fetchEtfDetails nts net t ?q] => exists q end.
    eexists. split; [right; reflexivity|].
    destruct (fetchEtfDetails nts net t _) as [[r s2] t2]. reflexivity.
  - exists s0, []. split; [left; reflexivity|]. unfold ret. cbv iota beta.
    destruct (fetchEtfDetails nts net t s0) as [[r s2] t2]. reflexivity.
Qed.

Lemma on_holdings_click_effects net i s :
  effects (on_holdings_click net i) s = []
  \/ exists a b c,
       effects (on_holdings_click net i) s = effects (fetchStockHistory net a b c) s.
Proof.
  assert (E : forall m : M unit,
             snd (let '(r, s2, t2) := m s in (r, s2, ([] ++ t2)%list)) = snd (m s))
    by (intros m; destruct (m s) as [[r s2] t2]; reflexivity).
  unfold effects, on_holdings_click, bind, get. cbv iota beta.
  destruct (nth_error (holdingsTableBody (dom s)) i) as [row|]; [|left; reflexivity].
  destruct (stockTicker row) as [tk|]; [|left; reflexivity].
  destruct (currentEtfData (js s)) as [d|]; [|left; reflexivity].
  destruct (truthy tk); [|left; reflexivity].
  right. eexists. eexists. eexists. apply E.
Qed.

Lemma on_view_toggle_effects nts enc net s :
  effects (on_view_toggle nts enc net) s
  = match currentView (js s) with
    | etf =>
        ([ PanelHidden etfDetails true; PanelHidden statsView false;
           PanelHidden welcomeMessage true ]
         ++ effects (loadStatsData nts enc net) (stats_entered s))%list
    | stats =>
        [ PanelHidden etfDetails false; PanelHidden statsView true;
          PanelHidden welcomeMessage false ]
    end.
Proof.
  unfold effects. rewrite on_view_toggle_run. destruct (currentView (js s)).
  - rewrite switchView_stats_run.
    destruct (loadStatsData nts enc net (stats_entered s)) as [[r s2] t2]. reflexivity.
  - rewrite switchView_etf_run. reflexivity.
Qed.

Lemma on_etf_click_fetches nts enc net i s :
  (fetches (effects (on_etf_click nts enc net i) s) <= 1)%nat.
Proof.
  destruct (on_etf_click_effects nts enc net i s) as [E|[t [p [pre [P E]]]]]; rewrite E.
  - unfold fetches. simpl. lia.
  - rewrite fetches_app, (proj1 (fetchEtfDetails_fetches nts net t p)).
    destruct P as [-> | ->]; unfold fetches; simpl; lia.
Qed.

Lemma on_holdings_click_fetches net i s :
  (fetches (effects (on_holdings_click net i) s) <= 1)%nat.
Proof.
  destruct (on_holdings_click_effects net i s) as [E|[a [b [c E]]]]; rewrite E.
  - unfold fetches. simpl. lia.
  - rewrite fetchStockHistory_fetches. lia.
Qed.

Lemma reload_fetches nts enc net s p :
  (fetches (effects (reload nts enc net s) p) <= 1)%nat.
Proof.
  unfold reload.
  destruct (querySelector_active (etfList (dom s))) as [a|]; destruct (currentView (js s)).
  - rewrite (proj1 (fetchEtfDetails_fetches nts net _ p)). lia.
  - rewrite loadStatsData_fetches. lia.
  - unfold fetches. simpl. lia.
  - rewrite loadStatsData_fetches. lia.
Qed.

Lemma on_refresh_click_fetches nts enc net s :
  let n := fetches (effects (on_refresh_click nts enc net) s) in
  n = 1%nat \/ n = 2%nat.
Proof.
  intros n.
  destruct (message_reply net (requests (env s)) "/api/system/update") as [|ok [m|]] eqn:E.
  - left. unfold n. rewrite (on_refresh_click_failure nts enc net s NetworkError);
      [reflexivity|]. rewrite E. reflexivity.
  - pose proof (reload_fetches nts enc net s
                  (bump (loading_on "최신 데이터로 업데이트 중입니다..." s))) as R.
    assert (N : n = (1 + fetches (effects (reload nts enc net s)
                           (bump (loading_on "최신 데이터로 업데이트 중입니다..." s))))%nat).
    { unfold n. unfold effects at 1. rewrite (on_refresh_click_decoded nts enc net s ok m E).
      cbn [snd]. rewrite !fetches_app. unfold fetches at 1 3. simpl. lia. }
    lia.
  - left. unfold n. rewrite (on_refresh_click_failure nts enc net s SyntaxError);
      [reflexivity|]. rewrite E. reflexivity.
Qed.

(** X28: the number of requests of an event.  The search box, the count
    selector and the export button request nothing (the export is a
    navigation).  A click in the list of ETFs or on a holdings row issues at
    most one request; the toggle issues one when it enters the statistics view
    and none when it leaves it; a change of the statistics type or of the theme
    issues one in the statistics view and none in the ETF view.  The refresh
    issues its update call and at most one reload.  initializeApp issues one
    request or, when its call has answered, three. *)
Theorem X28_requests_per_event :
  forall (Number_toString : number -> string)
         (toLowerCase encodeURIComponent : string -> string) (net : network)
         (e : event) (s : page),
    let n := fetches (effects (listener Number_toString toLowerCase encodeURIComponent net e) s) in
    let in_stats := match currentView (js s) with stats => 1%nat | etf => 0%nat end in
    match e with
    | SearchInput _ | HoldingsCountChange _ | ExportClick => n = 0%nat
    | EtfClick _ | HoldingsClick _ => (n <= 1)%nat
    | ViewToggleClick => n = (1 - in_stats)%nat
    | StatsTypeChange _ | ThemeChange _ => n = in_stats
    | RefreshClick => n = 1%nat \/ n = 2%nat
    end
    /\ (fetches (effects (initializeApp net) s) = 1%nat
        \/ fetches (effects (initializeApp net) s) = 3%nat).
Proof.
  intros nts lower enc net e s n in_stats. split.
  - subst n in_stats. destruct e; unfold listener.
    + unfold effects. rewrite on_search_input_run. reflexivity.
    + apply on_etf_click_fetches.
    + unfold effects. rewrite on_holdings_count_change_run. reflexivity.
    + apply on_holdings_click_fetches.
    + apply on_refresh_click_fetches.
    + unfold effects, on_export_click, bind, get, alert, emit.
      destruct (currentEtfData (js s)); reflexivity.
    + unfold effects. rewrite on_view_toggle_run.
      destruct (currentView (js s)).
      * rewrite switchView_stats_run.
        pose proof (loadStatsData_fetches nts enc net (stats_entered s)) as F.
        unfold effects in F.
        destruct (loadStatsData nts enc net (stats_entered s)) as [[r s2] t2].
        cbn [snd] in *. rewrite fetches_app, F. reflexivity.
      * rewrite switchView_etf_run. reflexivity.
    + unfold effects. rewrite on_stats_type_change_run.
      destruct (currentView (js s)); [reflexivity|]. apply loadStatsData_fetches.
    + unfold effects. rewrite on_theme_change_run.
      destruct (currentView (js s)); [reflexivity|]. apply loadStatsData_fetches.
  - destruct (message_reply net (requests (env s)) "/api/system/initialize")
      as [|ok [m|]] eqn:E.
    + left. rewrite (initializeApp_failure net s NetworkError); [reflexivity|].
      rewrite E. reflexivity.
    + right. rewrite (initializeApp_decoded net s ok m E).
      rewrite !fetches_app, fetchEtfList_effects, loadThemes_effects.
      destruct (failure _); destruct (failure _); reflexivity.
    + left. rewrite (initializeApp_failure net s SyntaxError); [reflexivity|].
      rewrite E. reflexivity.
Qed.

(** ** Requests and the overlay *)

Lemma overlay_after_app a : forall up b,
  overlay_after up (a ++ b) = overlay_after (overlay_after up a) b.
Proof.
  induction a as [|e a IH]; intros up b; [reflexivity|].
  destruct e; simpl; apply IH.
Qed.

Lemma fetches_covered_app a : forall up b,
  fetches_covered up (a ++ b)
  = fetches_covered up a && fetches_covered (overlay_after up a) b.
Proof.
  induction a as [|e a IH]; intros up b; [reflexivity|].
  destruct e; simpl; rewrite ?IH; try reflexivity.
  now rewrite andb_assoc.
Qed.

Lemma under_overlay_fetchEtfDetails nts net t s :
  under_overlay (effects (fetchEtfDetails nts net t) s).
Proof.
  intros up. unfold effects. rewrite fetchEtfDetails_run.
  destruct (comparison_reply _ _ _) as [|[|] [d|]]; cbn [fst snd];
    try (split; reflexivity).
  destruct (weightChart (js s)); split; reflexivity.
Qed.

Lemma under_overlay_fetchStockHistory net a b c s :
  under_overlay (effects (fetchStockHistory net a b c) s).
Proof.
  intros up. unfold effects. rewrite fetchStockHistory_run.
  destruct (history_reply _ _ _) as [|[|] [d|]]; cbn [fst snd];
    try (split; reflexivity).
  destruct (weightChart (js s)); split; reflexivity.
Qed.

Lemma under_overlay_loadStatsData nts enc net s :
  under_overlay (effects (loadStatsData nts enc net) s).
Proof.
  intros up. destruct (loadStatsData_effects nts enc net s) as [re H]. cbv zeta in H.
  rewrite H. destruct (failure _); [split; reflexivity|].
  destruct re; split; reflexivity.
Qed.

Lemma under_overlay_reload nts enc net s p up :
  fetches_covered up (effects (reload nts enc net s) p) = true
  /\ (overlay_after up (effects (reload nts enc net s) p) = false
      \/ effects (reload nts enc net s) p = []).
Proof.
  unfold reload.
  destruct (querySelector_active (etfList (dom s))) as [a|]; destruct (currentView (js s)).
  - destruct (under_overlay_fetchEtfDetails nts net
                (match li_ticker a with Some t => t | None => "undefined" end) p up).
    split; [assumption | left; assumption].
  - destruct (under_overlay_loadStatsData nts enc net p up).
    split; [assumption | left; assumption].
  - split; [reflexivity | right; reflexivity].
  - destruct (under_overlay_loadStatsData nts enc net p up).
    split; [assumption | left; assumption].
Qed.

Lemma under_overlay_on_refresh_click nts enc net s :
  under_overlay (effects (on_refresh_click nts enc net) s).
Proof.
  intros up.
  destruct (message_reply net (requests (env s)) "/api/system/update") as [|ok [m|]] eqn:E.
  - rewrite (on_refresh_click_failure nts enc net s NetworkError);
      [split; reflexivity | rewrite E; reflexivity].
  - unfold effects at 1 2. rewrite (on_refresh_click_decoded nts enc net s ok m E).
    cbn [snd].
    destruct (under_overlay_reload nts enc net s
                (bump (loading_on "최신 데이터로 업데이트 중입니다..." s)) true) as [C O].
    rewrite !fetches_covered_app, !overlay_after_app.
    cbn [fetches_covered overlay_after andb]. rewrite C.
    split; [destruct (overlay_after true _); reflexivity|].
    destruct (overlay_after true _); reflexivity.
  - rewrite (on_refresh_click_failure nts enc net s SyntaxError);
      [split; reflexivity | rewrite E; reflexivity].
Qed.

Lemma under_overlay_initializeApp net s :
  under_overlay (effects (initializeApp net) s).
Proof.
  intros up.
  destruct (message_reply net (requests (env s)) "/api/system/initialize")
    as [|ok [m|]] eqn:E.
  - rewrite (initializeApp_failure net s NetworkError);
      [split; reflexivity | rewrite E; reflexivity].
  - rewrite (initializeApp_decoded net s ok m E).
    rewrite fetchEtfList_effects, loadThemes_effects.
    destruct (failure _); destruct (failure _); split; reflexivity.
  - rewrite (initializeApp_failure net s SyntaxError);
      [split; reflexivity | rewrite E; reflexivity].
Qed.

(** X29: every request is issued under the overlay.  In the effects of
    initializeApp and of every listener, each request comes after the overlay
    has gone up and before it comes down, also the reload inside the refresh,
    which has an overlay of its own; and when the listener starts with the
    overlay down, the overlay is down when it ends. *)
Theorem X29_requests_under_overlay :
  forall (Number_toString : number -> string)
         (toLowerCase encodeURIComponent : string -> string) (net : network)
         (e : event) (s : page),
    let tr := effects (listener Number_toString toLowerCase encodeURIComponent net e) s in
    fetches_covered false tr = true
    /\ overlay_after false tr = false
    /\ fetches_covered false (effects (initializeApp net) s) = true
    /\ overlay_after false (effects (initializeApp net) s) = false.
Proof.
  intros nts lower enc net e s tr.
  assert (L : fetches_covered false tr = true /\ overlay_after false tr = false).
  { subst tr. destruct e; unfold listener.
    - unfold effects. rewrite on_search_input_run. split; reflexivity.
    - destruct (on_etf_click_effects nts enc net i s) as [E|[t [p [pre [P E]]]]];
        rewrite E; [split; reflexivity|].
      destruct (under_overlay_fetchEtfDetails nts net t p false) as [F1 F2].
      destruct P as [-> | ->]; split; assumption.
    - unfold effects. rewrite on_holdings_count_change_run. split; reflexivity.
    - destruct (on_holdings_click_effects net i s) as [E|[a [b [c E]]]];
        rewrite E; [split; reflexivity|].
      apply under_overlay_fetchStockHistory.
    - apply under_overlay_on_refresh_click.
    - unfold effects, on_export_click, bind, get, alert, emit.
      destruct (currentEtfData (js s)); split; reflexivity.
    - rewrite on_view_toggle_effects.
      destruct (currentView (js s)); [|split; reflexivity].
      apply (under_overlay_loadStatsData nts enc net (stats_entered s) false).
    - unfold effects. rewrite on_stats_type_change_run.
      destruct (currentView (js s)); [split; reflexivity|].
      apply under_overlay_loadStatsData.
    - unfold effects. rewrite on_theme_change_run.
      destruct (currentView (js s)); [split; reflexivity|].
      apply under_overlay_loadStatsData. }
  destruct L as [L1 L2]. split; [exact L1|]. split; [exact L2|].
  apply under_overlay_initializeApp.
Qed.

(** ** The chart panel and the chart *)

Lemma chart_panel_sync_invariant s : chart_panel_sync s -> chart_invariant s.
Proof.
  unfold chart_panel_sync, chart_invariant.
  destruct (live_charts (env s)) as [|k [|k' l]]; intros H; [exact I | apply H | exact H].
Qed.

Lemma panel_sync_fetchEtfDetails nts net t :
  preserves chart_panel_sync (fetchEtfDetails nts net t).
Proof.
  intros s H. unfold after. rewrite fetchEtfDetails_run.
  destruct (comparison_reply _ _ _) as [|[|] [d|]]; try exact H.
  unfold chart_panel_sync. cbn [fst snd].
  rewrite (proj1 (loading_off_charts _)), (proj2 (proj2 (loading_off_charts _))).
  destruct (details_loaded_charts nts d t
              (bump (loading_on "ETF 상세 정보를 불러오는 중입니다..." s))) as [E [_ E3]].
  rewrite E, E3.
  rewrite (proj1 (entered_charts _ _)), destroyed_entered,
    (destroyed_none s (chart_panel_sync_invariant s H)).
  reflexivity.
Qed.

Lemma chart_drawn_panel stockName history s :
  chartContainer_hidden (classes (chart_drawn stockName history s)) = false.
Proof.
  unfold chart_drawn. destruct s as [j c tx dm i st e].
  destruct j as [ae ced hd [w|] cv at0]; reflexivity.
Qed.

Lemma panel_sync_fetchStockHistory net a b c :
  preserves chart_panel_sync (fetchStockHistory net a b c).
Proof.
  intros s H. unfold after. rewrite fetchStockHistory_run.
  destruct (history_reply _ _ _) as [|[|] [d|]]; try exact H.
  cbn [fst snd]. unfold chart_panel_sync.
  rewrite (proj1 (loading_off_charts _)), (proj1 (proj2 (loading_off_charts _))),
    (proj2 (proj2 (loading_off_charts _))).
  pose proof (chart_panel_sync_invariant s H) as Hi.
  apply (chart_invariant_entered "종목 비중 추이를 불러오는 중입니다...") in Hi.
  destruct (chart_drawn_charts c (History.history d) _ Hi) as [k [E1 [_ E3]]].
  rewrite E1. split; [exact E3 | apply chart_drawn_panel].
Qed.

Lemma panel_sync_loadStatsData nts enc net :
  preserves chart_panel_sync (loadStatsData nts enc net).
Proof.
  unfold loadStatsData, showLoading, hideLoading, try_catch_finally, console_error, alert,
    fetch, check_ok, json, updateStatsTableHeaders, renderStatsTable, stats_row.
  repeat preserves_step fail.
Qed.

Ltac panel_known :=
  first [ apply panel_sync_fetchEtfDetails | apply panel_sync_fetchStockHistory
        | apply panel_sync_loadStatsData ].

Lemma panel_sync_initializeApp net : preserves chart_panel_sync (initializeApp net).
Proof.
  unfold initializeApp, fetchEtfList, loadThemes, showLoading, hideLoading,
    try_catch_finally, console_error, alert, fetch, check_ok, json, assign, renderEtfList.
  repeat preserves_step fail.
Qed.

Lemma panel_sync_listener nts lower enc net e :
  preserves chart_panel_sync (listener nts lower enc net e).
Proof.
  destruct e; unfold listener.
  - unfold on_search_input, renderEtfList. repeat preserves_step panel_known.
  - unfold on_etf_click, switchView, assign, classList_add_hidden, classList_remove_hidden.
    repeat preserves_step panel_known.
  - unfold on_holdings_count_change, renderHoldingsTable. repeat preserves_step panel_known.
  - unfold on_holdings_click. repeat preserves_step panel_known.
  - unfold on_refresh_click, showLoading, hideLoading, try_catch_finally, console_error,
      alert, fetch, json.
    repeat preserves_step panel_known.
  - unfold on_export_click, alert. repeat preserves_step panel_known.
  - unfold on_view_toggle, switchView, assign, classList_add_hidden, classList_remove_hidden.
    repeat preserves_step panel_known.
  - unfold on_stats_type_change. repeat preserves_step panel_known.
  - unfold on_theme_change. repeat preserves_step panel_known.
Qed.

(** X30: a Chart instance is live exactly while the chart panel is shown.
    If the document starts with the chart panel hidden, then after
    initializeApp and any sequence of events: when the panel is hidden no
    instance is live, and when it is shown one instance is live, the one the
    variable refers to. *)
Theorem X30_chart_live_while_shown :
  forall (Number_toString : number -> string)
         (toLowerCase encodeURIComponent : string -> string) (net : network)
         (s : page) (es : list event),
    loaded s ->
    chartContainer_hidden (classes s) = true ->
    let s' :=
      after_events Number_toString toLowerCase encodeURIComponent net es
        (after (initializeApp net) s) in
    (chartContainer_hidden (classes s') = true <-> live_charts (env s') = [])
    /\ (chartContainer_hidden (classes s') = false ->
        exists k, live_charts (env s') = [ k ] /\ weightChart (js s') = Some (chart_id k)).
Proof.
  intros nts lower enc net s es L Hh s'.
  assert (P : chart_panel_sync s').
  { apply preserves_after_events; [intros e; apply panel_sync_listener|].
    apply panel_sync_initializeApp. unfold chart_panel_sync.
    destruct L as [_ [L _]]. rewrite L. exact Hh. }
  unfold chart_panel_sync in P.
  destruct (live_charts (env s')) as [|k [|k' l]].
  - split; [split; intros _; [reflexivity | exact P]|].
    intros H. rewrite P in H. discriminate.
  - destruct P as [P1 P2]. split.
    + split; intros H; [rewrite P2 in H|]; discriminate.
    + intros _. exists k. split; [reflexivity | exact P1].
  - contradiction.
Qed.

(** The hypotheses of X30 on the example page: with a chart drawn the panel
    is shown, and after the next selection it is hidden and no instance is
    live. *)
Lemma X30_chart_live_while_shown_witness :
  loaded blank_page
  /\ chartContainer_hidden (classes blank_page) = true
  /\ chartContainer_hidden (classes charted_page) = false
  /\ (chartContainer_hidden
        (classes (after_events example_toString ascii_toLowerCase example_encode online
                    [ EtfClick 0; HoldingsClick 0; EtfClick 0 ]
                    (after (initializeApp online) blank_page))) = true
      <-> live_charts
            (env (after_events example_toString ascii_toLowerCase example_encode online
                    [ EtfClick 0; HoldingsClick 0; EtfClick 0 ]
                    (after (initializeApp online) blank_page))) = []).
Proof.
  split; [exact blank_page_loaded|]. split; [reflexivity|].
  split; [vm_compute; reflexivity|].
  exact (proj1 (X30_chart_live_while_shown example_toString ascii_toLowerCase example_encode
                  online blank_page [ EtfClick 0; HoldingsClick 0; EtfClick 0 ]
                  blank_page_loaded eq_refl)).
Defined.
